(** * Scheduling and matching engine of the appliance-service backend

    A shallow embedding of [run.py]: the pincode resolver [lookup_region],
    the technician matcher [find_technicians_for], the slot engine
    [overlap_slot] / [propose_slots], and the handlers working on the
    in-memory store ([confirm_booking], [reschedule], [cancel],
    [update_contact]).

    Conventions of the embedding.
    - A Python [str] is a [string]; character classes ([\d], [\w],
      whitespace, upper case) are given for the ASCII range.
    - A Python [int] is a [Z].
    - A [dict] used as a record is a [Record]; the three module-level
      dictionaries are [gmap string _].
    - A JSON value that may be missing is an [option].
    - An exception that the source does not catch is a [Raised] result. *)

From Stdlib Require Import ZArith Lia Ascii String Bool.
From stdpp Require Import gmap strings list.

Local Open Scope string_scope.
Local Open Scope Z_scope.

(** ** Python string primitives *)

Module PyStr.

Definition code (c : ascii) : Z := Z.of_N (N_of_ascii c).

Definition isdigit (c : ascii) : bool := (48 <=? code c) && (code c <=? 57).

Definition isupper (c : ascii) : bool := (65 <=? code c) && (code c <=? 90).

Definition isalpha (c : ascii) : bool :=
  isupper c || ((97 <=? code c) && (code c <=? 122)).

(** [str.isspace] on the ASCII range: TAB, LF, VT, FF, CR, the four
    separators FS GS RS US, and the space. *)
Definition isspace (c : ascii) : bool :=
  ((9 <=? code c) && (code c <=? 13))
  || ((28 <=? code c) && (code c <=? 32)).

Definition lower_char (c : ascii) : ascii :=
  if isupper c then ascii_of_N (Z.to_N (code c + 32)) else c.

(** [s.lower()] *)
Fixpoint lower (s : string) : string :=
  match s with
  | EmptyString => EmptyString
  | String c r => String (lower_char c) (lower r)
  end.

Fixpoint lstrip (s : string) : string :=
  match s with
  | EmptyString => EmptyString
  | String c r => if isspace c then lstrip r else s
  end.

Definition reverse (s : string) : string :=
  string_of_list_ascii (List.rev (list_ascii_of_string s)).

Definition rstrip (s : string) : string := reverse (lstrip (reverse s)).

(** [s.strip()] *)
Definition strip (s : string) : string := rstrip (lstrip s).

(** [s.startswith(p)] *)
Definition startswith (s p : string) : bool := String.prefix p s.

(** [needle in hay] *)
Fixpoint contains (needle hay : string) : bool :=
  String.prefix needle hay
  || match hay with
     | EmptyString => false
     | String _ r => contains needle r
     end.

(** [s[:n]] for a non-negative literal [n] *)
Fixpoint take (n : nat) (s : string) : string :=
  match n, s with
  | S k, String c r => String c (take k r)
  | _, _ => EmptyString
  end.

(** [s[n:]] for a non-negative literal [n] *)
Fixpoint drop (n : nat) (s : string) : string :=
  match n, s with
  | S k, String _ r => drop k r
  | _, _ => s
  end.

(** Truth value of a string: the empty string is false. *)
Definition truthy (s : string) : bool :=
  match s with EmptyString => false | String _ _ => true end.

(** Truth value of [d.get(key)]: a missing key gives [None], which is
    false, and so is the empty string. *)
Definition given (o : option string) : bool :=
  match o with Some s => truthy s | None => false end.

(** [str(n)] on one decimal digit *)
Definition digit_char (n : Z) : ascii := ascii_of_N (Z.to_N (48 + n mod 10)).

(** [n] written with exactly [w] decimal digits, as ["%0wd" % n] does
    for [0 <= n < 10^w]. *)
Fixpoint zero_padded (w : nat) (n : Z) : string :=
  match w with
  | O => EmptyString
  | S k => zero_padded k (n / 10) ++ String (digit_char n) EmptyString
  end.

Fixpoint digits_value (acc : Z) (s : string) : option Z :=
  match s with
  | EmptyString => Some acc
  | String c r =>
      if isdigit c then digits_value (10 * acc + (code c - 48)) r else None
  end.

(** [int(s)] for a non-empty all-digit field *)
Definition to_int (s : string) : option Z :=
  match s with
  | EmptyString => None
  | _ => digits_value 0 s
  end.

End PyStr.

(** ** Regular expressions of the validation helpers

    The three patterns are anchored ([^...$]) and used with [match], so a
    pattern either matches the whole string or, because [$] also matches
    just before a final newline, the string without its last newline.
    Matching is by derivatives. *)

Module Regex.

Inductive regex : Type :=
| Void : regex
| Eps : regex
| Class : (ascii -> bool) -> regex
| Cat : regex -> regex -> regex
| Alt : regex -> regex -> regex
| Star : regex -> regex.

Fixpoint nullable (r : regex) : bool :=
  match r with
  | Void => false
  | Eps => true
  | Class _ => false
  | Cat a b => nullable a && nullable b
  | Alt a b => nullable a || nullable b
  | Star _ => true
  end.

Fixpoint deriv (c : ascii) (r : regex) : regex :=
  match r with
  | Void => Void
  | Eps => Void
  | Class p => if p c then Eps else Void
  | Cat a b =>
      if nullable a then Alt (Cat (deriv c a) b) (deriv c b)
      else Cat (deriv c a) b
  | Alt a b => Alt (deriv c a) (deriv c b)
  | Star a => Cat (deriv c a) (Star a)
  end.

Fixpoint fullmatch (r : regex) (s : string) : bool :=
  match s with
  | EmptyString => nullable r
  | String c t => fullmatch (deriv c r) t
  end.

(** [x+] *)
Definition Plus (r : regex) : regex := Cat r (Star r).

(** [x{n}] *)
Fixpoint Times (n : nat) (r : regex) : regex :=
  match n with
  | O => Eps
  | S k => Cat r (Times k r)
  end.

(** [x{n,}] *)
Definition AtLeast (n : nat) (r : regex) : regex := Cat (Times n r) (Star r).

Definition Lit (c : ascii) : regex := Class (fun x => Ascii.eqb x c).

Definition newline : ascii := ascii_of_N 10.

Definition chop_newline (s : string) : option string :=
  match PyStr.reverse s with
  | String c r => if Ascii.eqb c newline then Some (PyStr.reverse r) else None
  | EmptyString => None
  end.

(** [bool(re.compile("^" r "$").match(s))] *)
Definition anchored_match (r : regex) (s : string) : bool :=
  fullmatch r s
  || match chop_newline s with
     | Some t => fullmatch r t
     | None => false
     end.

(** [re.sub(r"\D", "", s)] *)
Fixpoint sub_non_digits (s : string) : string :=
  match s with
  | EmptyString => EmptyString
  | String c r =>
      if PyStr.isdigit c then String c (sub_non_digits r) else sub_non_digits r
  end.

End Regex.

(** ** Validation helpers

    The classes [\d], [\w] and the whitespace of [strip] are those of the
    ASCII range, where Python's coincide with them; on a string with other
    characters Python may accept what these definitions reject. *)

Definition word_char (c : ascii) : bool :=
  PyStr.isalpha c || PyStr.isdigit c || Ascii.eqb c "_"%char.

Definition word_dot_dash (c : ascii) : bool :=
  word_char c || Ascii.eqb c "."%char || Ascii.eqb c "-"%char.

(** [^[6-9]\d{9}$] *)
Definition PHONE_RE : Regex.regex :=
  Regex.Cat
    (Regex.Class (fun c => (54 <=? PyStr.code c) && (PyStr.code c <=? 57)))
    (Regex.Times 9 (Regex.Class PyStr.isdigit)).

(** [^[\w\.-]+@[\w\.-]+\.\w{2,}$] *)
Definition EMAIL_RE : Regex.regex :=
  Regex.Cat (Regex.Plus (Regex.Class word_dot_dash))
    (Regex.Cat (Regex.Lit "@"%char)
       (Regex.Cat (Regex.Plus (Regex.Class word_dot_dash))
          (Regex.Cat (Regex.Lit "."%char)
             (Regex.AtLeast 2 (Regex.Class word_char))))).

(** [^\d{6}$] *)
Definition PINCODE_RE : Regex.regex := Regex.Times 6 (Regex.Class PyStr.isdigit).

Definition validate_phone (phone : string) : bool :=
  Regex.anchored_match PHONE_RE (Regex.sub_non_digits phone).

Definition validate_email (email : string) : bool :=
  Regex.anchored_match EMAIL_RE (PyStr.strip email).

Definition validate_pincode (pincode : string) : bool :=
  Regex.anchored_match PINCODE_RE (PyStr.strip pincode).

(** ** Exceptions that escape a function *)

Inductive exn : Type :=
| TypeError : exn
| IndexError : exn
| AttributeError : exn
| KeyError : exn.

Inductive Res (A : Type) : Type :=
| Ok : A -> Res A
| Raised : exn -> Res A.

Arguments Ok {A} _.
Arguments Raised {A} _.

#[global] Instance Res_ret : MRet Res := fun A x => Ok x.

#[global] Instance Res_bind : MBind Res :=
  fun A B f m => match m with Ok a => f a | Raised e => Raised e end.

(** ** [datetime] values

    The fields of a [datetime.datetime]; [tzinfo] is the UTC offset in
    microseconds of an aware value and [None] for a naive one. *)

Record datetime : Type := mk_datetime {
  year : Z;
  month : Z;
  day : Z;
  hour : Z;
  minute : Z;
  second : Z;
  microsecond : Z;
  tzinfo : option Z
}.

Definition is_leap (y : Z) : bool :=
  (y mod 4 =? 0) && (negb (y mod 100 =? 0) || (y mod 400 =? 0)).

Definition days_in_month (y m : Z) : Z :=
  if m =? 2 then (if is_leap y then 29 else 28)
  else if (m =? 4) || (m =? 6) || (m =? 9) || (m =? 11) then 30
  else 31.

Definition days_before_year (y : Z) : Z :=
  let p := y - 1 in p * 365 + p / 4 - p / 100 + p / 400.

Fixpoint days_before_month_aux (y : Z) (k : nat) : Z :=
  match k with
  | O => 0
  | S j => days_before_month_aux y j + days_in_month y (Z.of_nat k)
  end.

Definition days_before_month (y m : Z) : Z :=
  days_before_month_aux y (Z.to_nat (m - 1)).

(** [date.toordinal()] *)
Definition ymd2ord (y m d : Z) : Z :=
  days_before_year y + days_before_month y m + d.

(** Microseconds of the wall-clock fields since the start of day 0. *)
Definition wall (d : datetime) : Z :=
  (((ymd2ord (year d) (month d) (day d) * 24 + hour d) * 60 + minute d) * 60
   + second d) * 1000000 + microsecond d.

Definition utcoffset (d : datetime) : Z :=
  match tzinfo d with Some off => off | None => 0 end.

(** The point on the time line a value is ordered by: the wall clock of a
    naive value, the UTC instant of an aware one. *)
Definition instant (d : datetime) : Z := wall d - utcoffset d.

Definition is_aware (d : datetime) : bool :=
  match tzinfo d with Some _ => true | None => false end.

(** [a < b]; ordering a naive against an aware value raises. *)
Definition dt_lt (a b : datetime) : Res bool :=
  match tzinfo a, tzinfo b with
  | None, None => Ok (wall a <? wall b)
  | Some oa, Some ob => Ok (wall a - oa <? wall b - ob)
  | _, _ => Raised TypeError
  end.

(** [max(a, b)]: the first argument unless the second is greater. *)
Definition dt_max (a b : datetime) : Res datetime :=
  gt ← dt_lt a b; mret (if gt : bool then b else a).

(** [min(a, b)]: the first argument unless the second is smaller. *)
Definition dt_min (a b : datetime) : Res datetime :=
  lt ← dt_lt b a; mret (if lt : bool then b else a).

(** [datetime.fromisoformat] and [datetime.isoformat] belong to the
    Python library; the engine is stated over any pair of them. A string
    that [fromisoformat] rejects gives [None]. *)
Class IsoCodec : Type := {
  fromisoformat : string -> option datetime;
  isoformat : datetime -> string
}.

(** *** A codec for the timestamps of the technician catalogue

    [YYYY-MM-DD?HH:MM:SS] followed by nothing or by [+HH:MM] / [-HH:MM]. *)

Definition slice (a b : nat) (s : string) : string :=
  PyStr.take (b - a) (PyStr.drop a s).

Definition char_at (n : nat) (s : string) : option ascii := String.get n s.

Definition in_range (lo hi v : Z) : option Z :=
  if (lo <=? v) && (v <=? hi) then Some v else None.

Definition expect (c : ascii) (o : option ascii) : option unit :=
  match o with
  | Some x => if Ascii.eqb x c then Some tt else None
  | None => None
  end.

Definition parse_offset (s : string) : option (option Z) :=
  match s with
  | EmptyString => Some None
  | String sg r =>
      sign ← (if Ascii.eqb sg "+"%char then Some 1
              else if Ascii.eqb sg "-"%char then Some (-1) else None);
      _ ← (if Nat.eqb (String.length r) 5 then Some tt else None);
      hh ← PyStr.to_int (slice 0 2 r) ≫= in_range 0 23;
      _ ← expect ":"%char (char_at 2 r);
      mm ← PyStr.to_int (slice 3 5 r) ≫= in_range 0 59;
      Some (Some (sign * ((hh * 60 + mm) * 60 * 1000000)))
  end.

Definition std_fromisoformat (s : string) : option datetime :=
  _ ← (if Nat.leb 19 (String.length s) then Some tt else None);
  y ← PyStr.to_int (slice 0 4 s) ≫= in_range 1 9999;
  _ ← expect "-"%char (char_at 4 s);
  m ← PyStr.to_int (slice 5 7 s) ≫= in_range 1 12;
  _ ← expect "-"%char (char_at 7 s);
  d ← PyStr.to_int (slice 8 10 s) ≫= in_range 1 (days_in_month y m);
  hh ← PyStr.to_int (slice 11 13 s) ≫= in_range 0 23;
  _ ← expect ":"%char (char_at 13 s);
  mi ← PyStr.to_int (slice 14 16 s) ≫= in_range 0 59;
  _ ← expect ":"%char (char_at 16 s);
  ss ← PyStr.to_int (slice 17 19 s) ≫= in_range 0 59;
  tz ← parse_offset (PyStr.drop 19 s);
  Some (mk_datetime y m d hh mi ss 0 tz).

Definition format_offset (off : Z) : string :=
  let sign := if off <? 0 then "-" else "+" in
  let a := Z.abs off in
  let hh := a / 3600000000 in
  let mm := (a mod 3600000000) / 60000000 in
  let ss := (a mod 60000000) / 1000000 in
  let us := a mod 1000000 in
  sign ++ PyStr.zero_padded 2 hh ++ ":" ++ PyStr.zero_padded 2 mm
  ++ (if (ss =? 0) && (us =? 0) then ""
      else ":" ++ PyStr.zero_padded 2 ss
           ++ (if us =? 0 then "" else "." ++ PyStr.zero_padded 6 us)).

Definition std_isoformat (d : datetime) : string :=
  PyStr.zero_padded 4 (year d) ++ "-" ++ PyStr.zero_padded 2 (month d) ++ "-"
  ++ PyStr.zero_padded 2 (day d) ++ "T" ++ PyStr.zero_padded 2 (hour d) ++ ":"
  ++ PyStr.zero_padded 2 (minute d) ++ ":" ++ PyStr.zero_padded 2 (second d)
  ++ (if microsecond d =? 0 then ""
      else "." ++ PyStr.zero_padded 6 (microsecond d))
  ++ match tzinfo d with Some off => format_offset off | None => "" end.

Definition std_codec : IsoCodec :=
  {| fromisoformat := std_fromisoformat; isoformat := std_isoformat |}.

(** ** Utility: parse ISO datetimes, overlap of two intervals *)

Definition parse_iso `{IsoCodec} (dt_str : string) : option datetime :=
  fromisoformat dt_str.

Definition overlap_slot (pref_start pref_end tech_start tech_end : datetime)
  : Res (option (datetime * datetime)) :=
  latest_start ← dt_max pref_start tech_start;
  earliest_end ← dt_min pref_end tech_end;
  before ← dt_lt latest_start earliest_end;
  mret (if before : bool then Some (latest_start, earliest_end) else None).

(** ** Configuration: technician catalogue and cached regions *)

Record Slot : Type := mk_slot {
  start : string;
  end_ : string
}.

Record Technician : Type := mk_technician {
  t_id : string;
  t_name : string;
  t_skills : list string;
  t_appliances_supported : list string;
  t_regions : list string;
  t_availability_slots : list Slot
}.

Definition tech_01 : Technician :=
  mk_technician "tech_01" "Asha K"
    ["wm_vibration"; "ac_leak"] ["WashingMachine"; "AC"]
    ["Bengaluru Urban"; "Central"]
    [mk_slot "2025-09-20T10:00:00+05:30" "2025-09-20T12:00:00+05:30";
     mk_slot "2025-09-20T15:00:00+05:30" "2025-09-20T16:00:00+05:30"].

Definition tech_02 : Technician :=
  mk_technician "tech_02" "Ravi S"
    ["fridge_cooling"; "tv_display"] ["Refrigerator"; "TV"]
    ["Mumbai Suburban"; "Central"]
    [mk_slot "2025-09-21T09:00:00+05:30" "2025-09-21T11:00:00+05:30";
     mk_slot "2025-09-21T14:00:00+05:30" "2025-09-21T16:00:00+05:30"].

Definition tech_03 : Technician :=
  mk_technician "tech_03" "Priya M"
    ["ac_airflow"; "waterpurifier_filter"] ["AC"; "WaterPurifier"]
    ["Bengaluru Urban"; "West"]
    [mk_slot "2025-09-22T10:30:00+05:30" "2025-09-22T12:30:00+05:30";
     mk_slot "2025-09-22T15:30:00+05:30" "2025-09-22T17:00:00+05:30"].

Definition tech_04 : Technician :=
  mk_technician "tech_04" "Anil P"
    ["wm_drum"; "ac_cooling"] ["WashingMachine"; "AC"]
    ["West"; "Mumbai Suburban"]
    [mk_slot "2025-09-23T09:00:00+05:30" "2025-09-23T11:00:00+05:30";
     mk_slot "2025-09-23T13:00:00+05:30" "2025-09-23T15:00:00+05:30"].

Definition tech_05 : Technician :=
  mk_technician "tech_05" "Neha R"
    ["fridge_temp"; "tv_sound"] ["Refrigerator"; "TV"]
    ["Central"; "Bengaluru Urban"]
    [mk_slot "2025-09-24T10:00:00+05:30" "2025-09-24T12:00:00+05:30";
     mk_slot "2025-09-24T15:00:00+05:30" "2025-09-24T16:30:00+05:30"].

Definition tech_06 : Technician :=
  mk_technician "tech_06" "Kiran V"
    ["waterpurifier_flow"; "ac_noise"; "wm_motor"]
    ["WaterPurifier"; "AC"; "WashingMachine"]
    ["West"; "Mumbai Suburban"]
    [mk_slot "2025-09-25T09:30:00+05:30" "2025-09-25T11:30:00+05:30";
     mk_slot "2025-09-25T14:30:00+05:30" "2025-09-25T16:30:00+05:30"].

Definition TECHNICIANS_DATA : list Technician :=
  [tech_01; tech_02; tech_03; tech_04; tech_05; tech_06].

Record RegionEntry : Type := mk_region {
  pincode_prefix : string;
  region_label : string
}.

Definition REGIONS_CACHE : list RegionEntry :=
  [mk_region "5600xx" "Bengaluru Urban";
   mk_region "4000xx" "Mumbai Suburban";
   mk_region "1100xx" "Delhi"].

(** [x in xs] on a list of strings *)
Definition str_in (x : string) (xs : list string) : bool :=
  existsb (String.eqb x) xs.

(** ** Pincode lookup with retry and fallback *)

(** One record of the [places] array; a key that is missing is [None]. *)
Record Place : Type := mk_place {
  state : option string;
  place_name : option string
}.

(** What one [requests.get] gives: a [RequestException], or a response with
    its status code and the [places] of its JSON body ([[]] when the key is
    missing). *)
Inductive HttpResult : Type :=
| RequestException : HttpResult
| HttpResponse (status_code : Z) (places : list Place) : HttpResult.

(** [a or b] on strings *)
Definition str_or (a b : string) : string := if PyStr.truthy a then a else b.

(** The [for r in REGIONS_CACHE] loop that maps the place to a cached
    label; [None] when the loop ends without returning. *)
Fixpoint map_to_cached (state place_name : string) (cache : list RegionEntry)
  : option string :=
  match cache with
  | [] => None
  | r :: rest =>
      let lab := PyStr.lower (region_label r) in
      if PyStr.contains lab (PyStr.lower state)
         || PyStr.contains lab (PyStr.lower place_name)
      then Some (region_label r)
      else map_to_cached state place_name rest
  end.

(** The body of [if places:], which always returns. *)
Definition label_of_place (p : Place) : string :=
  let state := PyStr.strip (default "" (state p)) in
  let place_name := PyStr.strip (default "" (place_name p)) in
  match map_to_cached state place_name REGIONS_CACHE with
  | Some l => l
  | None => str_or state (str_or place_name "Unknown")
  end.

(** One pass through the [try] block: [Some l] when it returns [l],
    [None] when control reaches [attempts += 1]. *)
Definition try_lookup (r : HttpResult) : option string :=
  match r with
  | RequestException => None
  | HttpResponse code places =>
      if code =? 200 then
        match places with
        | p :: _ => Some (label_of_place p)
        | [] => None
        end
      else None
  end.

(** The [while attempts <= retries] loop. [requests_get k] is the outcome
    of the call made when [attempts = k]; [fuel] bounds the iterations. *)
Fixpoint lookup_loop (requests_get : Z -> HttpResult) (fuel : nat)
  (attempts retries : Z) : option string :=
  match fuel with
  | O => None
  | S f =>
      if attempts <=? retries then
        match try_lookup (requests_get attempts) with
        | Some l => Some l
        | None => lookup_loop requests_get f (attempts + 1) retries
        end
      else None
  end.

(** The fallback [for r in REGIONS_CACHE] loop on the pincode prefix. *)
Fixpoint cached_by_prefix (pincode : string) (cache : list RegionEntry)
  : string :=
  match cache with
  | [] => "Unknown"
  | r :: rest =>
      let prefix := PyStr.take 4 (pincode_prefix r) in
      if PyStr.startswith pincode (PyStr.take (String.length prefix) prefix)
      then region_label r
      else cached_by_prefix pincode rest
  end.

Definition lookup_region (requests_get : Z -> HttpResult) (pincode : string)
  (retries : Z) : string :=
  match lookup_loop requests_get (Z.to_nat (retries + 1)) 0 retries with
  | Some l => l
  | None => cached_by_prefix pincode REGIONS_CACHE
  end.

(** ** Scheduling logic *)

(** The [for tech in TECHNICIANS_DATA] loop with its accumulator. *)
Fixpoint collect_matches (appliance : string) (required_skill : option string)
  (region_label : string) (techs matches : list Technician)
  : list Technician :=
  match techs with
  | [] => matches
  | tech :: rest =>
      let matches' :=
        if str_in appliance (t_appliances_supported tech) then
          if str_in region_label (t_regions tech) then
            if PyStr.given required_skill then
              if str_in (default "" required_skill) (t_skills tech)
              then (matches ++ [tech])%list
              else matches
            else (matches ++ [tech])%list
          else matches
        else matches in
      collect_matches appliance required_skill region_label rest matches'
  end.

Definition find_technicians_for (appliance : string)
  (required_skill : option string) (region_label : string)
  : list Technician :=
  collect_matches appliance required_skill region_label TECHNICIANS_DATA [].

(** A slot object of a request body: [start] and [end] may be missing or
    not be strings, which is [None]. *)
Record SlotArg : Type := mk_slot_arg {
  arg_start : option string;
  arg_end : option string
}.

Record Proposal : Type := mk_proposal {
  p_start : string;
  p_end : string;
  p_technician_id : string
}.

(** State of a loop whose body may [return]. *)
Inductive Flow (A : Type) : Type :=
| Continue : A -> Flow A
| Return : A -> Flow A.

Arguments Continue {A} _.
Arguments Return {A} _.

(** [len(proposals) >= max_proposals] *)
Definition reached (proposals : list Proposal) (max_proposals : Z) : bool :=
  Z.of_nat (List.length proposals) >=? max_proposals.

Section Scheduling.

Context `{IsoCodec}.

(** The first [try] block of [propose_slots]: any failure skips the
    preference. *)
Definition parse_pref (pref : SlotArg) : option (datetime * datetime) :=
  s ← arg_start pref;
  pref_start ← parse_iso s;
  e ← arg_end pref;
  pref_end ← parse_iso e;
  Some (pref_start, pref_end).

(** The second [try] block. *)
Definition parse_tech_slot (ts : Slot) : option (datetime * datetime) :=
  tech_start ← parse_iso (start ts);
  tech_end ← parse_iso (end_ ts);
  Some (tech_start, tech_end).

(** Inner loop [for ts in tech["availability_slots"]]. *)
Fixpoint scan_availability (tech_id : string) (max_proposals : Z)
  (pref_start pref_end : datetime) (slots : list Slot)
  (proposals : list Proposal) : Res (Flow (list Proposal)) :=
  match slots with
  | [] => Ok (Continue proposals)
  | ts :: rest =>
      match parse_tech_slot ts with
      | None =>
          scan_availability tech_id max_proposals pref_start pref_end rest
            proposals
      | Some (tech_start, tech_end) =>
          ov ← overlap_slot pref_start pref_end tech_start tech_end;
          match ov with
          | Some (ov0, ov1) =>
              let proposals' :=
                (proposals
                 ++ [mk_proposal (isoformat ov0) (isoformat ov1) tech_id])%list in
              if reached proposals' max_proposals
              then Ok (Return proposals')
              else scan_availability tech_id max_proposals pref_start
                     pref_end rest proposals'
          | None =>
              scan_availability tech_id max_proposals pref_start pref_end
                rest proposals
          end
      end
  end.

(** Outer loop [for pref in customer_pref_slots]. *)
Fixpoint scan_preferences (tech : Technician) (max_proposals : Z)
  (prefs : list SlotArg) (proposals : list Proposal)
  : Res (Flow (list Proposal)) :=
  match prefs with
  | [] => Ok (Continue proposals)
  | pref :: rest =>
      match parse_pref pref with
      | None => scan_preferences tech max_proposals rest proposals
      | Some (pref_start, pref_end) =>
          r ← scan_availability (t_id tech) max_proposals pref_start
                pref_end (t_availability_slots tech) proposals;
          match r with
          | Return proposals' => Ok (Return proposals')
          | Continue proposals' =>
              scan_preferences tech max_proposals rest proposals'
          end
      end
  end.

(** Last loop: the technician's own slots, with [break]. *)
Fixpoint append_available (tech_id : string) (max_proposals : Z)
  (slots : list Slot) (proposals : list Proposal) : list Proposal :=
  match slots with
  | [] => proposals
  | ts :: rest =>
      let proposals' :=
        (proposals ++ [mk_proposal (start ts) (end_ ts) tech_id])%list in
      if reached proposals' max_proposals then proposals'
      else append_available tech_id max_proposals rest proposals'
  end.

Definition propose_slots (tech : Technician)
  (customer_pref_slots : list SlotArg) (max_proposals : Z)
  : Res (list Proposal) :=
  r ← scan_preferences tech max_proposals customer_pref_slots [];
  match r with
  | Return proposals => Ok proposals
  | Continue proposals =>
      Ok (append_available (t_id tech) max_proposals
            (t_availability_slots tech) proposals)
  end.

End Scheduling.

(** ** In-memory persistence for customers, jobs, appointments *)

Record Customer : Type := mk_customer {
  c_full_name : string;
  c_phone : string;
  c_email : string;
  c_address_text : string;
  c_pincode : string;
  c_region_label : string;
  c_preferred_time_slots : list SlotArg
}.

Record Job : Type := mk_job {
  j_request_type : string;
  j_appliance_type : string;
  j_model_if_known : string;
  j_fault_symptoms : list string;
  j_installation_details : list string;
  j_urgency : string;
  j_customer_id : string
}.

Inductive Status : Type :=
| confirmed : Status
| rescheduled : Status
| cancelled : Status.

(** An appointment dictionary. The keys written by [confirm_booking] before
    it stores the dictionary are plain fields; the keys added later on are
    optional. *)
Record Appointment : Type := mk_appointment {
  a_customer_id : string;
  a_customer_name : string;
  a_phone : string;
  a_email : string;
  a_address_text : string;
  a_pincode : string;
  a_region_label : string;
  a_appliance_type : string;
  a_fault_symptoms : list string;
  a_technician_id : string;
  a_slot_start : option string;
  a_slot_end : option string;
  a_status : Status;
  a_job_id : string;
  a_created_at : string;
  a_ticket_id : option string;
  a_crm_id : option string;
  a_calendar_id : option string;
  a_rescheduled_at : option string;
  a_cancel_reason : option string;
  a_cancelled_at : option string
}.

Record Store : Type := mk_store {
  CUSTOMERS : gmap string Customer;
  JOBS : gmap string Job;
  APPOINTMENTS : gmap string Appointment
}.

(** ** Responses of the handlers: a JSON body and a status code *)

Inductive Body : Type :=
| ErrorBody (error : string)
| ConfirmOk (ticket_id : string) (appointment : Appointment)
| RescheduleNo (message : string) (alternative_slot : Slot)
| RescheduleOk (ticket_id : string) (appointment : Appointment)
| CancelOk (ticket_id : string)
| ContactOk (customer : Customer).

Definition Response : Type := (Body * Z)%type.

(** ** Integration placeholders *)

Definition create_crm_ticket (appointment : Appointment) : string :=
  "CRM-PLACEHOLDER".

Definition sync_calendar (appointment : Appointment) : string :=
  "CAL-PLACEHOLDER".

(** [uuid8] stands for [uuid.uuid4().hex[:8]]. *)
Definition persist_appointment (st : Store) (uuid8 : string)
  (appointment : Appointment) : Store * string :=
  let ticket_id := "TK-" ++ uuid8 in
  (mk_store (CUSTOMERS st) (JOBS st)
     (<[ticket_id := appointment]> (APPOINTMENTS st)),
   ticket_id).

(** ** Endpoints (intent handlers)

    A handler takes the store and the fields it reads from the request
    body, and gives the store it leaves behind together with its response.
    An identifier is [None] when the key is missing; a slot object is
    [None] when it is missing, null or the empty object. The clock and the
    UUID generator are read by the caller and passed in.

    The fields have the types the handlers expect: an identifier that is
    present is a string, a slot that is present is an object. A request
    that breaks this (a list as [ticket_id], a string as [new_slot]) makes
    the Python handler raise [TypeError] or [AttributeError]; such
    requests are not values of these payload types. *)

Record ConfirmPayload : Type := mk_confirm_payload {
  cp_customer_id : option string;
  cp_job_id : option string;
  cp_chosen_slot : option SlotArg;
  cp_technician_id : option string
}.

Record ReschedulePayload : Type := mk_reschedule_payload {
  rp_ticket_id : option string;
  rp_new_slot : option SlotArg
}.

Record CancelPayload : Type := mk_cancel_payload {
  xp_ticket_id : option string;
  xp_reason : option string
}.

Record ContactPayload : Type := mk_contact_payload {
  up_customer_id : option string;
  up_phone : option string;
  up_email : option string
}.

Definition put_appointment (st : Store) (ticket_id : string)
  (a : Appointment) : Store :=
  mk_store (CUSTOMERS st) (JOBS st) (<[ticket_id := a]> (APPOINTMENTS st)).

Definition put_customer (st : Store) (customer_id : string) (c : Customer)
  : Store :=
  mk_store (<[customer_id := c]> (CUSTOMERS st)) (JOBS st) (APPOINTMENTS st).

(** [appointment["ticket_id"] = ...; appointment["crm_id"] = ...;
    appointment["calendar_id"] = ...] *)
Definition set_references (a : Appointment) (ticket_id crm_id cal_id : string)
  : Appointment :=
  mk_appointment (a_customer_id a) (a_customer_name a) (a_phone a) (a_email a)
    (a_address_text a) (a_pincode a) (a_region_label a) (a_appliance_type a)
    (a_fault_symptoms a) (a_technician_id a) (a_slot_start a) (a_slot_end a)
    (a_status a) (a_job_id a) (a_created_at a)
    (Some ticket_id) (Some crm_id) (Some cal_id)
    (a_rescheduled_at a) (a_cancel_reason a) (a_cancelled_at a).

(** The four assignments at the end of [reschedule]. *)
Definition set_rescheduled (a : Appointment) (new_slot : SlotArg)
  (now : string) : Appointment :=
  mk_appointment (a_customer_id a) (a_customer_name a) (a_phone a) (a_email a)
    (a_address_text a) (a_pincode a) (a_region_label a) (a_appliance_type a)
    (a_fault_symptoms a) (a_technician_id a)
    (arg_start new_slot) (arg_end new_slot) rescheduled
    (a_job_id a) (a_created_at a)
    (a_ticket_id a) (a_crm_id a) (a_calendar_id a)
    (Some now) (a_cancel_reason a) (a_cancelled_at a).

(** The three assignments at the end of [cancel]. *)
Definition set_cancelled (a : Appointment) (reason now : string)
  : Appointment :=
  mk_appointment (a_customer_id a) (a_customer_name a) (a_phone a) (a_email a)
    (a_address_text a) (a_pincode a) (a_region_label a) (a_appliance_type a)
    (a_fault_symptoms a) (a_technician_id a) (a_slot_start a) (a_slot_end a)
    cancelled (a_job_id a) (a_created_at a)
    (a_ticket_id a) (a_crm_id a) (a_calendar_id a)
    (a_rescheduled_at a) (Some reason) (Some now).

Definition set_phone (c : Customer) (phone : string) : Customer :=
  mk_customer (c_full_name c) phone (c_email c) (c_address_text c)
    (c_pincode c) (c_region_label c) (c_preferred_time_slots c).

Definition set_email (c : Customer) (email : string) : Customer :=
  mk_customer (c_full_name c) (c_phone c) email (c_address_text c)
    (c_pincode c) (c_region_label c) (c_preferred_time_slots c).

Definition slot_given (o : option SlotArg) : bool :=
  match o with Some _ => true | None => false end.

Definition no_slot : SlotArg := mk_slot_arg None None.

Definition confirm_booking (st : Store) (payload : ConfirmPayload)
  (uuid8 now : string) : Store * Response :=
  let customer_id := cp_customer_id payload in
  let job_id := cp_job_id payload in
  let chosen_slot := cp_chosen_slot payload in
  let technician_id := cp_technician_id payload in
  if negb (PyStr.given customer_id) || negb (PyStr.given job_id)
     || negb (slot_given chosen_slot) || negb (PyStr.given technician_id)
  then
    (st, (ErrorBody "customer_id, job_id, chosen_slot, technician_id required",
          400))
  else
    let customer_id := default "" customer_id in
    let job_id := default "" job_id in
    let chosen_slot := default no_slot chosen_slot in
    let technician_id := default "" technician_id in
    match CUSTOMERS st !! customer_id, JOBS st !! job_id with
    | Some customer, Some job =>
        let appointment :=
          mk_appointment customer_id (c_full_name customer) (c_phone customer)
            (c_email customer) (c_address_text customer) (c_pincode customer)
            (c_region_label customer) (j_appliance_type job)
            (j_fault_symptoms job) technician_id
            (arg_start chosen_slot) (arg_end chosen_slot) confirmed job_id now
            None None None None None None in
        let '(st1, ticket_id) := persist_appointment st uuid8 appointment in
        let crm_id := create_crm_ticket appointment in
        let cal_id := sync_calendar appointment in
        (* the stored dictionary is this very object: it gets the keys too *)
        let appointment' := set_references appointment ticket_id crm_id cal_id in
        let st2 := put_appointment st1 ticket_id appointment' in
        (st2, (ConfirmOk ticket_id appointment', 200))
    | _, _ => (st, (ErrorBody "invalid customer_id or job_id", 400))
    end.

(** [next((t for t in TECHNICIANS_DATA if t["id"] == technician_id), None)] *)
Definition find_technician (technician_id : string) : option Technician :=
  List.find (fun t => String.eqb (t_id t) technician_id) TECHNICIANS_DATA.

(** [ts["start"] == new_slot.get("start") and ts["end"] == new_slot.get("end")] *)
Definition same_slot (ts : Slot) (new_slot : SlotArg) : bool :=
  match arg_start new_slot, arg_end new_slot with
  | Some s, Some e => String.eqb (start ts) s && String.eqb (end_ ts) e
  | _, _ => false
  end.

(** The [for ts in tech["availability_slots"]] loop setting [match]. *)
Fixpoint slot_available (slots : list Slot) (new_slot : SlotArg) : bool :=
  match slots with
  | [] => false
  | ts :: rest => if same_slot ts new_slot then true else slot_available rest new_slot
  end.

Definition reschedule (st : Store) (payload : ReschedulePayload) (now : string)
  : Res (Store * Response) :=
  let ticket_id := rp_ticket_id payload in
  let new_slot := rp_new_slot payload in
  if negb (PyStr.given ticket_id) || negb (slot_given new_slot) then
    Ok (st, (ErrorBody "ticket_id and new_slot required", 400))
  else
    let ticket_id := default "" ticket_id in
    let new_slot := default no_slot new_slot in
    match APPOINTMENTS st !! ticket_id with
    | None => Ok (st, (ErrorBody "ticket not found", 404))
    | Some appointment =>
        match find_technician (a_technician_id appointment) with
        | None => Ok (st, (ErrorBody "technician not found", 404))
        | Some tech =>
            if negb (slot_available (t_availability_slots tech) new_slot) then
              match t_availability_slots tech with
              | alt :: _ =>
                  Ok (st, (RescheduleNo "requested slot not available" alt, 200))
              | [] => Raised IndexError
              end
            else
              let appointment' := set_rescheduled appointment new_slot now in
              Ok (put_appointment st ticket_id appointment',
                  (RescheduleOk ticket_id appointment', 200))
        end
    end.

Definition cancel (st : Store) (payload : CancelPayload) (now : string)
  : Store * Response :=
  let ticket_id := xp_ticket_id payload in
  let reason := default "" (xp_reason payload) in
  if negb (PyStr.given ticket_id) then
    (st, (ErrorBody "ticket_id required", 400))
  else
    let ticket_id := default "" ticket_id in
    match APPOINTMENTS st !! ticket_id with
    | None => (st, (ErrorBody "ticket not found", 404))
    | Some appointment =>
        (put_appointment st ticket_id (set_cancelled appointment reason now),
         (CancelOk ticket_id, 200))
    end.

Definition update_contact (st : Store) (payload : ContactPayload)
  : Store * Response :=
  let customer_id := up_customer_id payload in
  let phone := up_phone payload in
  let email := up_email payload in
  if negb (PyStr.given customer_id) then
    (st, (ErrorBody "customer_id required", 400))
  else
    let customer_id := default "" customer_id in
    match CUSTOMERS st !! customer_id with
    | None => (st, (ErrorBody "customer not found", 404))
    | Some customer =>
        if PyStr.given phone && negb (validate_phone (default "" phone)) then
          (st, (ErrorBody "invalid phone", 400))
        else
          (* customer["phone"] = phone writes into the stored dictionary *)
          let customer1 :=
            if PyStr.given phone then set_phone customer (default "" phone)
            else customer in
          let st1 := put_customer st customer_id customer1 in
          if PyStr.given email && negb (validate_email (default "" email)) then
            (st1, (ErrorBody "invalid email", 400))
          else
            let customer2 :=
              if PyStr.given email then set_email customer1 (default "" email)
              else customer1 in
            (put_customer st1 customer_id customer2, (ContactOk customer2, 200))
    end.

(** ** Specification-side definitions, for comparison with the code *)

(** An attempt fails when the call raises, the status is not 200, or the
    body carries no place record. *)
Definition attempt_fails (r : HttpResult) : Prop :=
  match r with
  | RequestException => True
  | HttpResponse code places => code <> 200 \/ places = []
  end.

(** Static prefix fallback: the first entry whose 4-character pincode
    prefix is a prefix of the input. *)
Definition prefix_entry (pincode : string) : option RegionEntry :=
  List.find (fun r => String.prefix (PyStr.take 4 (pincode_prefix r)) pincode)
    REGIONS_CACHE.

(** Candidate label of the specification: state name, else locality name. *)
Definition spec_candidate (p : Place) : string :=
  str_or (PyStr.strip (default "" (state p)))
    (PyStr.strip (default "" (place_name p))).

(** Containment in either direction, ignoring case. *)
Definition spec_entry_matches (candidate : string) (r : RegionEntry) : bool :=
  PyStr.contains (PyStr.lower candidate) (PyStr.lower (region_label r))
  || PyStr.contains (PyStr.lower (region_label r)) (PyStr.lower candidate).

Definition spec_normalize (p : Place) : string :=
  match List.find (spec_entry_matches (spec_candidate p)) REGIONS_CACHE with
  | Some r => region_label r
  | None => spec_candidate p
  end.

(** What the code tests: the label occurs in the state name or in the
    locality name. *)
Definition label_occurs (state place_name : string) (r : RegionEntry) : bool :=
  PyStr.contains (PyStr.lower (region_label r)) (PyStr.lower state)
  || PyStr.contains (PyStr.lower (region_label r)) (PyStr.lower place_name).

(** The three predicates as the specification words them: the skill is
    absent or is in the technician's skill set. *)
Definition spec_qualifies (appliance : string)
  (required_skill : option string) (region_label : string)
  (tech : Technician) : bool :=
  str_in appliance (t_appliances_supported tech)
  && str_in region_label (t_regions tech)
  && match required_skill with
     | None => true
     | Some skill => str_in skill (t_skills tech)
     end.

(** What the code tests: [if required_skill:] is false for [None] and for
    the empty string alike, and in both cases the skill set is not
    looked at. *)
Definition qualifies (appliance : string) (required_skill : option string)
  (region_label : string) (tech : Technician) : bool :=
  str_in appliance (t_appliances_supported tech)
  && str_in region_label (t_regions tech)
  && match required_skill with
     | None => true
     | Some skill => String.eqb skill "" || str_in skill (t_skills tech)
     end.

(** *** Sample instants, preferences and store used by the examples *)

Definition at_0800 : datetime := mk_datetime 2025 9 20 8 0 0 0 (Some 19800000000).
Definition at_0900 : datetime := mk_datetime 2025 9 20 9 0 0 0 (Some 19800000000).
Definition at_1000 : datetime := mk_datetime 2025 9 20 10 0 0 0 (Some 19800000000).
Definition at_1200 : datetime := mk_datetime 2025 9 20 12 0 0 0 (Some 19800000000).

Definition pref_0800_0900 : SlotArg :=
  mk_slot_arg (Some "2025-09-20T08:00:00+05:30")
    (Some "2025-09-20T09:00:00+05:30").

Definition pref_1000_1100 : SlotArg :=
  mk_slot_arg (Some "2025-09-20T10:00:00+05:30")
    (Some "2025-09-20T11:00:00+05:30").

Definition demo_customer : Customer :=
  mk_customer "Meera N" "9876543210" "meera@example.com" "12 MG Road"
    "560001" "Bengaluru Urban" [pref_1000_1100].

Definition demo_job : Job :=
  mk_job "service" "WashingMachine" "" ["wm_vibration"] [] "normal"
    "CUST-1a2b3c4d".

Definition demo_store : Store :=
  mk_store {[ "CUST-1a2b3c4d" := demo_customer ]}
    {[ "JOB-5e6f7a8b" := demo_job ]} ∅.

Definition demo_slot : SlotArg :=
  mk_slot_arg (Some "2025-09-20T10:00:00+05:30")
    (Some "2025-09-20T12:00:00+05:30").

Definition demo_confirm : ConfirmPayload :=
  mk_confirm_payload (Some "CUST-1a2b3c4d") (Some "JOB-5e6f7a8b")
    (Some demo_slot) (Some "tech_01").

Definition booked_store : Store :=
  fst (confirm_booking demo_store demo_confirm "9f8e7d6c"
         "2025-09-19T08:00:00+00:00").

Definition cancelled_store : Store :=
  fst (cancel booked_store
         (mk_cancel_payload (Some "TK-9f8e7d6c") (Some "customer away"))
         "2025-09-19T09:00:00+00:00").

(** The request carries all four fields of [confirm_booking]. *)
Definition complete (payload : ConfirmPayload) : bool :=
  PyStr.given (cp_customer_id payload) && PyStr.given (cp_job_id payload)
  && slot_given (cp_chosen_slot payload)
  && PyStr.given (cp_technician_id payload).

(** The request names [ticket]. *)
Definition targets (payload : ReschedulePayload) (ticket : string) : bool :=
  match rp_ticket_id payload with
  | Some t => PyStr.truthy t && String.eqb t ticket
  | None => false
  end.

(** The new slot equals, start and end, an availability interval of the
    technician assigned to [a]. *)
Definition slot_accepted (a : Appointment) (new_slot : option SlotArg) : bool :=
  match new_slot, find_technician (a_technician_id a) with
  | Some slot, Some tech => slot_available (t_availability_slots tech) slot
  | _, _ => false
  end.

(** *** Invariants of the proposal loops *)

Section SlotPredicates.

Context `{IsoCodec}.

(** Every proposal belongs to [tech_id]. *)
Definition owned_by (tech_id : string) (l : list Proposal) : Prop :=
  Forall (fun p => p_technician_id p = tech_id) l.

(** Loop invariant: owned, and still below the cap. *)
Definition below_cap (tech_id : string) (max_proposals : Z)
  (l : list Proposal) : Prop :=
  owned_by tech_id l /\ Z.of_nat (List.length l) < max_proposals.

(** What a loop leaves behind: below the cap while running, within it
    once returned. *)
Definition flow_ok (tech_id : string) (max_proposals : Z)
  (r : Flow (list Proposal)) : Prop :=
  match r with
  | Continue l => below_cap tech_id max_proposals l
  | Return l =>
      owned_by tech_id l /\ Z.of_nat (List.length l) <= max_proposals
  end.

(** A string whose parse, if any, has awareness [b]. *)
Definition parses_as (b : bool) (s : string) : Prop :=
  forall d, parse_iso s = Some d -> is_aware d = b.

(** All timestamps of the technician and of the preferences that parse
    are of one kind: all aware or all naive. *)
Definition one_kind (tech : Technician) (prefs : list SlotArg) : Prop :=
  exists b,
    Forall (fun ts => parses_as b (start ts) /\ parses_as b (end_ ts))
      (t_availability_slots tech)
    /\ Forall (fun pref =>
                 (forall s, arg_start pref = Some s -> parses_as b s)
                 /\ (forall e, arg_end pref = Some e -> parses_as b e))
         prefs.

End SlotPredicates.

(** ** Meaning of the regular expressions

    The strings a pattern denotes, against which the derivative matcher is
    checked. *)

Inductive denotes : Regex.regex -> string -> Prop :=
| denotes_eps : denotes Regex.Eps ""
| denotes_class (p : ascii -> bool) (c : ascii) :
    p c = true -> denotes (Regex.Class p) (String c "")
| denotes_cat (a b : Regex.regex) (s t : string) :
    denotes a s -> denotes b t -> denotes (Regex.Cat a b) (s ++ t)
| denotes_alt_l (a b : Regex.regex) (s : string) :
    denotes a s -> denotes (Regex.Alt a b) s
| denotes_alt_r (a b : Regex.regex) (s : string) :
    denotes b s -> denotes (Regex.Alt a b) s
| denotes_star_nil (a : Regex.regex) : denotes (Regex.Star a) ""
| denotes_star_cons (a : Regex.regex) (s t : string) :
    denotes a s -> denotes (Regex.Star a) t -> denotes (Regex.Star a) (s ++ t).

(** Every character of [s] satisfies [p]. *)
Fixpoint all_chars (p : ascii -> bool) (s : string) : bool :=
  match s with
  | EmptyString => true
  | String c r => p c && all_chars p r
  end.

(** ** Masking of personal data *)

(** Any character but the at sign. *)
Definition not_at (c : ascii) : bool := negb (Ascii.eqb c "@"%char).

(** [s.split(sep)] for a one-character separator *)
Fixpoint split_on (sep : ascii) (s : string) : list string :=
  match s with
  | EmptyString => [EmptyString]
  | String c r =>
      if Ascii.eqb c sep then EmptyString :: split_on sep r
      else match split_on sep r with
           | p :: ps => String c p :: ps
           | [] => [String c EmptyString]
           end
  end.

(** [s[-2:]] *)
Definition last_two (s : string) : string :=
  PyStr.drop (String.length s - 2) s.

(** [parts[i]] where the index is known to be in range *)
Definition part (i : nat) (parts : list string) : string := nth i parts "".

Definition mask_pii (s : string) : string :=
  if negb (PyStr.truthy s) then s
  else if PyStr.contains "@" s then
    let parts := split_on "@"%char s in
    PyStr.take 2 (part 0 parts) ++ "***@" ++ part 1 parts
  else PyStr.take 2 s ++ "***" ++ last_two s.

(** ** Warm transfer to a human agent *)

(** The keys [warm_transfer_payload] reads from the dictionary it is given:
    a stored appointment or the [context] object of the request. A key
    that is missing or null is [None]; [proposed_slots] defaults to [[]]. *)
Record TransferSource : Type := mk_transfer_source {
  x_customer_name : option string;
  x_phone : option string;
  x_appliance_type : option string;
  x_fault_symptoms : option (list string);
  x_proposed_slots : list SlotArg
}.

Record TransferSummary : Type := mk_transfer_summary {
  s_customer : option string;
  s_phone : string;
  s_appliance : option string;
  s_fault_symptoms : option (list string);
  s_attempted_slots : list SlotArg;
  s_reason : option string
}.

(** A stored appointment seen as such a dictionary; it has no
    [proposed_slots] key. *)
Definition appointment_source (a : Appointment) : TransferSource :=
  mk_transfer_source (Some (a_customer_name a)) (Some (a_phone a))
    (Some (a_appliance_type a)) (Some (a_fault_symptoms a)) [].

Definition empty_context : TransferSource :=
  mk_transfer_source None None None None [].

(** [appointment.get("phone")[:2]] raises on [None]. *)
Definition warm_transfer_payload (appointment : TransferSource)
  : Res TransferSummary :=
  match x_phone appointment with
  | None => Raised TypeError
  | Some phone =>
      Ok (mk_transfer_summary (x_customer_name appointment)
            (PyStr.take 2 phone ++ "***" ++ last_two phone)
            (x_appliance_type appointment) (x_fault_symptoms appointment)
            (x_proposed_slots appointment) None)
  end.

(** The fields [escalate_to_human] reads; [ep_context] is [None] when the
    key is missing, which the handler takes as the empty object. *)
Record EscalatePayload : Type := mk_escalate_payload {
  ep_ticket_id : option string;
  ep_reason : option string;
  ep_context : option TransferSource
}.

Definition set_reason (s : TransferSummary) (reason : string)
  : TransferSummary :=
  mk_transfer_summary (s_customer s) (s_phone s) (s_appliance s)
    (s_fault_symptoms s) (s_attempted_slots s) (Some reason).

(** The handler gives the [transfer_payload] of its body and the status. *)
Definition escalate_to_human (st : Store) (payload : EscalatePayload)
  : Res (TransferSummary * Z) :=
  let ticket_id := ep_ticket_id payload in
  let reason := default "" (ep_reason payload) in
  let appointment :=
    if PyStr.given ticket_id
    then APPOINTMENTS st !! default "" ticket_id
    else None in
  let source :=
    match appointment with
    | Some a => appointment_source a
    | None => default empty_context (ep_context payload)
    end in
  summary ← warm_transfer_payload source;
  Ok (set_reason summary reason, 200).

(** ** Address change *)

Record AddressPayload : Type := mk_address_payload {
  ap_customer_id : option string;
  ap_address_text : option string;
  ap_pincode : option string
}.

Definition set_address_text (c : Customer) (address_text : string) : Customer :=
  mk_customer (c_full_name c) (c_phone c) (c_email c) address_text
    (c_pincode c) (c_region_label c) (c_preferred_time_slots c).

Definition set_pincode_region (c : Customer) (pincode region_label : string)
  : Customer :=
  mk_customer (c_full_name c) (c_phone c) (c_email c) (c_address_text c)
    pincode region_label (c_preferred_time_slots c).

Definition change_address (requests_get : Z -> HttpResult) (st : Store)
  (payload : AddressPayload) : Store * Response :=
  let customer_id := ap_customer_id payload in
  let address_text := default "" (ap_address_text payload) in
  let pincode := default "" (ap_pincode payload) in
  if negb (PyStr.given customer_id) then
    (st, (ErrorBody "customer_id required", 400))
  else
    let customer_id := default "" customer_id in
    match CUSTOMERS st !! customer_id with
    | None => (st, (ErrorBody "customer not found", 404))
    | Some customer =>
        (* customer["address_text"] = ... writes into the stored dictionary *)
        let customer1 :=
          if PyStr.truthy address_text
          then set_address_text customer address_text else customer in
        let st1 := put_customer st customer_id customer1 in
        if PyStr.truthy pincode then
          if negb (validate_pincode pincode) then
            (st1, (ErrorBody "invalid pincode", 400))
          else
            let customer2 :=
              set_pincode_region customer1 pincode
                (lookup_region requests_get pincode 2) in
            (put_customer st1 customer_id customer2, (ContactOk customer2, 200))
        else (st1, (ContactOk customer1, 200))
    end.

(** ** Availability query *)

Record AvailabilityEntry : Type := mk_availability_entry {
  av_technician_id : string;
  av_technician_name : string;
  av_slots : list Slot
}.

Inductive AvailabilityBody : Type :=
| AvailabilityError (error : string)
| AvailabilityOk (region_label : string) (availability : list AvailabilityEntry).

(** The [for tech in TECHNICIANS_DATA] loop of [ask_availability]. *)
Fixpoint collect_availability (appliance region_label : string)
  (techs : list Technician) (results : list AvailabilityEntry)
  : list AvailabilityEntry :=
  match techs with
  | [] => results
  | tech :: rest =>
      let results' :=
        if str_in appliance (t_appliances_supported tech)
           && str_in region_label (t_regions tech)
        then (results
              ++ [mk_availability_entry (t_id tech) (t_name tech)
                    (firstn 2 (t_availability_slots tech))])%list
        else results in
      collect_availability appliance region_label rest results'
  end.

(** The two query parameters; a missing one is [None]. *)
Definition ask_availability (requests_get : Z -> HttpResult)
  (pincode appliance : option string) : AvailabilityBody * Z :=
  let pincode := PyStr.strip (default "" pincode) in
  let appliance := PyStr.strip (default "" appliance) in
  if negb (validate_pincode pincode) || negb (PyStr.truthy appliance) then
    (AvailabilityError "pincode and appliance required", 400)
  else
    let region_label := lookup_region requests_get pincode 2 in
    (AvailabilityOk region_label
       (collect_availability appliance region_label TECHNICIANS_DATA []),
     200).

(** ** Intake handlers *)

(** Knowledge stubs for adaptive questioning *)
Definition KNOWLEDGE_STUBS : list (string * list string) :=
  [("WashingMachine",
    ["Is the drum spinning?"; "Is there vibration or movement?";
     "Is water intake or drainage normal?"; "Are any error codes visible?"]);
   ("AC",
    ["Is it cooling effectively?"; "Is there reduced airflow?";
     "Any unusual noise?"; "Any water leakage?";
     "Any error codes displayed?"]);
   ("Refrigerator",
    ["Is cooling normal?"; "Any frost buildup?";
     "Is the door sealing properly?"; "Any unusual noise?"]);
   ("TV",
    ["Does the TV power on?"; "Are there display issues?";
     "Is the remote pairing fine?"; "Are input ports working?"]);
   ("WaterPurifier",
    ["Is water flowing normally?"; "Is filter status ok?"; "Any leakage?";
     "Any unusual noise?"])].

(** [KNOWLEDGE_STUBS.get(appliance_type, [])] *)
Fixpoint knowledge_questions_in (table : list (string * list string))
  (appliance_type : string) : list string :=
  match table with
  | [] => []
  | (k, qs) :: rest =>
      if String.eqb k appliance_type then qs
      else knowledge_questions_in rest appliance_type
  end.

Definition knowledge_questions (appliance_type : string) : list string :=
  knowledge_questions_in KNOWLEDGE_STUBS appliance_type.

Definition put_job (st : Store) (job_id : string) (j : Job) : Store :=
  mk_store (CUSTOMERS st) (<[job_id := j]> (JOBS st)) (APPOINTMENTS st).

(** Equality of two proposal dictionaries *)
Definition proposal_eqb (p q : Proposal) : bool :=
  String.eqb (p_start p) (p_start q) && String.eqb (p_end p) (p_end q)
  && String.eqb (p_technician_id p) (p_technician_id q).

(** [p in proposals] *)
Definition proposal_in (p : Proposal) (proposals : list Proposal) : bool :=
  existsb (proposal_eqb p) proposals.

(** [for p in more: if p not in proposals: proposals.append(p)] *)
Fixpoint append_new (more proposals : list Proposal) : list Proposal :=
  match more with
  | [] => proposals
  | p :: rest =>
      append_new rest
        (if proposal_in p proposals then proposals
         else (proposals ++ [p])%list)
  end.

(** The fields both intake handlers read; a missing text field is [None],
    a missing list is [[]]. *)
Record IntakePayload : Type := mk_intake_payload {
  ip_full_name : option string;
  ip_phone : option string;
  ip_email : option string;
  ip_address_text : option string;
  ip_pincode : option string;
  ip_preferred_time_slots : list SlotArg;
  ip_appliance_type : option string;
  ip_fault_symptoms : list string;
  ip_installation_details : list string;
  ip_urgency : option string;
  ip_model_if_known : option string
}.

Inductive IntakeBody : Type :=
| IntakeError (errors : list string)
| ServiceOk (customer_id job_id region_label : string)
    (matched_tech_count : Z) (proposed_slots : list Proposal)
    (knowledge_questions : list string)
| InstallationOk (customer_id job_id region_label : string)
    (proposed_slots : list Proposal).

(** [if cond: errors.append(msg)] *)
Definition error_if (cond : bool) (msg : string) (errors : list string)
  : list string :=
  if cond then (errors ++ [msg])%list else errors.

Definition list_truthy {A : Type} (l : list A) : bool :=
  match l with [] => false | _ :: _ => true end.

Section Intake.

Context `{IsoCodec}.

(** The [while len(proposals) < 2 and idx+1 < len(techs)] loop; [others]
    is [techs[idx+1:]]. *)
Fixpoint more_proposals (others : list Technician) (prefs : list SlotArg)
  (proposals : list Proposal) : Res (list Proposal) :=
  match others with
  | [] => Ok proposals
  | tech :: rest =>
      if Z.of_nat (List.length proposals) <? 2 then
        more ← propose_slots tech prefs 2;
        more_proposals rest prefs (append_new more proposals)
      else Ok proposals
  end.

(** [proposals = []; if techs: ...] *)
Definition gather_proposals (techs : list Technician) (prefs : list SlotArg)
  : Res (list Proposal) :=
  match techs with
  | [] => Ok []
  | first :: others =>
      proposals ← propose_slots first prefs 2;
      more_proposals others prefs proposals
  end.

(** [uuid_c] and [uuid_j] stand for the two [uuid.uuid4().hex[:8]]. *)
Definition register_service_issue (requests_get : Z -> HttpResult)
  (st : Store) (payload : IntakePayload) (uuid_c uuid_j : string)
  : Res (Store * (IntakeBody * Z)) :=
  let full_name := PyStr.strip (default "" (ip_full_name payload)) in
  let phone := PyStr.strip (default "" (ip_phone payload)) in
  let email := PyStr.strip (default "" (ip_email payload)) in
  let address_text := PyStr.strip (default "" (ip_address_text payload)) in
  let pincode := PyStr.strip (default "" (ip_pincode payload)) in
  let preferred_time_slots := ip_preferred_time_slots payload in
  let appliance_type := PyStr.strip (default "" (ip_appliance_type payload)) in
  let fault_symptoms := ip_fault_symptoms payload in
  let urgency := default "normal" (ip_urgency payload) in
  let errors := [] in
  let errors := error_if (negb (PyStr.truthy full_name)) "full_name required" errors in
  let errors :=
    error_if (negb (validate_phone phone))
      "invalid phone (expected 10-digit Indian mobile)" errors in
  let errors :=
    error_if (PyStr.truthy email && negb (validate_email email))
      "invalid email" errors in
  let errors :=
    error_if (negb (validate_pincode pincode)) "invalid pincode (6 digits)"
      errors in
  let errors :=
    error_if (negb (PyStr.truthy appliance_type)) "appliance_type required"
      errors in
  if list_truthy errors then Ok (st, (IntakeError errors, 400))
  else
    let region_label := lookup_region requests_get pincode 2 in
    let required_skill := head fault_symptoms in
    let techs := find_technicians_for appliance_type required_skill region_label in
    proposals ← gather_proposals techs preferred_time_slots;
    let customer_id := "CUST-" ++ uuid_c in
    let st1 :=
      put_customer st customer_id
        (mk_customer full_name phone email address_text pincode region_label
           preferred_time_slots) in
    let job_id := "JOB-" ++ uuid_j in
    let st2 :=
      put_job st1 job_id
        (mk_job "service" appliance_type
           (default "" (ip_model_if_known payload)) fault_symptoms [] urgency
           customer_id) in
    Ok (st2,
        (ServiceOk customer_id job_id region_label
           (Z.of_nat (List.length techs)) proposals
           (knowledge_questions appliance_type),
         200)).

Definition book_installation (requests_get : Z -> HttpResult)
  (st : Store) (payload : IntakePayload) (uuid_c uuid_j : string)
  : Res (Store * (IntakeBody * Z)) :=
  let full_name := PyStr.strip (default "" (ip_full_name payload)) in
  let phone := PyStr.strip (default "" (ip_phone payload)) in
  let pincode := PyStr.strip (default "" (ip_pincode payload)) in
  let appliance_type := PyStr.strip (default "" (ip_appliance_type payload)) in
  let preferred_time_slots := ip_preferred_time_slots payload in
  let email := PyStr.strip (default "" (ip_email payload)) in
  let errors := [] in
  let errors := error_if (negb (PyStr.truthy full_name)) "full_name required" errors in
  let errors := error_if (negb (validate_phone phone)) "invalid phone" errors in
  let errors :=
    error_if (PyStr.truthy email && negb (validate_email email))
      "invalid email" errors in
  let errors := error_if (negb (validate_pincode pincode)) "invalid pincode" errors in
  let errors :=
    error_if (negb (PyStr.truthy appliance_type)) "appliance_type required"
      errors in
  if list_truthy errors then Ok (st, (IntakeError errors, 400))
  else
    let region_label := lookup_region requests_get pincode 2 in
    (* required_skill = "install_..." is computed and not used *)
    let techs := find_technicians_for appliance_type None region_label in
    proposals ← gather_proposals techs preferred_time_slots;
    let customer_id := "CUST-" ++ uuid_c in
    let st1 :=
      put_customer st customer_id
        (mk_customer full_name phone email
           (default "" (ip_address_text payload)) pincode region_label
           preferred_time_slots) in
    let job_id := "JOB-" ++ uuid_j in
    let st2 :=
      put_job st1 job_id
        (mk_job "installation" appliance_type
           (default "" (ip_model_if_known payload)) []
           (ip_installation_details payload)
           (default "normal" (ip_urgency payload)) customer_id) in
    Ok (st2, (InstallationOk customer_id job_id region_label proposals, 200)).

End Intake.

(** ** Reference values for the lifecycle results *)

(** The appointment [confirm_booking] builds from a customer, a job and
    the four request fields, with the three references it adds. *)
Definition booked_appointment (customer : Customer) (job : Job)
  (customer_id job_id technician_id : string) (chosen_slot : SlotArg)
  (ticket_id now : string) : Appointment :=
  mk_appointment customer_id (c_full_name customer) (c_phone customer)
    (c_email customer) (c_address_text customer) (c_pincode customer)
    (c_region_label customer) (j_appliance_type job) (j_fault_symptoms job)
    technician_id (arg_start chosen_slot) (arg_end chosen_slot) confirmed
    job_id now (Some ticket_id) (Some "CRM-PLACEHOLDER")
    (Some "CAL-PLACEHOLDER") None None None.

(** ** Reference values for the intake results *)

(** [payload.get(key, "").strip()] *)
Definition stripped (o : option string) : string := PyStr.strip (default "" o).

(** The five checks the intake handlers make before they do anything. *)
Definition intake_valid (payload : IntakePayload) : bool :=
  PyStr.truthy (stripped (ip_full_name payload))
  && validate_phone (stripped (ip_phone payload))
  && (negb (PyStr.truthy (stripped (ip_email payload)))
      || validate_email (stripped (ip_email payload)))
  && validate_pincode (stripped (ip_pincode payload))
  && PyStr.truthy (stripped (ip_appliance_type payload)).

(** A sample intake request and a lookup service that is down. *)
Definition demo_intake : IntakePayload :=
  mk_intake_payload (Some " Meera N ") (Some "98765 43210") None
    (Some " 12 MG Road ") (Some "560001 ") [pref_1000_1100]
    (Some "WashingMachine") ["wm_vibration"] ["wall mount"] None None.

Definition service_down : Z -> HttpResult := fun _ => RequestException.

Definition demo_proposals : list Proposal :=
  [mk_proposal "2025-09-20T10:00:00+05:30" "2025-09-20T11:00:00+05:30"
     "tech_01";
   mk_proposal "2025-09-20T10:00:00+05:30" "2025-09-20T12:00:00+05:30"
     "tech_01"].

(** ** Observability endpoint *)

Record DebugState : Type := mk_debug_state {
  d_customers : gmap string Customer;
  d_jobs : gmap string Job;
  d_appointments_count : Z;
  d_technicians_count : Z
}.

(** [masked = c.copy()] with phone and email replaced by their masks *)
Definition masked_copy (c : Customer) : Customer :=
  set_email (set_phone c (mask_pii (c_phone c))) (mask_pii (c_email c)).

Definition debug_state (st : Store) : DebugState * Z :=
  (mk_debug_state (masked_copy <$> CUSTOMERS st) (JOBS st)
     (Z.of_nat (size (APPOINTMENTS st)))
     (Z.of_nat (List.length TECHNICIANS_DATA)),
   200).

(** ** The lookup service on the wire

    [lookup_region] above takes each answer of the service already read as
    the interface describes it. Here an answer carries the body as the JSON
    value [resp.json()] returns, whatever its shape, and every operation of
    the source that can fail on it is written out. *)

#[local] Unset Elimination Schemes.

Inductive json : Type :=
| JNull : json
| JBool : bool -> json
| JNumber : Z -> json
| JString : string -> json
| JArray : list json -> json
| JObject : list (string * json) -> json.

#[local] Set Elimination Schemes.

(** [d[key]] of a parsed object; of a repeated key the last value counts. *)
Fixpoint obj_get (key : string) (fields : list (string * json))
  : option json :=
  match fields with
  | [] => None
  | (k, v) :: rest =>
      match obj_get key rest with
      | Some later => Some later
      | None => if String.eqb k key then Some v else None
      end
  end.

(** Truth value of a JSON value. A number stands for its value; only
    whether it is zero is ever looked at. *)
Definition json_truthy (v : json) : bool :=
  match v with
  | JNull => false
  | JBool b => b
  | JNumber n => negb (n =? 0)
  | JString s => PyStr.truthy s
  | JArray items => list_truthy items
  | JObject fields => list_truthy fields
  end.

(** [v.get(key, dflt)]: only an object has [get]. *)
Definition py_get (v : json) (key : string) (dflt : json) : Res json :=
  match v with
  | JObject fields => Ok (default dflt (obj_get key fields))
  | _ => Raised AttributeError
  end.

(** [v[0]] *)
Definition py_first (v : json) : Res json :=
  match v with
  | JArray (x :: _) => Ok x
  | JArray [] => Raised IndexError
  | JString (String c _) => Ok (JString (String c EmptyString))
  | JString EmptyString => Raised IndexError
  | JObject _ => Raised KeyError
  | JNull | JBool _ | JNumber _ => Raised TypeError
  end.

(** [v.strip()]: only a string has [strip]. *)
Definition py_strip (v : json) : Res string :=
  match v with
  | JString s => Ok (PyStr.strip s)
  | _ => Raised AttributeError
  end.

Module Wire.

(** What one [requests.get] followed by [resp.json()] gives: a
    [RequestException], or a response with its status code and body. The
    body is [None] when it is not JSON; [resp.json()] then raises
    [requests.exceptions.JSONDecodeError], which is a [RequestException]
    (requests 2.27 and later). *)
Inductive HttpReply : Type :=
| RequestException : HttpReply
| Reply (status_code : Z) (body : option json) : HttpReply.

(** The body of [if places:] on the first place, as it is written. *)
Definition label_of_place (p : json) : Res string :=
  state_value ← py_get p "state" (JString "");
  state ← py_strip state_value;
  name_value ← py_get p "place name" (JString "");
  place_name ← py_strip name_value;
  Ok (match map_to_cached state place_name REGIONS_CACHE with
      | Some l => l
      | None => str_or state (str_or place_name "Unknown")
      end).

(** One pass through the [try] block: [Ok (Some l)] when it returns [l],
    [Ok None] when control reaches [attempts += 1], [Raised e] when [e]
    leaves the block, not being a [RequestException]. *)
Definition try_lookup (r : HttpReply) : Res (option string) :=
  match r with
  | RequestException => Ok None
  | Reply code body =>
      if code =? 200 then
        match body with
        | None => Ok None
        | Some js =>
            places ← py_get js "places" (JArray []);
            if json_truthy places then
              p ← py_first places;
              l ← label_of_place p;
              Ok (Some l)
            else Ok None
        end
      else Ok None
  end.

Fixpoint lookup_loop (requests_get : Z -> HttpReply) (fuel : nat)
  (attempts retries : Z) : Res (option string) :=
  match fuel with
  | O => Ok None
  | S f =>
      if attempts <=? retries then
        r ← try_lookup (requests_get attempts);
        match r with
        | Some l => Ok (Some l)
        | None => lookup_loop requests_get f (attempts + 1) retries
        end
      else Ok None
  end.

Definition lookup_region (requests_get : Z -> HttpReply) (pincode : string)
  (retries : Z) : Res string :=
  r ← lookup_loop requests_get (Z.to_nat (retries + 1)) 0 retries;
  Ok (match r with
      | Some l => l
      | None => cached_by_prefix pincode REGIONS_CACHE
      end).

End Wire.

(** *** Reading an answer as the interface describes it *)

(** A text field of a place: missing, a string, or of another type. *)
Definition read_text (fields : list (string * json)) (key : string)
  : option (option string) :=
  match obj_get key fields with
  | None => Some None
  | Some (JString s) => Some (Some s)
  | Some _ => None
  end.

(** The answer as a status with place records, when it has that shape:
    the body an object, its [places] missing, false in a test, or a list
    whose first element is an object with [state] and [place name] each
    missing or a string. Only the first place is ever read. [None] for a
    200 answer of any other shape. *)
Definition read_reply (r : Wire.HttpReply) : option HttpResult :=
  match r with
  | Wire.RequestException => Some RequestException
  | Wire.Reply code body =>
      if negb (code =? 200) then Some (HttpResponse code [])
      else
        match body with
        | None => Some RequestException
        | Some (JObject fields) =>
            match obj_get "places" fields with
            | None => Some (HttpResponse 200 [])
            | Some places =>
                if negb (json_truthy places) then Some (HttpResponse 200 [])
                else
                  match places with
                  | JArray (JObject place :: _) =>
                      match read_text place "state",
                            read_text place "place name" with
                      | Some st, Some pn =>
                          Some (HttpResponse 200 [mk_place st pn])
                      | _, _ => None
                      end
                  | _ => None
                  end
            end
        | Some _ => None
        end
  end.

(** A 200 answer whose first place has [null] for its state. *)
Definition null_state_reply : Wire.HttpReply :=
  Wire.Reply 200
    (Some (JObject
             [("places",
               JArray [JObject [("state", JNull);
                                ("place name", JString "Connaught Place")]])])).

(** A 200 answer as the service gives it. *)
Definition delhi_reply : Wire.HttpReply :=
  Wire.Reply 200
    (Some (JObject
             [("post code", JString "110001"); ("country", JString "India");
              ("places",
               JArray [JObject [("place name", JString "Connaught Place");
                                ("state", JString "Delhi");
                                ("latitude", JString "28.6333")]])])).

(** ** ASCII strings *)

Definition is_ascii_char (c : ascii) : bool := PyStr.code c <? 128.

(** [s.isascii()] *)
Definition isascii (s : string) : bool := all_chars is_ascii_char s.
(** ** Validation helpers: examples *)

Example validate_phone_ok : validate_phone "98765 43210" = true.
Proof. vm_compute. reflexivity. Qed.

Example validate_phone_short : validate_phone "12345" = false.
Proof. vm_compute. reflexivity. Qed.

Example validate_email_ok : validate_email " asha.k@example.co " = true.
Proof. vm_compute. reflexivity. Qed.

Example validate_email_no_at : validate_email "not-an-email" = false.
Proof. vm_compute. reflexivity. Qed.

Example validate_pincode_ok : validate_pincode "560001" = true.
Proof. vm_compute. reflexivity. Qed.

(** ** Region resolver: results *)

Lemma take_length (s : string) : PyStr.take (String.length s) s = s.
Proof. induction s as [|c s IH]; simpl; [reflexivity | now rewrite IH]. Qed.

Lemma cached_by_prefix_find (pincode : string) (cache : list RegionEntry) :
  cached_by_prefix pincode cache =
  match List.find
          (fun r => String.prefix (PyStr.take 4 (pincode_prefix r)) pincode)
          cache with
  | Some r => region_label r
  | None => "Unknown"
  end.
Proof.
  induction cache as [|r rest IH]; simpl; [reflexivity |].
  unfold PyStr.startswith. rewrite take_length.
  destruct (String.prefix _ pincode); [reflexivity | exact IH].
Qed.

Lemma map_to_cached_find (st pn : string) (cache : list RegionEntry) :
  map_to_cached st pn cache =
  region_label <$> List.find (label_occurs st pn) cache.
Proof.
  induction cache as [|r rest IH]; simpl; [reflexivity |].
  unfold label_occurs at 1.
  destruct (_ || _); [reflexivity | exact IH].
Qed.

Lemma truthy_nonempty (s : string) : PyStr.truthy s = true -> s <> "".
Proof. destruct s; simpl; congruence. Qed.

Lemma str_or_nonempty (a b : string) : b <> "" -> str_or a b <> "".
Proof.
  intros Hb. unfold str_or. destruct (PyStr.truthy a) eqn:E; [|exact Hb].
  now apply truthy_nonempty.
Qed.

Lemma cache_labels_nonempty (r : RegionEntry) :
  In r REGIONS_CACHE -> region_label r <> "".
Proof.
  simpl. intros [<-|[<-|[<-|[]]]]; discriminate.
Qed.

Lemma label_of_place_nonempty (p : Place) : label_of_place p <> "".
Proof.
  unfold label_of_place. rewrite map_to_cached_find.
  destruct (List.find _ REGIONS_CACHE) as [r|] eqn:E; simpl.
  - apply find_some in E. apply cache_labels_nonempty, E.
  - apply str_or_nonempty, str_or_nonempty. discriminate.
Qed.

Lemma cached_by_prefix_nonempty (pincode : string) :
  cached_by_prefix pincode REGIONS_CACHE <> "".
Proof.
  rewrite cached_by_prefix_find.
  destruct (List.find _ REGIONS_CACHE) as [r|] eqn:E.
  - apply find_some in E. apply cache_labels_nonempty, E.
  - discriminate.
Qed.

Lemma try_lookup_nonempty (r : HttpResult) (l : string) :
  try_lookup r = Some l -> l <> "".
Proof.
  destruct r as [|code [|p ps]]; simpl; try discriminate;
    destruct (code =? 200); try discriminate.
  intros [= <-]. apply label_of_place_nonempty.
Qed.

Lemma try_lookup_fails (r : HttpResult) :
  attempt_fails r <-> try_lookup r = None.
Proof.
  destruct r as [|code places]; simpl; [tauto|].
  destruct (Z.eqb_spec code 200) as [->|Hne].
  - destruct places; split; intros Hf; try reflexivity; try discriminate.
    + now right.
    + destruct Hf as [Hf|Hf]; [now elim Hf | discriminate].
  - split; [reflexivity | intros _; now left].
Qed.

Lemma lookup_loop_nonempty (net : Z -> HttpResult) (fuel : nat)
  (a r : Z) (l : string) :
  lookup_loop net fuel a r = Some l -> l <> "".
Proof.
  revert a. induction fuel as [|f IH]; intros a; simpl; [discriminate|].
  destruct (a <=? r); [|discriminate].
  destruct (try_lookup (net a)) as [l'|] eqn:E.
  - intros [= <-]. eapply try_lookup_nonempty, E.
  - apply IH.
Qed.

Lemma lookup_loop_all_fail (net : Z -> HttpResult) (fuel : nat) (a r : Z) :
  (forall k, a <= k <= r -> try_lookup (net k) = None) ->
  lookup_loop net fuel a r = None.
Proof.
  revert a. induction fuel as [|f IH]; intros a Hall; simpl; [reflexivity|].
  destruct (Z.leb_spec a r) as [Hle|Hgt]; [|reflexivity].
  rewrite Hall by lia. apply IH. intros k Hk. apply Hall. lia.
Qed.

(** The fuel [retries + 1 - attempts] lets the loop reach every attempt
    the [while] condition admits. *)
Lemma lookup_loop_first_success (net : Z -> HttpResult) (fuel : nat)
  (a r k : Z) (l : string) :
  a <= k <= r ->
  (Z.to_nat (r + 1 - a) <= fuel)%nat ->
  (forall j, a <= j < k -> try_lookup (net j) = None) ->
  try_lookup (net k) = Some l ->
  lookup_loop net fuel a r = Some l.
Proof.
  revert a. induction fuel as [|f IH]; intros a Hk Hfuel Hbefore Hat.
  - lia.
  - simpl. destruct (Z.leb_spec a r) as [Hle|Hgt]; [|lia].
    destruct (Z.eq_dec a k) as [->|Hne].
    + now rewrite Hat.
    + rewrite Hbefore by lia. apply IH; try lia; [|exact Hat].
      intros j Hj. apply Hbefore. lia.
Qed.

(** On answers already read as the interface describes them, the label
    [lookup_region] returns is not empty. It is the label of the first
    attempt that answers 200 with a place record; when every attempt
    fails, the label of the first cached entry whose 4-character prefix is
    a prefix of the pincode; and ["Unknown"] when there is no such
    entry. *)
Theorem lookup_region_total_three_tiers
  (requests_get : Z -> HttpResult) (pincode : string) (retries : Z) :
  lookup_region requests_get pincode retries <> ""
  /\ (forall k p ps,
        0 <= k <= retries ->
        (forall j, 0 <= j < k -> attempt_fails (requests_get j)) ->
        requests_get k = HttpResponse 200 (p :: ps) ->
        lookup_region requests_get pincode retries = label_of_place p)
  /\ ((forall k, 0 <= k <= retries -> attempt_fails (requests_get k)) ->
      lookup_region requests_get pincode retries =
      match prefix_entry pincode with
      | Some r => region_label r
      | None => "Unknown"
      end).
Proof.
  unfold lookup_region. split; [|split].
  - destruct (lookup_loop _ _ _ _) as [l|] eqn:E.
    + eapply lookup_loop_nonempty, E.
    + apply cached_by_prefix_nonempty.
  - intros k p ps Hk Hbefore Hat.
    erewrite lookup_loop_first_success with (k := k) (l := label_of_place p);
      [reflexivity | exact Hk | lia | | now rewrite Hat].
    intros j Hj. apply try_lookup_fails, Hbefore, Hj.
  - intros Hall. rewrite lookup_loop_all_fail.
    + apply cached_by_prefix_find.
    + intros k Hk. apply try_lookup_fails, Hall, Hk.
Qed.

Lemma lookup_region_witness :
  lookup_region (fun _ => RequestException) "560001" 2 <> ""
  /\ lookup_region (fun _ => RequestException) "560001" 2 = "Bengaluru Urban"
  /\ lookup_region (fun _ => HttpResponse 503 []) "999999" 2 = "Unknown".
Proof.
  destruct (lookup_region_total_three_tiers
              (fun _ => RequestException) "560001" 2) as (Hne & _ & Hfall).
  destruct (lookup_region_total_three_tiers
              (fun _ => HttpResponse 503 []) "999999" 2) as (_ & _ & Hunk).
  split; [exact Hne | split].
  - rewrite Hfall; [reflexivity | intros k _; exact I].
  - rewrite Hunk; [reflexivity | intros k _; left; discriminate].
Defined.

Lemma lookup_region_on_success (net : Z -> HttpResult) (pincode : string)
  (retries k : Z) (p : Place) (ps : list Place) :
  0 <= k <= retries ->
  (forall j, 0 <= j < k -> attempt_fails (net j)) ->
  net k = HttpResponse 200 (p :: ps) ->
  lookup_region net pincode retries = label_of_place p.
Proof.
  intros Hk Hbefore Hat. unfold lookup_region.
  erewrite lookup_loop_first_success with (k := k) (l := label_of_place p);
    [reflexivity | exact Hk | lia | | now rewrite Hat].
  intros j Hj. apply try_lookup_fails, Hbefore, Hj.
Qed.

(** C8, as stated, fails: the cached label ["Delhi"] contains the candidate
    ["Del"], so containment in either direction would return ["Delhi"];
    the resolver returns the raw candidate. *)
Lemma lookup_region_label_containing_candidate :
  let p := mk_place (Some "Del") None in
  let net := fun _ : Z => HttpResponse 200 [p] in
  spec_candidate p = "Del"
  /\ spec_entry_matches (spec_candidate p) (mk_region "1100xx" "Delhi") = true
  /\ spec_normalize p = "Delhi"
  /\ lookup_region net "110001" 2 = "Del"
  /\ lookup_region net "110001" 2 <> spec_normalize p.
Proof. vm_compute. repeat split; discriminate. Qed.

(** C8, amended. When an attempt answers 200 with a place record (and the
    attempts before it failed), the resolver returns the label of the
    first cached entry whose label, in lower case, occurs in the lower-case
    state name or in the lower-case locality name of the first place; when
    no entry does, it returns the state name, else the locality name, else
    ["Unknown"]. Containment is tested in this one direction only. *)
Theorem lookup_region_normalizes_by_label_occurrence
  (requests_get : Z -> HttpResult) (pincode : string) (retries k : Z)
  (p : Place) (ps : list Place) :
  0 <= k <= retries ->
  (forall j, 0 <= j < k -> attempt_fails (requests_get j)) ->
  requests_get k = HttpResponse 200 (p :: ps) ->
  let st := PyStr.strip (default "" (state p)) in
  let pn := PyStr.strip (default "" (place_name p)) in
  lookup_region requests_get pincode retries =
  match List.find (label_occurs st pn) REGIONS_CACHE with
  | Some r => region_label r
  | None => if PyStr.truthy st then st
            else if PyStr.truthy pn then pn else "Unknown"
  end.
Proof.
  intros Hk Hbefore Hat st pn.
  rewrite (lookup_region_on_success _ _ _ _ _ _ Hk Hbefore Hat).
  unfold label_of_place. fold st pn. rewrite map_to_cached_find.
  destruct (List.find _ REGIONS_CACHE); reflexivity.
Qed.

Lemma lookup_region_normalizes_witness :
  let net := fun k : Z =>
    if k =? 0 then RequestException
    else HttpResponse 200 [mk_place (Some " Karnataka ")
                             (Some "BENGALURU URBAN North")] in
  lookup_region net "560001" 2 = "Bengaluru Urban".
Proof.
  intros net.
  rewrite (lookup_region_normalizes_by_label_occurrence net "560001" 2 1
             (mk_place (Some " Karnataka ") (Some "BENGALURU URBAN North")) []).
  - vm_compute. reflexivity.
  - lia.
  - intros j Hj. assert (j = 0) as -> by lia. exact I.
  - reflexivity.
Defined.

(** ** Technician matcher: results *)

Lemma collect_matches_filter (appliance : string)
  (required_skill : option string) (region_label : string)
  (techs matches : list Technician) :
  collect_matches appliance required_skill region_label techs matches =
  (matches
   ++ List.filter (qualifies appliance required_skill region_label) techs)%list.
Proof.
  revert matches. induction techs as [|t rest IH]; intros matches; simpl.
  - now rewrite app_nil_r.
  - rewrite IH. unfold qualifies at 2.
    destruct (str_in appliance _); simpl; [|reflexivity].
    destruct (str_in region_label _); simpl; [|reflexivity].
    destruct required_skill as [[|c s]|]; simpl;
      try (now rewrite <- app_assoc).
    destruct (str_in _ (t_skills t)); [now rewrite <- app_assoc | reflexivity].
Qed.

Lemma filter_none {A : Type} (f : A -> bool) (l : list A) :
  (forall x, In x l -> f x = false) -> List.filter f l = [].
Proof.
  induction l as [|a l IH]; intros Hnone; simpl; [reflexivity|].
  rewrite Hnone by (now left). apply IH. intros x Hx. apply Hnone. now right.
Qed.

Lemma str_in_In (x : string) (xs : list string) :
  str_in x xs = true <-> In x xs.
Proof.
  unfold str_in. rewrite existsb_exists. split.
  - intros (y & Hy & Heq). apply String.eqb_eq in Heq. now subst.
  - intros Hx. exists x. split; [exact Hx | apply String.eqb_refl].
Qed.

(** C5, as stated, fails: with the empty string as required skill the
    specification's predicate holds of no technician, since none has an
    empty skill, and the matcher returns [tech_01] and [tech_03]. *)
Lemma find_technicians_for_empty_skill_not_filtered :
  List.filter (spec_qualifies "AC" (Some "") "Bengaluru Urban")
    TECHNICIANS_DATA = []
  /\ find_technicians_for "AC" (Some "") "Bengaluru Urban"
     = [tech_01; tech_03]
  /\ find_technicians_for "AC" (Some "") "Bengaluru Urban"
     <> List.filter (spec_qualifies "AC" (Some "") "Bengaluru Urban")
          TECHNICIANS_DATA.
Proof. vm_compute. repeat split; discriminate. Qed.

(** C5, amended. [find_technicians_for] returns exactly the technicians of
    the catalogue that support the appliance, serve the region and have
    the required skill when one is given and is not the empty string, in
    catalogue order; a skill that is missing or empty is not tested. For
    any other skill this is the specification's predicate. For ["AC"],
    ["Bengaluru Urban"] and no skill the result is [tech_01] then
    [tech_03]; when nobody qualifies it is the empty list. *)
Theorem find_technicians_for_filters_in_order
  (appliance : string) (required_skill : option string)
  (region_label : string) :
  find_technicians_for appliance required_skill region_label =
    List.filter (qualifies appliance required_skill region_label)
      TECHNICIANS_DATA
  /\ (forall tech,
        In tech (find_technicians_for appliance required_skill region_label)
        <-> In tech TECHNICIANS_DATA
            /\ In appliance (t_appliances_supported tech)
            /\ In region_label (t_regions tech)
            /\ (required_skill = None \/ required_skill = Some ""
                \/ exists skill, required_skill = Some skill
                                 /\ In skill (t_skills tech)))
  /\ ((forall tech, In tech TECHNICIANS_DATA ->
         qualifies appliance required_skill region_label tech = false) ->
      find_technicians_for appliance required_skill region_label = [])
  /\ find_technicians_for "AC" None "Bengaluru Urban" = [tech_01; tech_03]
  /\ (required_skill <> Some "" ->
      find_technicians_for appliance required_skill region_label =
      List.filter (spec_qualifies appliance required_skill region_label)
        TECHNICIANS_DATA).
Proof.
  assert (Heq : find_technicians_for appliance required_skill region_label =
                List.filter (qualifies appliance required_skill region_label)
                  TECHNICIANS_DATA).
  { unfold find_technicians_for. now rewrite collect_matches_filter. }
  split; [exact Heq | split; [|split; [|split]]].
  - intros tech. rewrite Heq, filter_In. unfold qualifies.
    rewrite !andb_true_iff, !str_in_In.
    split.
    + intros (Hin & (Ha & Hr) & Hs). repeat split; try assumption.
      destruct required_skill as [skill|]; [|now left].
      apply orb_true_iff in Hs as [Hs|Hs].
      * apply String.eqb_eq in Hs. subst. right; now left.
      * right; right. exists skill. split; [reflexivity | now apply str_in_In].
    + intros (Hin & Ha & Hr & Hs). repeat split; try assumption.
      destruct Hs as [->|[->|(skill & -> & Hs)]]; try reflexivity.
      apply orb_true_iff. right. now apply str_in_In.
  - intros Hnone. rewrite Heq. now apply filter_none.
  - vm_compute. reflexivity.
  - intros Hskill. rewrite Heq. apply filter_ext. intros tech.
    unfold qualifies, spec_qualifies.
    destruct required_skill as [skill|]; [|reflexivity].
    destruct (String.eqb_spec skill "") as [->|_]; [congruence | reflexivity].
Qed.

Lemma find_technicians_for_witness :
  find_technicians_for "TV" (Some "ac_leak") "Delhi" = []
  /\ find_technicians_for "WashingMachine" (Some "wm_vibration")
       "Bengaluru Urban" = [tech_01].
Proof.
  destruct (find_technicians_for_filters_in_order "TV" (Some "ac_leak") "Delhi")
    as (_ & _ & Hnone & _).
  destruct (find_technicians_for_filters_in_order "WashingMachine"
              (Some "wm_vibration") "Bengaluru Urban") as (Hf & _).
  split.
  - apply Hnone. intros tech Hin. simpl in Hin.
    destruct Hin as [<-|[<-|[<-|[<-|[<-|[<-|[]]]]]]]; reflexivity.
  - rewrite Hf. vm_compute. reflexivity.
Defined.

(** ** Slot engine: results *)

Lemma dt_lt_same_kind (a b : datetime) :
  is_aware a = is_aware b -> dt_lt a b = Ok (instant a <? instant b).
Proof.
  unfold dt_lt, is_aware, instant, utcoffset.
  destruct (tzinfo a), (tzinfo b); intros E; try discriminate;
    [reflexivity | now rewrite !Z.sub_0_r].
Qed.

Lemma dt_max_same_kind (a b : datetime) :
  is_aware a = is_aware b ->
  dt_max a b = Ok (if instant a <? instant b then b else a).
Proof. intros E. unfold dt_max. now rewrite dt_lt_same_kind. Qed.

Lemma dt_min_same_kind (a b : datetime) :
  is_aware a = is_aware b ->
  dt_min a b = Ok (if instant b <? instant a then b else a).
Proof. intros E. unfold dt_min. now rewrite dt_lt_same_kind. Qed.

Lemma instant_max (a b : datetime) :
  instant (if instant a <? instant b then b else a)
  = Z.max (instant a) (instant b).
Proof. destruct (Z.ltb_spec (instant a) (instant b)); lia. Qed.

Lemma instant_min (a b : datetime) :
  instant (if instant b <? instant a then b else a)
  = Z.min (instant a) (instant b).
Proof. destruct (Z.ltb_spec (instant b) (instant a)); lia. Qed.

Lemma overlap_slot_same_kind (ps pe ts te : datetime) :
  is_aware ps = is_aware ts ->
  is_aware pe = is_aware te ->
  is_aware ps = is_aware pe ->
  let ls := if instant ps <? instant ts then ts else ps in
  let ee := if instant te <? instant pe then te else pe in
  overlap_slot ps pe ts te =
  Ok (if Z.max (instant ps) (instant ts) <? Z.min (instant pe) (instant te)
      then Some (ls, ee) else None).
Proof.
  intros E1 E2 E3 ls ee. unfold overlap_slot.
  rewrite dt_max_same_kind, dt_min_same_kind by assumption. simpl.
  fold ls ee. rewrite dt_lt_same_kind.
  - unfold ls, ee. now rewrite instant_max, instant_min.
  - unfold ls, ee.
    destruct (instant ps <? instant ts), (instant te <? instant pe); congruence.
Qed.

(** For a preferred and an availability interval whose four ends can
    be ordered (all aware or all naive), [overlap_slot] returns the pair
    (latest start, earliest end) exactly when the maximum of the two
    starts lies strictly before the minimum of the two ends, and nothing
    otherwise; the returned ends are ends of the inputs. Hence an interval
    met with itself gives that interval, and two disjoint intervals give
    no overlap. *)
Theorem overlap_slot_max_start_min_end
  (pref_start pref_end tech_start tech_end : datetime) :
  is_aware pref_start = is_aware tech_start ->
  is_aware pref_end = is_aware tech_end ->
  is_aware pref_start = is_aware pref_end ->
  (exists latest_start earliest_end,
     dt_max pref_start tech_start = Ok latest_start
     /\ dt_min pref_end tech_end = Ok earliest_end
     /\ instant latest_start = Z.max (instant pref_start) (instant tech_start)
     /\ instant earliest_end = Z.min (instant pref_end) (instant tech_end)
     /\ overlap_slot pref_start pref_end tech_start tech_end =
        Ok (if instant latest_start <? instant earliest_end
            then Some (latest_start, earliest_end) else None))
  /\ (tech_start = pref_start -> tech_end = pref_end ->
      instant pref_start < instant pref_end ->
      overlap_slot pref_start pref_end tech_start tech_end =
      Ok (Some (pref_start, pref_end)))
  /\ (instant pref_end <= instant tech_start
      \/ instant tech_end <= instant pref_start ->
      overlap_slot pref_start pref_end tech_start tech_end = Ok None).
Proof.
  intros E1 E2 E3.
  pose proof (overlap_slot_same_kind _ _ _ _ E1 E2 E3) as Hov. simpl in Hov.
  split; [|split].
  - eexists _, _. rewrite dt_max_same_kind, dt_min_same_kind by assumption.
    split; [reflexivity | split; [reflexivity |]].
    rewrite instant_max, instant_min. split; [reflexivity | split; [reflexivity |]].
    exact Hov.
  - intros -> -> Hlt. rewrite Hov.
    rewrite Z.max_id, Z.min_id, !Z.ltb_irrefl.
    destruct (Z.ltb_spec (instant pref_start) (instant pref_end)); [reflexivity | lia].
  - intros Hdisj. rewrite Hov.
    destruct (Z.ltb_spec (Z.max (instant pref_start) (instant tech_start))
                (Z.min (instant pref_end) (instant tech_end))); [lia | reflexivity].
Qed.

Lemma overlap_slot_witness :
  overlap_slot at_1000 at_1200 at_1000 at_1200 = Ok (Some (at_1000, at_1200))
  /\ overlap_slot at_0800 at_0900 at_1000 at_1200 = Ok None.
Proof.
  split.
  - apply (overlap_slot_max_start_min_end at_1000 at_1200 at_1000 at_1200);
      try reflexivity.
  - apply (overlap_slot_max_start_min_end at_0800 at_0900 at_1000 at_1200);
      try reflexivity.
    left. vm_compute. discriminate.
Defined.

Example std_fromisoformat_1000 :
  std_fromisoformat "2025-09-20T10:00:00+05:30" = Some at_1000.
Proof. vm_compute. reflexivity. Qed.

Example std_isoformat_1000 :
  std_isoformat at_1000 = "2025-09-20T10:00:00+05:30".
Proof. vm_compute. reflexivity. Qed.

Example naive_against_aware_raises :
  overlap_slot (mk_datetime 2025 9 20 10 0 0 0 None) at_1200 at_1000 at_1200
  = Raised TypeError.
Proof. reflexivity. Qed.

Section SchedulingResults.

Context `{IsoCodec}.

Lemma owned_by_snoc (tech_id s e : string) (l : list Proposal) :
  owned_by tech_id l ->
  owned_by tech_id (l ++ [mk_proposal s e tech_id])%list.
Proof.
  intros Hl. apply Forall_app. split; [exact Hl|].
  constructor; [reflexivity | constructor].
Qed.

Lemma snoc_step (tech_id s e : string) (max_proposals : Z)
  (l : list Proposal) :
  below_cap tech_id max_proposals l ->
  let l' := (l ++ [mk_proposal s e tech_id])%list in
  owned_by tech_id l'
  /\ Z.of_nat (List.length l') <= max_proposals
  /\ (reached l' max_proposals = false -> below_cap tech_id max_proposals l').
Proof.
  intros [Hown Hlen] l'.
  assert (Hl' : Z.of_nat (List.length l') = Z.of_nat (List.length l) + 1).
  { unfold l'. rewrite length_app. simpl. lia. }
  split; [now apply owned_by_snoc | split; [lia|]].
  unfold reached. intros Hr. split; [now apply owned_by_snoc|].
  destruct (Z.geb_spec (Z.of_nat (List.length l')) max_proposals);
    [discriminate | lia].
Qed.

Lemma scan_availability_ok (tech_id : string) (max_proposals : Z)
  (ps pe : datetime) (slots : list Slot) (acc : list Proposal)
  (r : Flow (list Proposal)) :
  below_cap tech_id max_proposals acc ->
  scan_availability tech_id max_proposals ps pe slots acc = Ok r ->
  flow_ok tech_id max_proposals r.
Proof.
  revert acc. induction slots as [|ts rest IH]; intros acc Hacc; simpl.
  - intros [= <-]. exact Hacc.
  - destruct (parse_tech_slot ts) as [[tstart tend]|]; [|now apply IH].
    destruct (overlap_slot ps pe tstart tend) as [[[ov0 ov1]|]|e]; simpl;
      [| now apply IH | discriminate].
    destruct (snoc_step tech_id (isoformat ov0) (isoformat ov1)
                max_proposals acc Hacc) as (Hown & Hle & Hbelow).
    destruct (reached _ max_proposals) eqn:Hr.
    + intros [= <-]. split; assumption.
    + apply IH. now apply Hbelow.
Qed.

Lemma scan_preferences_ok (tech : Technician) (max_proposals : Z)
  (prefs : list SlotArg) (acc : list Proposal) (r : Flow (list Proposal)) :
  below_cap (t_id tech) max_proposals acc ->
  scan_preferences tech max_proposals prefs acc = Ok r ->
  flow_ok (t_id tech) max_proposals r.
Proof.
  revert acc. induction prefs as [|pref rest IH]; intros acc Hacc; simpl.
  - intros [= <-]. exact Hacc.
  - destruct (parse_pref pref) as [[ps pe]|]; [|now apply IH].
    destruct (scan_availability _ _ ps pe _ acc) as [[l|l]|e] eqn:E; simpl;
      try discriminate.
    + apply IH. exact (scan_availability_ok _ _ _ _ _ _ _ Hacc E).
    + intros [= <-]. exact (scan_availability_ok _ _ _ _ _ _ _ Hacc E).
Qed.

Lemma append_available_ok (tech_id : string) (max_proposals : Z)
  (slots : list Slot) (acc : list Proposal) :
  below_cap tech_id max_proposals acc ->
  let l := append_available tech_id max_proposals slots acc in
  owned_by tech_id l /\ Z.of_nat (List.length l) <= max_proposals.
Proof.
  revert acc. induction slots as [|ts rest IH]; intros acc Hacc; simpl.
  - destruct Hacc as [Hown Hlen]. split; [exact Hown | lia].
  - destruct (snoc_step tech_id (start ts) (end_ ts) max_proposals acc Hacc)
      as (Hown & Hle & Hbelow).
    destruct (reached _ max_proposals) eqn:Hr.
    + split; assumption.
    + apply IH. now apply Hbelow.
Qed.

Lemma parse_tech_slot_kind (b : bool) (ts : Slot) (ds de : datetime) :
  parses_as b (start ts) -> parses_as b (end_ ts) ->
  parse_tech_slot ts = Some (ds, de) ->
  is_aware ds = b /\ is_aware de = b.
Proof.
  intros Hs He. unfold parse_tech_slot.
  destruct (parse_iso (start ts)) as [d1|] eqn:E1; simpl; [|discriminate].
  destruct (parse_iso (end_ ts)) as [d2|] eqn:E2; simpl; [|discriminate].
  intros [= <- <-]. split; [now apply Hs | now apply He].
Qed.

Lemma parse_pref_kind (b : bool) (pref : SlotArg) (ds de : datetime) :
  (forall s, arg_start pref = Some s -> parses_as b s) ->
  (forall e, arg_end pref = Some e -> parses_as b e) ->
  parse_pref pref = Some (ds, de) ->
  is_aware ds = b /\ is_aware de = b.
Proof.
  intros Hs He. unfold parse_pref.
  destruct (arg_start pref) as [s|]; simpl; [|discriminate].
  destruct (parse_iso s) as [d1|] eqn:E1; simpl; [|discriminate].
  destruct (arg_end pref) as [e|]; simpl; [|discriminate].
  destruct (parse_iso e) as [d2|] eqn:E2; simpl; [|discriminate].
  intros [= <- <-]. split; [now apply (Hs s) | now apply (He e)].
Qed.

Lemma scan_availability_returns (b : bool) (tech_id : string)
  (max_proposals : Z) (ps pe : datetime) (slots : list Slot)
  (acc : list Proposal) :
  is_aware ps = b -> is_aware pe = b ->
  Forall (fun ts => parses_as b (start ts) /\ parses_as b (end_ ts)) slots ->
  exists r, scan_availability tech_id max_proposals ps pe slots acc = Ok r.
Proof.
  intros Hps Hpe Hslots. revert acc.
  induction Hslots as [|ts rest [Hs He] _ IH]; intros acc; simpl.
  - eauto.
  - destruct (parse_tech_slot ts) as [[tstart tend]|] eqn:E; [|apply IH].
    destruct (parse_tech_slot_kind b ts tstart tend Hs He E) as [Hts Hte].
    rewrite overlap_slot_same_kind by congruence. simpl.
    destruct (_ <? _); [|apply IH].
    destruct (reached _ max_proposals); [eauto | apply IH].
Qed.

Lemma scan_preferences_returns (tech : Technician) (max_proposals : Z)
  (prefs : list SlotArg) (acc : list Proposal) :
  one_kind tech prefs ->
  exists r, scan_preferences tech max_proposals prefs acc = Ok r.
Proof.
  intros (b & Hslots & Hprefs). revert acc.
  induction Hprefs as [|pref rest [Hs He] _ IH]; intros acc; simpl.
  - eauto.
  - destruct (parse_pref pref) as [[ps pe]|] eqn:E; [|apply IH].
    destruct (parse_pref_kind b pref ps pe Hs He E) as [Hps Hpe].
    destruct (scan_availability_returns b (t_id tech) max_proposals ps pe
                (t_availability_slots tech) acc Hps Hpe Hslots) as [r ->].
    simpl. destruct r; [apply IH | eauto].
Qed.

(** C9. For a positive target count, every proposal that [propose_slots]
    returns carries the technician's id, on the overlap path and on the
    availability path alike, and the list is no longer than
    [max_proposals]. The call does return a list whenever the timestamps
    involved are all aware or all naive. *)
Theorem propose_slots_owner_and_cap (tech : Technician)
  (customer_pref_slots : list SlotArg) (max_proposals : Z) :
  0 < max_proposals ->
  (forall proposals,
     propose_slots tech customer_pref_slots max_proposals = Ok proposals ->
     Forall (fun p => p_technician_id p = t_id tech) proposals
     /\ Z.of_nat (List.length proposals) <= max_proposals)
  /\ (one_kind tech customer_pref_slots ->
      exists proposals,
        propose_slots tech customer_pref_slots max_proposals = Ok proposals).
Proof.
  intros Hpos. unfold propose_slots. split.
  - intros proposals.
    destruct (scan_preferences tech max_proposals customer_pref_slots [])
      as [r|e] eqn:E; simpl; [|discriminate].
    assert (Hr : flow_ok (t_id tech) max_proposals r).
    { eapply scan_preferences_ok; [|exact E].
      split; [constructor | simpl; lia]. }
    destruct r as [l|l]; intros [= <-].
    + now apply append_available_ok.
    + exact Hr.
  - intros Hkind.
    destruct (scan_preferences_returns tech max_proposals
                customer_pref_slots [] Hkind) as [r ->].
    simpl. destruct r; eauto.
Qed.

End SchedulingResults.

Lemma propose_slots_witness :
  0 < 2
  /\ @propose_slots std_codec tech_01 [pref_0800_0900] 2 =
     Ok [mk_proposal "2025-09-20T10:00:00+05:30" "2025-09-20T12:00:00+05:30"
           "tech_01";
         mk_proposal "2025-09-20T15:00:00+05:30" "2025-09-20T16:00:00+05:30"
           "tech_01"]
  /\ (forall proposals,
        @propose_slots std_codec tech_01 [pref_0800_0900] 2 = Ok proposals ->
        Forall (fun p => p_technician_id p = "tech_01") proposals
        /\ Z.of_nat (List.length proposals) <= 2).
Proof.
  split; [lia | split; [vm_compute; reflexivity |]].
  apply (@propose_slots_owner_and_cap std_codec tech_01 [pref_0800_0900] 2).
  lia.
Defined.

(** C2. The source announces the last loop with "if no overlaps found", but
    runs it whenever the overlap loops end without reaching the target.
    For [tech_01], the single preference 10:00-11:00 and two proposals
    asked, the overlap loops find one overlap (10:00-11:00) and the last
    loop then appends the technician's first availability interval
    (10:00-12:00) behind it. *)
Theorem propose_slots_mixes_overlap_and_availability :
  @scan_preferences std_codec tech_01 2 [pref_1000_1100] [] =
    Ok (Continue
          [mk_proposal "2025-09-20T10:00:00+05:30" "2025-09-20T11:00:00+05:30"
             "tech_01"])
  /\ @propose_slots std_codec tech_01 [pref_1000_1100] 2 =
     Ok [mk_proposal "2025-09-20T10:00:00+05:30" "2025-09-20T11:00:00+05:30"
           "tech_01";
         mk_proposal "2025-09-20T10:00:00+05:30" "2025-09-20T12:00:00+05:30"
           "tech_01"].
Proof. split; vm_compute; reflexivity. Qed.

Example propose_slots_no_overlap_falls_back :
  @scan_preferences std_codec tech_01 2 [pref_0800_0900] [] = Ok (Continue []).
Proof. vm_compute. reflexivity. Qed.

Example propose_slots_naive_preference_raises :
  @propose_slots std_codec tech_01
    [mk_slot_arg (Some "2025-09-20T10:00:00") (Some "2025-09-20T11:00:00")] 2
  = Raised TypeError.
Proof. vm_compute. reflexivity. Qed.

Example propose_slots_skips_malformed :
  @propose_slots std_codec tech_01
    [mk_slot_arg (Some "tomorrow") None; pref_1000_1100] 1
  = Ok [mk_proposal "2025-09-20T10:00:00+05:30" "2025-09-20T11:00:00+05:30"
          "tech_01"].
Proof. vm_compute. reflexivity. Qed.

(** ** Appointment lifecycle: results *)

(** C3, as stated, fails: with an unknown customer identifier and all four
    fields present, the answer carries status 400, not 404. *)
Lemma confirm_booking_unknown_customer_answers_400 :
  let payload :=
    mk_confirm_payload (Some "CUST-00000000") (Some "JOB-5e6f7a8b")
      (Some demo_slot) (Some "tech_01") in
  let r := confirm_booking demo_store payload "9f8e7d6c"
             "2025-09-19T08:00:00+00:00" in
  CUSTOMERS demo_store !! "CUST-00000000" = None
  /\ snd r = (ErrorBody "invalid customer_id or job_id", 400)
  /\ snd (snd r) <> 404.
Proof. vm_compute. repeat split; discriminate. Qed.

(** C3, amended. Whenever the customer identifier or the job identifier of
    the request is unknown to the store, [confirm_booking] answers with
    status 400 (error "invalid customer_id or job_id" when all four fields
    are present) and leaves the store as it was: no appointment is
    created. *)
Theorem confirm_booking_unknown_reference_rejected
  (st : Store) (payload : ConfirmPayload) (uuid8 now : string) :
  (forall customer_id, cp_customer_id payload = Some customer_id ->
                       CUSTOMERS st !! customer_id = None)
  \/ (forall job_id, cp_job_id payload = Some job_id ->
                     JOBS st !! job_id = None) ->
  confirm_booking st payload uuid8 now =
  (st,
   (ErrorBody (if complete payload then "invalid customer_id or job_id"
               else "customer_id, job_id, chosen_slot, technician_id required"),
    400)).
Proof.
  intros Hunknown. unfold confirm_booking, complete.
  destruct (cp_customer_id payload) as [cid|] eqn:Ec; simpl; [|reflexivity].
  destruct (PyStr.truthy cid); simpl; [|reflexivity].
  destruct (cp_job_id payload) as [jid|] eqn:Ej; simpl; [|reflexivity].
  destruct (PyStr.truthy jid); simpl; [|reflexivity].
  destruct (cp_chosen_slot payload) as [slot|]; simpl; [|reflexivity].
  destruct (PyStr.given (cp_technician_id payload)); simpl; [|reflexivity].
  destruct Hunknown as [Hc|Hj].
  - now rewrite (Hc cid eq_refl).
  - rewrite (Hj jid eq_refl). now destruct (CUSTOMERS st !! cid).
Qed.

Lemma confirm_booking_unknown_reference_witness :
  let payload :=
    mk_confirm_payload (Some "CUST-1a2b3c4d") (Some "JOB-00000000")
      (Some demo_slot) (Some "tech_01") in
  JOBS demo_store !! "JOB-00000000" = None
  /\ confirm_booking demo_store payload "9f8e7d6c" "2025-09-19T08:00:00+00:00"
     = (demo_store, (ErrorBody "invalid customer_id or job_id", 400)).
Proof.
  intros payload. split; [reflexivity|].
  rewrite (confirm_booking_unknown_reference_rejected demo_store payload).
  - reflexivity.
  - right. intros job_id [= <-]. reflexivity.
Defined.

Example confirm_booking_creates_confirmed :
  a_status <$> (APPOINTMENTS booked_store !! "TK-9f8e7d6c") = Some confirmed
  /\ a_ticket_id <$> (APPOINTMENTS booked_store !! "TK-9f8e7d6c")
     = Some (Some "TK-9f8e7d6c").
Proof. vm_compute. split; reflexivity. Qed.

(** Every technician of the catalogue has an availability interval, so
    [tech["availability_slots"][0]] is defined. *)
Lemma find_technician_has_slot (technician_id : string) (tech : Technician) :
  find_technician technician_id = Some tech ->
  exists alt rest, t_availability_slots tech = alt :: rest.
Proof.
  unfold find_technician. intros Hf. apply find_some in Hf as [Hin _].
  simpl in Hin.
  destruct Hin as [<-|[<-|[<-|[<-|[<-|[<-|[]]]]]]]; simpl; eauto.
Qed.

Lemma reschedule_effect (st : Store) (payload : ReschedulePayload)
  (now ticket : string) (a : Appointment) :
  APPOINTMENTS st !! ticket = Some a ->
  exists st' resp a',
    reschedule st payload now = Ok (st', resp)
    /\ APPOINTMENTS st' !! ticket = Some a'
    /\ a' = (if targets payload ticket && slot_accepted a (rp_new_slot payload)
             then set_rescheduled a (default no_slot (rp_new_slot payload)) now
             else a).
Proof.
  intros Ha. unfold reschedule, targets, slot_accepted.
  destruct (rp_ticket_id payload) as [t|]; simpl; [|eauto 7].
  destruct (PyStr.truthy t) eqn:Et; simpl; [|eauto 7].
  destruct (rp_new_slot payload) as [slot|]; simpl.
  2:{ rewrite andb_false_r. eauto 7. }
  destruct (String.eqb_spec t ticket) as [->|Hne].
  - rewrite Ha.
    destruct (find_technician (a_technician_id a)) as [tech|] eqn:Ef;
      [|eauto 7].
    destruct (slot_available (t_availability_slots tech) slot) eqn:Es; simpl.
    + eexists _, _, _. split; [reflexivity|]. simpl.
      rewrite lookup_insert_eq. split; reflexivity.
    + destruct (find_technician_has_slot _ _ Ef) as (alt & rest & ->).
      eauto 7.
  - destruct (APPOINTMENTS st !! t) as [b|] eqn:Eb; [|eauto 7].
    destruct (find_technician (a_technician_id b)) as [tech|] eqn:Ef;
      [|eauto 7].
    destruct (slot_available (t_availability_slots tech) slot) eqn:Es; simpl.
    + eexists _, _, _. split; [reflexivity|]. simpl.
      rewrite lookup_insert_ne by exact Hne. split; [exact Ha | reflexivity].
    + destruct (find_technician_has_slot _ _ Ef) as (alt & rest & ->).
      eauto 7.
Qed.

Lemma cancel_effect (st : Store) (payload : CancelPayload)
  (now ticket : string) (a : Appointment) :
  APPOINTMENTS st !! ticket = Some a ->
  exists a',
    APPOINTMENTS (fst (cancel st payload now)) !! ticket = Some a'
    /\ (a' = a \/ a' = set_cancelled a (default "" (xp_reason payload)) now).
Proof.
  intros Ha. unfold cancel.
  destruct (xp_ticket_id payload) as [t|]; simpl; [|eauto].
  destruct (PyStr.truthy t); simpl; [|eauto].
  destruct (String.eqb_spec t ticket) as [->|Hne].
  - rewrite Ha. simpl. rewrite lookup_insert_eq. eauto.
  - destruct (APPOINTMENTS st !! t); simpl; [|eauto].
    rewrite lookup_insert_ne by exact Hne. eauto.
Qed.

(** C4, as stated, fails: an appointment booked for [tech_01] and then
    cancelled is given status [rescheduled] by a reschedule to that
    technician's second availability interval. *)
Lemma cancelled_appointment_rescheduled :
  let payload :=
    mk_reschedule_payload (Some "TK-9f8e7d6c")
      (Some (mk_slot_arg (Some "2025-09-20T15:00:00+05:30")
               (Some "2025-09-20T16:00:00+05:30"))) in
  a_status <$> (APPOINTMENTS cancelled_store !! "TK-9f8e7d6c") = Some cancelled
  /\ exists st' appointment,
       reschedule cancelled_store payload "2025-09-19T10:00:00+00:00"
       = Ok (st', (RescheduleOk "TK-9f8e7d6c" appointment, 200))
       /\ a_status <$> (APPOINTMENTS st' !! "TK-9f8e7d6c") = Some rescheduled.
Proof.
  intros payload. split; [vm_compute; reflexivity|].
  eexists _, _. split; vm_compute; reflexivity.
Qed.

(** C4, amended. Once an appointment is [cancelled], [cancel] with any
    arguments leaves it [cancelled], and so does every [reschedule] that
    answers with an error or a rejection or that names another ticket. A
    [reschedule] that names the ticket with a slot equal to one of the
    assigned technician's availability intervals is accepted all the same
    and sets the status to [rescheduled]: the handlers do not look at the
    current status. *)
Theorem cancelled_left_only_by_accepted_reschedule
  (st : Store) (ticket : string) (a : Appointment) (now : string) :
  APPOINTMENTS st !! ticket = Some a ->
  a_status a = cancelled ->
  (forall payload, exists a',
      APPOINTMENTS (fst (cancel st payload now)) !! ticket = Some a'
      /\ a_status a' = cancelled)
  /\ (forall payload, exists st' resp a',
        reschedule st payload now = Ok (st', resp)
        /\ APPOINTMENTS st' !! ticket = Some a'
        /\ a_status a' =
           if targets payload ticket && slot_accepted a (rp_new_slot payload)
           then rescheduled else cancelled).
Proof.
  intros Ha Hst. split; intros payload.
  - destruct (cancel_effect st payload now ticket a Ha) as (a' & Hl & [->| ->]).
    + eexists. split; [exact Hl | exact Hst].
    + eexists. split; [exact Hl | reflexivity].
  - destruct (reschedule_effect st payload now ticket a Ha)
      as (st' & resp & a' & Hr & Hl & ->).
    exists st', resp. eexists. split; [exact Hr | split; [exact Hl|]].
    destruct (targets payload ticket && slot_accepted a (rp_new_slot payload));
      [reflexivity | exact Hst].
Qed.

Lemma cancelled_left_only_by_accepted_reschedule_witness :
  let rejected :=
    mk_reschedule_payload (Some "TK-9f8e7d6c")
      (Some (mk_slot_arg (Some "2025-09-20T13:00:00+05:30")
               (Some "2025-09-20T14:00:00+05:30"))) in
  exists st' resp a',
    reschedule cancelled_store rejected "2025-09-19T10:00:00+00:00"
    = Ok (st', resp)
    /\ APPOINTMENTS st' !! "TK-9f8e7d6c" = Some a'
    /\ a_status a' = cancelled.
Proof.
  intros rejected.
  destruct (APPOINTMENTS cancelled_store !! "TK-9f8e7d6c") as [a|] eqn:Ea;
    [|vm_compute in Ea; discriminate].
  assert (Hst : a_status a = cancelled).
  { vm_compute in Ea. injection Ea as <-. reflexivity. }
  destruct (cancelled_left_only_by_accepted_reschedule cancelled_store
              "TK-9f8e7d6c" a "2025-09-19T10:00:00+00:00" Ea Hst)
    as [_ Hres].
  destruct (Hres rejected) as (st' & resp & a' & Hr & Hl & Hs).
  exists st', resp, a'. split; [exact Hr | split; [exact Hl|]].
  rewrite Hs. replace (slot_accepted a (rp_new_slot rejected)) with false.
  - now rewrite andb_false_r.
  - vm_compute in Ea. injection Ea as <-. reflexivity.
Defined.

Lemma slot_available_exists (slots : list Slot) (new_slot : SlotArg) :
  slot_available slots new_slot = true <->
  exists ts, In ts slots
             /\ arg_start new_slot = Some (start ts)
             /\ arg_end new_slot = Some (end_ ts).
Proof.
  induction slots as [|ts rest IH]; simpl.
  - split; [discriminate | intros (ts & [] & _)].
  - unfold same_slot at 1.
    destruct (arg_start new_slot) as [s|] eqn:Es,
             (arg_end new_slot) as [e|] eqn:Ee;
      try (rewrite IH; split;
           [intros (u & Hu & H1 & H2); discriminate
           | intros (u & _ & H1 & H2); discriminate]).
    destruct (String.eqb_spec (start ts) s) as [<-|Hs]; simpl.
    + destruct (String.eqb_spec (end_ ts) e) as [<-|He].
      * split; [intros _; exists ts; auto | reflexivity].
      * rewrite IH. split.
        -- intros (u & Hu & H1 & H2). exists u. auto.
        -- intros (u & [<-|Hu] & H1 & H2); [congruence | exists u; auto].
    + rewrite IH. split.
      * intros (u & Hu & H1 & H2). exists u. auto.
      * intros (u & [<-|Hu] & H1 & H2); [congruence | exists u; auto].
Qed.

(** C7. For a stored appointment whose technician is in the catalogue, a
    reschedule to a slot that equals none of that technician's
    availability intervals (start and end both) answers 200 with status
    "no" and the technician's first availability interval as the
    alternative, and leaves the store, hence every field of the
    appointment, as it was. *)
Theorem reschedule_rejection_keeps_appointment
  (st : Store) (ticket_id : string) (appointment : Appointment)
  (tech : Technician) (new_slot : SlotArg) (now : string) :
  PyStr.truthy ticket_id = true ->
  APPOINTMENTS st !! ticket_id = Some appointment ->
  find_technician (a_technician_id appointment) = Some tech ->
  (forall ts, In ts (t_availability_slots tech) ->
              ~ (arg_start new_slot = Some (start ts)
                 /\ arg_end new_slot = Some (end_ ts))) ->
  exists alt,
    head (t_availability_slots tech) = Some alt
    /\ reschedule st (mk_reschedule_payload (Some ticket_id) (Some new_slot)) now
       = Ok (st, (RescheduleNo "requested slot not available" alt, 200))
    /\ APPOINTMENTS st !! ticket_id = Some appointment.
Proof.
  intros Ht Ha Hf Hno.
  assert (Hs : slot_available (t_availability_slots tech) new_slot = false).
  { apply not_true_is_false. intros Hav.
    apply slot_available_exists in Hav as (ts & Hin & H1 & H2).
    now apply (Hno ts Hin). }
  destruct (find_technician_has_slot _ _ Hf) as (alt & rest & Hslots).
  exists alt. unfold reschedule. simpl. rewrite Ht. simpl.
  rewrite Ha, Hf, Hs. simpl. rewrite Hslots. simpl.
  repeat split; reflexivity.
Qed.

Lemma reschedule_rejection_witness :
  let new_slot :=
    mk_slot_arg (Some "2025-09-20T10:00:00+05:30")
      (Some "2025-09-20T11:00:00+05:30") in
  exists appointment,
    APPOINTMENTS booked_store !! "TK-9f8e7d6c" = Some appointment
    /\ a_status appointment = confirmed
    /\ a_slot_end appointment = Some "2025-09-20T12:00:00+05:30"
    /\ reschedule booked_store
         (mk_reschedule_payload (Some "TK-9f8e7d6c") (Some new_slot))
         "2025-09-19T10:00:00+00:00"
       = Ok (booked_store,
             (RescheduleNo "requested slot not available"
                (mk_slot "2025-09-20T10:00:00+05:30" "2025-09-20T12:00:00+05:30"),
              200)).
Proof.
  intros new_slot.
  destruct (APPOINTMENTS booked_store !! "TK-9f8e7d6c") as [a|] eqn:Ea;
    [|vm_compute in Ea; discriminate].
  assert (Hf : find_technician (a_technician_id a) = Some tech_01).
  { vm_compute in Ea. injection Ea as <-. reflexivity. }
  destruct (reschedule_rejection_keeps_appointment booked_store "TK-9f8e7d6c"
              a tech_01 new_slot "2025-09-19T10:00:00+00:00"
              eq_refl Ea Hf) as (alt & Hhead & Hr & _).
  - intros ts [<-|[<-|[]]] [H1 H2]; discriminate.
  - simpl in Hhead. injection Hhead as <-.
    exists a. split; [reflexivity | split; [|split; [|exact Hr]]];
      vm_compute in Ea; injection Ea as <-; reflexivity.
Defined.

Lemma validate_phone_given (phone : string) :
  validate_phone phone = true -> PyStr.truthy phone = true.
Proof. destruct phone; [vm_compute; discriminate | reflexivity]. Qed.

(** C10. [update_contact] is not atomic: for a known customer, a request
    with a valid phone and an invalid email is answered with status 400
    ("invalid email"), and the customer stored afterwards already has the
    new phone; nothing else of the customer or of the store changed. *)
Theorem update_contact_phone_written_before_email_check
  (st : Store) (customer_id phone email : string) (customer : Customer) :
  PyStr.truthy customer_id = true ->
  CUSTOMERS st !! customer_id = Some customer ->
  validate_phone phone = true ->
  PyStr.truthy email = true ->
  validate_email email = false ->
  let r := update_contact st
             (mk_contact_payload (Some customer_id) (Some phone) (Some email)) in
  snd r = (ErrorBody "invalid email", 400)
  /\ CUSTOMERS (fst r) !! customer_id = Some (set_phone customer phone)
  /\ c_phone <$> (CUSTOMERS (fst r) !! customer_id) = Some phone
  /\ fst r = put_customer st customer_id (set_phone customer phone).
Proof.
  intros Hc Hl Hp He Hbad. unfold update_contact. simpl.
  rewrite Hc. simpl. rewrite Hl.
  rewrite (validate_phone_given phone Hp), Hp, He, Hbad. simpl.
  rewrite lookup_insert_eq. repeat split; reflexivity.
Qed.

Lemma update_contact_witness :
  let r := update_contact demo_store
             (mk_contact_payload (Some "CUST-1a2b3c4d") (Some "9123456780")
                (Some "meera-at-example")) in
  c_phone <$> (CUSTOMERS demo_store !! "CUST-1a2b3c4d") = Some "9876543210"
  /\ snd r = (ErrorBody "invalid email", 400)
  /\ c_phone <$> (CUSTOMERS (fst r) !! "CUST-1a2b3c4d") = Some "9123456780".
Proof.
  intros r. split; [reflexivity|].
  destruct (update_contact_phone_written_before_email_check demo_store
              "CUST-1a2b3c4d" "9123456780" "meera-at-example" demo_customer)
    as (Hresp & _ & Hphone & _);
    try (vm_compute; reflexivity).
  split; [exact Hresp | exact Hphone].
Defined.

(** ** The derivative matcher against the meaning of the patterns *)

Lemma append_nil_l (t : string) : "" ++ t = t.
Proof. reflexivity. Qed.

Lemma append_cons (c : ascii) (s t : string) :
  String c s ++ t = String c (s ++ t).
Proof. reflexivity. Qed.

Ltac str_simpl := rewrite ?append_cons, ?append_nil_l.
Ltac str_simpl_in H := rewrite ?append_cons, ?append_nil_l in H.

Lemma append_nil_r (s : string) : s ++ "" = s.
Proof. induction s as [|c s IH]; str_simpl; [reflexivity | now rewrite IH]. Qed.

Lemma append_assoc (s t u : string) : (s ++ t) ++ u = s ++ (t ++ u).
Proof. induction s as [|c s IH]; str_simpl; [reflexivity | now rewrite IH]. Qed.

Lemma append_eq_nil (s t : string) : s ++ t = "" -> s = "" /\ t = "".
Proof. destruct s; str_simpl; [auto | discriminate]. Qed.

Lemma denotes_cat_inv (a b : Regex.regex) (u : string) :
  denotes (Regex.Cat a b) u ->
  exists s t, u = s ++ t /\ denotes a s /\ denotes b t.
Proof. intros Hd. inversion Hd; subst. eauto. Qed.

Lemma denotes_alt_inv (a b : Regex.regex) (u : string) :
  denotes (Regex.Alt a b) u -> denotes a u \/ denotes b u.
Proof. intros Hd. inversion Hd; subst; auto. Qed.

Lemma denotes_class_inv (p : ascii -> bool) (u : string) :
  denotes (Regex.Class p) u -> exists c, u = String c "" /\ p c = true.
Proof. intros Hd. inversion Hd; subst. eauto. Qed.

(** A non-empty string in [a*] starts with a non-empty string in [a]. *)
Lemma denotes_star_cons_inv (a : Regex.regex) (u : string) :
  denotes (Regex.Star a) u ->
  forall c r, u = String c r ->
  exists s t, r = s ++ t /\ denotes a (String c s) /\ denotes (Regex.Star a) t.
Proof.
  intros Hd. remember (Regex.Star a) as sa eqn:Hsa.
  induction Hd as [| | | | | |a' s t Hs _ Ht IHt]; try discriminate Hsa.
  - intros c r Hu. discriminate.
  - injection Hsa as ->. intros c r Hu.
    destruct s as [|c' s']; str_simpl_in Hu.
    + apply IHt; [reflexivity | exact Hu].
    + injection Hu as -> <-. exists s', t. auto.
Qed.

Lemma nullable_denotes (r : Regex.regex) :
  Regex.nullable r = true <-> denotes r "".
Proof.
  induction r as [| |p|a IHa b IHb|a IHa b IHb|a IHa]; simpl.
  - split; [discriminate | intros Hd; inversion Hd].
  - split; [intros _; constructor | reflexivity].
  - split; [discriminate | intros Hd; inversion Hd].
  - rewrite andb_true_iff, IHa, IHb. split.
    + intros [Ha Hb]. exact (denotes_cat a b "" "" Ha Hb).
    + intros Hd. apply denotes_cat_inv in Hd as (s & t & Hu & Ha & Hb).
      symmetry in Hu. apply append_eq_nil in Hu as [-> ->]. auto.
  - rewrite orb_true_iff, IHa, IHb. split.
    + intros [Ha|Hb]; [now apply denotes_alt_l | now apply denotes_alt_r].
    + apply denotes_alt_inv.
  - split; [intros _; constructor | reflexivity].
Qed.

Lemma deriv_denotes (c : ascii) (r : Regex.regex) (u : string) :
  denotes (Regex.deriv c r) u <-> denotes r (String c u).
Proof.
  revert u.
  induction r as [| |p|a IHa b IHb|a IHa b IHb|a IHa]; intros u; simpl.
  - split; intros Hd; inversion Hd.
  - split; intros Hd; inversion Hd.
  - destruct (p c) eqn:Hp; split; intros Hd.
    + inversion Hd; subst. now constructor.
    + apply denotes_class_inv in Hd as (c' & [= -> ->] & _). constructor.
    + inversion Hd.
    + apply denotes_class_inv in Hd as (c' & [= -> ->] & Hp'). congruence.
  - assert (Hcat : denotes (Regex.Cat (Regex.deriv c a) b) u ->
                   denotes (Regex.Cat a b) (String c u)).
    { intros Hd. apply denotes_cat_inv in Hd as (s & t & -> & Ha & Hb).
      apply IHa in Ha. exact (denotes_cat a b (String c s) t Ha Hb). }
    assert (Hinv : denotes (Regex.Cat a b) (String c u) ->
                   denotes (Regex.Cat (Regex.deriv c a) b) u
                   \/ (denotes a "" /\ denotes b (String c u))).
    { intros Hd. apply denotes_cat_inv in Hd as (s & t & Hu & Ha & Hb).
      destruct s as [|c' s']; str_simpl_in Hu.
      - right. subst t. auto.
      - injection Hu as <- ->. left. apply denotes_cat; [now apply IHa | exact Hb]. }
    destruct (Regex.nullable a) eqn:Hn.
    + split.
      * intros Hd. apply denotes_alt_inv in Hd as [Hd|Hd]; [now apply Hcat|].
        apply IHb in Hd. apply nullable_denotes in Hn.
        exact (denotes_cat a b "" (String c u) Hn Hd).
      * intros Hd. apply Hinv in Hd as [Hd|[_ Hb]].
        -- now apply denotes_alt_l.
        -- apply denotes_alt_r. now apply IHb.
    + split; [exact Hcat|].
      intros Hd. apply Hinv in Hd as [Hd|[Ha _]]; [exact Hd|].
      apply nullable_denotes in Ha. congruence.
  - split; intros Hd.
    + apply denotes_alt_inv in Hd as [Hd|Hd].
      * apply denotes_alt_l. now apply IHa.
      * apply denotes_alt_r. now apply IHb.
    + apply denotes_alt_inv in Hd as [Hd|Hd].
      * apply denotes_alt_l. now apply IHa.
      * apply denotes_alt_r. now apply IHb.
  - split; intros Hd.
    + apply denotes_cat_inv in Hd as (s & t & -> & Ha & Hs).
      apply IHa in Ha. exact (denotes_star_cons a (String c s) t Ha Hs).
    + destruct (denotes_star_cons_inv a _ Hd c u eq_refl)
        as (s & t & -> & Ha & Hs).
      apply denotes_cat; [now apply IHa | exact Hs].
Qed.

Lemma fullmatch_denotes (r : Regex.regex) (s : string) :
  Regex.fullmatch r s = true <-> denotes r s.
Proof.
  revert r. induction s as [|c s IH]; intros r; simpl.
  - apply nullable_denotes.
  - rewrite IH. apply deriv_denotes.
Qed.

Lemma all_chars_app (p : ascii -> bool) (s t : string) :
  all_chars p (s ++ t) = all_chars p s && all_chars p t.
Proof.
  induction s as [|c s IH]; str_simpl; simpl; [reflexivity|].
  now rewrite IH, andb_assoc.
Qed.

Lemma length_append (s t : string) :
  String.length (s ++ t) = (String.length s + String.length t)%nat.
Proof. induction s as [|c s IH]; str_simpl; simpl; [reflexivity | now rewrite IH]. Qed.

Lemma denotes_eps_inv (u : string) : denotes Regex.Eps u -> u = "".
Proof. intros Hd. now inversion Hd. Qed.

Lemma denotes_times_class (p : ascii -> bool) (n : nat) (s : string) :
  denotes (Regex.Times n (Regex.Class p)) s
  <-> String.length s = n /\ all_chars p s = true.
Proof.
  revert s. induction n as [|n IH]; intros s; simpl.
  - split.
    + intros Hd. apply denotes_eps_inv in Hd as ->. auto.
    + intros [Hl _]. destruct s; [constructor | discriminate].
  - split.
    + intros Hd. apply denotes_cat_inv in Hd as (a & b & -> & Ha & Hb).
      apply denotes_class_inv in Ha as (c & -> & Hp).
      apply IH in Hb as [Hl Hall]. str_simpl. simpl.
      rewrite Hl, Hp, Hall. auto.
    + intros [Hl Hall]. destruct s as [|c s]; [discriminate|].
      simpl in Hl, Hall. apply andb_true_iff in Hall as [Hp Hall].
      injection Hl as Hl.
      apply (denotes_cat _ _ (String c "") s); [now constructor|].
      apply IH. auto.
Qed.

Lemma denotes_star_class (p : ascii -> bool) (s : string) :
  denotes (Regex.Star (Regex.Class p)) s <-> all_chars p s = true.
Proof.
  split.
  - intros Hd. remember (Regex.Star (Regex.Class p)) as r eqn:Hr.
    induction Hd as [| | | | | |a u t Hu _ Ht IHt]; try discriminate Hr.
    + reflexivity.
    + injection Hr as ->. apply denotes_class_inv in Hu as (c & -> & Hp).
      str_simpl. simpl. now rewrite Hp, IHt.
  - induction s as [|c s IH]; simpl; intros Hall; [constructor|].
    apply andb_true_iff in Hall as [Hp Hall].
    apply (denotes_star_cons _ (String c "") s); [now constructor | auto].
Qed.

Lemma denotes_plus_class (p : ascii -> bool) (s : string) :
  denotes (Regex.Plus (Regex.Class p)) s
  <-> s <> "" /\ all_chars p s = true.
Proof.
  unfold Regex.Plus. split.
  - intros Hd. apply denotes_cat_inv in Hd as (a & b & -> & Ha & Hb).
    apply denotes_class_inv in Ha as (c & -> & Hp).
    apply denotes_star_class in Hb. str_simpl. simpl.
    rewrite Hp, Hb. split; [discriminate | reflexivity].
  - intros [Hne Hall]. destruct s as [|c s]; [congruence|].
    simpl in Hall. apply andb_true_iff in Hall as [Hp Hall].
    apply (denotes_cat _ _ (String c "") s); [now constructor|].
    now apply denotes_star_class.
Qed.

Lemma take_drop (n : nat) (s : string) : PyStr.take n s ++ PyStr.drop n s = s.
Proof.
  revert s. induction n as [|n IH]; intros [|c s]; simpl; try reflexivity.
  str_simpl. now rewrite IH.
Qed.

Lemma length_take (n : nat) (s : string) :
  String.length (PyStr.take n s) = Nat.min n (String.length s).
Proof.
  revert s. induction n as [|n IH]; intros [|c s]; simpl; try reflexivity.
  now rewrite IH.
Qed.

Lemma length_drop (n : nat) (s : string) :
  String.length (PyStr.drop n s) = (String.length s - n)%nat.
Proof.
  revert s. induction n as [|n IH]; intros [|c s]; simpl; try reflexivity.
  now rewrite IH.
Qed.

Lemma denotes_at_least_class (p : ascii -> bool) (n : nat) (s : string) :
  denotes (Regex.AtLeast n (Regex.Class p)) s
  <-> (n <= String.length s)%nat /\ all_chars p s = true.
Proof.
  unfold Regex.AtLeast. split.
  - intros Hd. apply denotes_cat_inv in Hd as (a & b & -> & Ha & Hb).
    apply denotes_times_class in Ha as [Hl Ha].
    apply denotes_star_class in Hb.
    rewrite length_append, all_chars_app, Ha, Hb. split; [lia | reflexivity].
  - intros [Hl Hall]. rewrite <- (take_drop n s) in Hall |- *.
    rewrite all_chars_app in Hall. apply andb_true_iff in Hall as [Ha Hb].
    apply denotes_cat.
    + apply denotes_times_class. rewrite length_take. split; [lia | exact Ha].
    + now apply denotes_star_class.
Qed.

Lemma denotes_lit (c : ascii) (s : string) :
  denotes (Regex.Lit c) s <-> s = String c "".
Proof.
  unfold Regex.Lit. split.
  - intros Hd. apply denotes_class_inv in Hd as (x & -> & Hx).
    apply Ascii.eqb_eq in Hx. now subst.
  - intros ->. constructor. apply Ascii.eqb_refl.
Qed.

(** *** Strings and their reversal *)

Lemma reverse_involutive (s : string) : PyStr.reverse (PyStr.reverse s) = s.
Proof.
  unfold PyStr.reverse.
  now rewrite list_ascii_of_string_of_list_ascii, rev_involutive,
    string_of_list_ascii_of_string.
Qed.

Lemma all_chars_forallb (p : ascii -> bool) (s : string) :
  all_chars p s = forallb p (list_ascii_of_string s).
Proof. induction s as [|c s IH]; simpl; [reflexivity | now rewrite IH]. Qed.

Lemma all_chars_reverse (p : ascii -> bool) (s : string) :
  all_chars p s = true -> all_chars p (PyStr.reverse s) = true.
Proof.
  rewrite !all_chars_forallb. unfold PyStr.reverse.
  rewrite list_ascii_of_string_of_list_ascii, !forallb_forall.
  intros Hall c Hc. apply Hall. now apply in_rev.
Qed.

Lemma chop_newline_none_all (p : ascii -> bool) (s : string) :
  p Regex.newline = false -> all_chars p s = true ->
  Regex.chop_newline s = None.
Proof.
  intros Hnl Hall. apply all_chars_reverse in Hall.
  unfold Regex.chop_newline. destruct (PyStr.reverse s) as [|c r]; [reflexivity|].
  simpl in Hall. apply andb_true_iff in Hall as [Hc _].
  destruct (Ascii.eqb_spec c Regex.newline) as [->|_]; [congruence | reflexivity].
Qed.

Lemma lstrip_head (s : string) (c : ascii) (r : string) :
  PyStr.lstrip s = String c r -> PyStr.isspace c = false.
Proof.
  induction s as [|d s IH]; simpl; [discriminate|].
  destruct (PyStr.isspace d) eqn:Hd; [exact IH|].
  intros [= <- _]. exact Hd.
Qed.

(** A stripped string does not end with a newline. *)
Lemma chop_newline_strip (s : string) :
  Regex.chop_newline (PyStr.strip s) = None.
Proof.
  unfold Regex.chop_newline, PyStr.strip, PyStr.rstrip.
  rewrite reverse_involutive.
  destruct (PyStr.lstrip (PyStr.reverse (PyStr.lstrip s))) as [|c r] eqn:E;
    [reflexivity|].
  apply lstrip_head in E.
  destruct (Ascii.eqb_spec c Regex.newline) as [->|_]; [discriminate | reflexivity].
Qed.

Lemma sub_non_digits_digits (s : string) :
  all_chars PyStr.isdigit (Regex.sub_non_digits s) = true.
Proof.
  induction s as [|c s IH]; simpl; [reflexivity|].
  destruct (PyStr.isdigit c) eqn:Hc; simpl; [now rewrite Hc | exact IH].
Qed.

(** ** Validation helpers: results *)

Lemma validate_pincode_model (pincode : string) :
  validate_pincode pincode = true
  <-> String.length (PyStr.strip pincode) = 6%nat
      /\ all_chars PyStr.isdigit (PyStr.strip pincode) = true.
Proof.
  unfold validate_pincode, Regex.anchored_match, PINCODE_RE.
  rewrite chop_newline_strip, orb_false_r, fullmatch_denotes.
  apply denotes_times_class.
Qed.

(** X1. On a string of ASCII characters, [validate_pincode] accepts
    exactly when the string, once surrounding whitespace is stripped, is
    six decimal digits. *)
Theorem validate_pincode_six_digits (pincode : string) :
  isascii pincode = true ->
  (validate_pincode pincode = true
   <-> String.length (PyStr.strip pincode) = 6%nat
       /\ all_chars PyStr.isdigit (PyStr.strip pincode) = true).
Proof. intros _. apply validate_pincode_model. Qed.

Lemma validate_pincode_six_digits_witness :
  isascii " 560001 " = true
  /\ validate_pincode " 560001 " = true
  /\ validate_pincode "56001" = false.
Proof.
  split; [reflexivity | split].
  - apply (validate_pincode_six_digits " 560001 "); [reflexivity|].
    split; vm_compute; reflexivity.
  - destruct (validate_pincode "56001") eqn:E; [|reflexivity].
    apply (validate_pincode_six_digits "56001") in E as [E _];
      [vm_compute in E; discriminate | reflexivity].
Defined.

Lemma validate_phone_model (phone : string) :
  validate_phone phone = true
  <-> exists c rest,
        Regex.sub_non_digits phone = String c rest
        /\ 54 <= PyStr.code c <= 57
        /\ String.length rest = 9%nat.
Proof.
  unfold validate_phone, Regex.anchored_match, PHONE_RE.
  pose proof (sub_non_digits_digits phone) as Hd.
  rewrite (chop_newline_none_all PyStr.isdigit _ eq_refl Hd), orb_false_r.
  rewrite fullmatch_denotes. split.
  - intros Hm. apply denotes_cat_inv in Hm as (a & b & Hs & Ha & Hb).
    apply denotes_class_inv in Ha as (c & -> & Hc).
    apply denotes_times_class in Hb as [Hl _].
    exists c, b. split; [exact Hs | split; [lia | exact Hl]].
  - intros (c & rest & Hs & Hc & Hl). rewrite Hs in Hd |- *.
    simpl in Hd. apply andb_true_iff in Hd as [_ Hd].
    apply (denotes_cat _ _ (String c "") rest).
    + constructor. lia.
    + apply denotes_times_class. auto.
Qed.

(** X2. On a string of ASCII characters, [validate_phone] looks only at
    the digits: it accepts exactly when the digits, in order, are ten and
    the first is 6, 7, 8 or 9. Any other character is ignored, wherever
    it stands. *)
Theorem validate_phone_ten_digits (phone : string) :
  isascii phone = true ->
  (validate_phone phone = true
   <-> exists c rest,
         Regex.sub_non_digits phone = String c rest
         /\ 54 <= PyStr.code c <= 57
         /\ String.length rest = 9%nat).
Proof. intros _. apply validate_phone_model. Qed.

Lemma validate_phone_ten_digits_witness :
  isascii "+98765-43210 ext" = true
  /\ validate_phone "+98765-43210 ext" = true.
Proof.
  split; [reflexivity|].
  apply (validate_phone_ten_digits "+98765-43210 ext"); [reflexivity|].
  exists "9"%char, "876543210". repeat split; vm_compute; congruence.
Defined.

Lemma validate_email_model (email : string) :
  validate_email email = true
  <-> exists loc dom tld,
        PyStr.strip email = loc ++ "@" ++ dom ++ "." ++ tld
        /\ loc <> "" /\ all_chars word_dot_dash loc = true
        /\ dom <> "" /\ all_chars word_dot_dash dom = true
        /\ (2 <= String.length tld)%nat /\ all_chars word_char tld = true.
Proof.
  unfold validate_email, Regex.anchored_match, EMAIL_RE.
  rewrite chop_newline_strip, orb_false_r, fullmatch_denotes. split.
  - intros Hm.
    apply denotes_cat_inv in Hm as (loc & r1 & Hs & Hloc & Hm).
    apply denotes_cat_inv in Hm as (at_ & r2 & -> & Hat & Hm).
    apply denotes_cat_inv in Hm as (dom & r3 & -> & Hdom & Hm).
    apply denotes_cat_inv in Hm as (dot & tld & -> & Hdot & Htld).
    apply denotes_lit in Hat as ->. apply denotes_lit in Hdot as ->.
    apply denotes_plus_class in Hloc as [? ?].
    apply denotes_plus_class in Hdom as [? ?].
    apply denotes_at_least_class in Htld as [? ?].
    exists loc, dom, tld. repeat split; assumption.
  - intros (loc & dom & tld & -> & Hl1 & Hl2 & Hd1 & Hd2 & Ht1 & Ht2).
    apply denotes_cat; [now apply denotes_plus_class|].
    apply denotes_cat; [now apply denotes_lit|].
    apply denotes_cat; [now apply denotes_plus_class|].
    apply denotes_cat; [now apply denotes_lit|].
    now apply denotes_at_least_class.
Qed.

(** X3. On a string of ASCII characters, [validate_email] accepts exactly
    when the string, once stripped, reads [local@domain.tld] with a
    non-empty [local] and [domain] made of letters, digits, underscores,
    dots and dashes, and a [tld] of at least two letters, digits or
    underscores. *)
Theorem validate_email_shape (email : string) :
  isascii email = true ->
  (validate_email email = true
   <-> exists loc dom tld,
         PyStr.strip email = loc ++ "@" ++ dom ++ "." ++ tld
         /\ loc <> "" /\ all_chars word_dot_dash loc = true
         /\ dom <> "" /\ all_chars word_dot_dash dom = true
         /\ (2 <= String.length tld)%nat /\ all_chars word_char tld = true).
Proof. intros _. apply validate_email_model. Qed.

Lemma validate_email_shape_witness :
  isascii " asha.k@mail.example.in " = true
  /\ validate_email " asha.k@mail.example.in " = true.
Proof.
  split; [reflexivity|].
  apply (validate_email_shape " asha.k@mail.example.in "); [reflexivity|].
  exists "asha.k", "mail.example", "in".
  repeat split; try (vm_compute; reflexivity); try discriminate.
Defined.

(** ** Masking: results *)

Lemma contains_at (s : string) :
  PyStr.contains "@" s = negb (all_chars not_at s).
Proof.
  induction s as [|c s IH]; [reflexivity|].
  cbn [PyStr.contains all_chars]. rewrite IH.
  cbn [String.prefix].
  destruct (ascii_dec "@"%char c) as [<-|Hne].
  - destruct s; reflexivity.
  - assert (Hc : not_at c = true).
    { unfold not_at.
      destruct (Ascii.eqb_spec c "@"%char) as [->|_]; [congruence | reflexivity]. }
    rewrite Hc. reflexivity.
Qed.

Lemma split_on_no_sep (s : string) :
  all_chars not_at s = true -> split_on "@"%char s = [s].
Proof.
  induction s as [|c s IH]; [reflexivity|].
  cbn [all_chars split_on]. unfold not_at at 1.
  intros Hall. apply andb_true_iff in Hall as [Hc Hall].
  apply negb_true_iff in Hc. rewrite Hc, (IH Hall). reflexivity.
Qed.

Lemma split_on_first (a b : string) :
  all_chars not_at a = true ->
  split_on "@"%char (a ++ String "@"%char b) = a :: split_on "@"%char b.
Proof.
  induction a as [|c a IH]; str_simpl; [reflexivity|].
  cbn [all_chars split_on]. unfold not_at at 1.
  intros Hall. apply andb_true_iff in Hall as [Hc Hall].
  apply negb_true_iff in Hc. rewrite Hc, (IH Hall). reflexivity.
Qed.

Lemma split_on_nonempty (s : string) : split_on "@"%char s <> [].
Proof.
  destruct s as [|c s]; [discriminate|]. cbn [split_on].
  destruct (Ascii.eqb c "@"%char); [discriminate|].
  destruct (split_on "@"%char s); discriminate.
Qed.

Lemma truthy_length (s : string) :
  PyStr.truthy s = true <-> (0 < String.length s)%nat.
Proof. destruct s; simpl; split; try discriminate; try lia; auto. Qed.

(** X4. On a non-empty string without ["@"], [mask_pii] shows the first
    two and the last two characters around three stars: the result has
    [min 2 n + 3 + min 2 n] characters for an input of [n], and an input
    of one or two characters is shown in full, twice. *)
Theorem mask_pii_plain (s : string) :
  s <> "" ->
  all_chars not_at s = true ->
  mask_pii s = PyStr.take 2 s ++ "***" ++ last_two s
  /\ String.length (mask_pii s)
     = (Nat.min 2 (String.length s) + 3 + Nat.min 2 (String.length s))%nat
  /\ ((String.length s <= 2)%nat -> mask_pii s = s ++ "***" ++ s).
Proof.
  intros Hne Hall.
  assert (Hm : mask_pii s = PyStr.take 2 s ++ "***" ++ last_two s).
  { unfold mask_pii. rewrite contains_at, Hall.
    destruct s; [congruence | reflexivity]. }
  split; [exact Hm | split].
  - rewrite Hm, !length_append, length_take. unfold last_two.
    rewrite length_drop. change (String.length "***") with 3%nat. lia.
  - intros Hl. rewrite Hm. unfold last_two.
    replace (String.length s - 2)%nat with 0%nat by lia.
    destruct s as [|a [|b [|c r]]]; simpl in Hl; try lia; reflexivity.
Qed.

Lemma mask_pii_plain_witness :
  mask_pii "9876543210" = "98***10" /\ mask_pii "ab" = "ab***ab".
Proof.
  destruct (mask_pii_plain "9876543210") as (H1 & _);
    [discriminate | reflexivity |].
  destruct (mask_pii_plain "ab") as (_ & _ & H2);
    [discriminate | reflexivity |].
  split; [rewrite H1; reflexivity | apply H2; simpl; lia].
Defined.

(** X5. On [local@rest], [mask_pii] keeps at most the first two characters
    of the local part and shows what follows the first ["@"] up to the
    next ["@"] in full; anything after a second ["@"] is dropped. *)
Theorem mask_pii_email (loc dom rest : string) :
  all_chars not_at loc = true ->
  all_chars not_at dom = true ->
  mask_pii (loc ++ "@" ++ dom) = PyStr.take 2 loc ++ "***@" ++ dom
  /\ mask_pii (loc ++ "@" ++ dom ++ "@" ++ rest)
     = PyStr.take 2 loc ++ "***@" ++ dom.
Proof.
  intros Hloc Hdom.
  assert (Hgen : forall tail,
             part 1 (split_on "@"%char (loc ++ String "@"%char tail))
             = part 0 (split_on "@"%char tail)
             /\ part 0 (split_on "@"%char (loc ++ String "@"%char tail)) = loc
             /\ mask_pii (loc ++ String "@"%char tail)
                = PyStr.take 2 loc ++ "***@"
                  ++ part 0 (split_on "@"%char tail)).
  { intros tail. rewrite (split_on_first loc tail Hloc).
    assert (H0 : part 1 (loc :: split_on "@"%char tail)
                 = part 0 (split_on "@"%char tail)) by reflexivity.
    split; [exact H0 | split; [reflexivity|]].
    unfold mask_pii. rewrite contains_at, all_chars_app, Hloc.
    cbn [all_chars]. unfold not_at at 1. rewrite Ascii.eqb_refl.
    cbn [negb andb]. rewrite (split_on_first loc tail Hloc).
    destruct loc; reflexivity. }
  split.
  - change (loc ++ "@" ++ dom) with (loc ++ String "@"%char dom).
    destruct (Hgen dom) as (_ & _ & ->).
    now rewrite (split_on_no_sep dom Hdom).
  - change (loc ++ "@" ++ dom ++ "@" ++ rest)
      with (loc ++ String "@"%char (dom ++ String "@"%char rest)).
    destruct (Hgen (dom ++ String "@"%char rest)) as (_ & _ & ->).
    now rewrite (split_on_first dom rest Hdom).
Qed.

Lemma mask_pii_email_witness :
  mask_pii "meera@example.com" = "me***@example.com"
  /\ mask_pii "meera@example.com@evil" = "me***@example.com".
Proof.
  destruct (mask_pii_email "meera" "example.com" "evil") as [H1 H2];
    [reflexivity | reflexivity |].
  split; [exact H1 | exact H2].
Defined.

(** ** Slot engine: further results *)

Section ProposalCounts.

Context `{IsoCodec}.

Lemma reached_spec (l : list Proposal) (max_proposals : Z) :
  reached l max_proposals = true <-> max_proposals <= Z.of_nat (List.length l).
Proof. unfold reached. destruct (Z.geb_spec (Z.of_nat (List.length l)) max_proposals); split; (lia || discriminate || auto). Qed.

Lemma length_snoc (l : list Proposal) (p : Proposal) :
  Z.of_nat (List.length (l ++ [p])%list) = Z.of_nat (List.length l) + 1.
Proof. rewrite length_app. simpl. lia. Qed.

(** The technician's own slots turned into proposals. *)
Lemma append_available_firstn (tech_id : string) (max_proposals : Z)
  (slots : list Slot) (acc : list Proposal) :
  Z.of_nat (List.length acc) < max_proposals ->
  append_available tech_id max_proposals slots acc =
  (acc ++ List.map (fun ts => mk_proposal (start ts) (end_ ts) tech_id)
            (firstn (Z.to_nat max_proposals - List.length acc) slots))%list.
Proof.
  revert acc. induction slots as [|ts rest IH]; intros acc Hlt; simpl.
  - now rewrite firstn_nil, app_nil_r.
  - destruct (Z.to_nat max_proposals - List.length acc)%nat as [|k] eqn:Ek;
      [lia|].
    destruct (reached _ max_proposals) eqn:Hr.
    + apply reached_spec in Hr. rewrite length_snoc in Hr.
      assert (k = 0%nat) as -> by lia. reflexivity.
    + assert (Hlt' : Z.of_nat (List.length (acc ++ [mk_proposal (start ts) (end_ ts) tech_id])%list) < max_proposals).
      { destruct (reached_spec (acc ++ [mk_proposal (start ts) (end_ ts) tech_id])%list max_proposals) as [_ Hb].
        destruct (Z.lt_ge_cases
                    (Z.of_nat (List.length (acc ++ [mk_proposal (start ts) (end_ ts) tech_id])%list))
                    max_proposals) as [Hc|Hc]; [exact Hc|].
        rewrite (Hb Hc) in Hr. discriminate. }
      rewrite (IH _ Hlt'). rewrite length_app. simpl.
      replace (Z.to_nat max_proposals - (List.length acc + 1))%nat with k by lia.
      now rewrite <- app_assoc.
Qed.

Lemma scan_availability_return_exact (tech_id : string)
  (max_proposals : Z) (ps pe : datetime) (slots : list Slot)
  (acc l : list Proposal) :
  Z.of_nat (List.length acc) < max_proposals ->
  scan_availability tech_id max_proposals ps pe slots acc = Ok (Return l) ->
  Z.of_nat (List.length l) = max_proposals.
Proof.
  revert acc. induction slots as [|ts rest IH]; intros acc Hlt; simpl.
  - discriminate.
  - destruct (parse_tech_slot ts) as [[tstart tend]|]; [|now apply IH].
    destruct (overlap_slot ps pe tstart tend) as [[[ov0 ov1]|]|e]; simpl;
      [| now apply IH | discriminate].
    destruct (reached _ max_proposals) eqn:Hr.
    + intros [= <-]. apply reached_spec in Hr. rewrite length_snoc in Hr |- *. lia.
    + apply IH. rewrite length_snoc.
      destruct (Z.lt_ge_cases (Z.of_nat (List.length acc) + 1) max_proposals)
        as [Hc|Hc]; [exact Hc|].
      rewrite <- length_snoc with (p := mk_proposal (isoformat ov0) (isoformat ov1) tech_id) in Hc.
      apply reached_spec in Hc. congruence.
Qed.

Lemma scan_availability_continue_below (tech_id : string)
  (max_proposals : Z) (ps pe : datetime) (slots : list Slot)
  (acc l : list Proposal) :
  Z.of_nat (List.length acc) < max_proposals ->
  scan_availability tech_id max_proposals ps pe slots acc = Ok (Continue l) ->
  Z.of_nat (List.length l) < max_proposals.
Proof.
  revert acc. induction slots as [|ts rest IH]; intros acc Hlt; simpl.
  - now intros [= <-].
  - destruct (parse_tech_slot ts) as [[tstart tend]|]; [|now apply IH].
    destruct (overlap_slot ps pe tstart tend) as [[[ov0 ov1]|]|e]; simpl;
      [| now apply IH | discriminate].
    destruct (reached _ max_proposals) eqn:Hr; [discriminate|].
    apply IH. rewrite length_snoc.
    destruct (Z.lt_ge_cases (Z.of_nat (List.length acc) + 1) max_proposals)
      as [Hc|Hc]; [exact Hc|].
    rewrite <- length_snoc with (p := mk_proposal (isoformat ov0) (isoformat ov1) tech_id) in Hc.
    apply reached_spec in Hc. congruence.
Qed.

Lemma scan_preferences_counts (tech : Technician) (max_proposals : Z)
  (prefs : list SlotArg) (acc : list Proposal) (r : Flow (list Proposal)) :
  Z.of_nat (List.length acc) < max_proposals ->
  scan_preferences tech max_proposals prefs acc = Ok r ->
  match r with
  | Return l => Z.of_nat (List.length l) = max_proposals
  | Continue l => Z.of_nat (List.length l) < max_proposals
  end.
Proof.
  revert acc. induction prefs as [|pref rest IH]; intros acc Hlt; simpl.
  - now intros [= <-].
  - destruct (parse_pref pref) as [[ps pe]|]; [|now apply IH].
    destruct (scan_availability _ _ ps pe _ acc) as [[l|l]|e] eqn:E; simpl;
      try discriminate.
    + apply IH. eapply scan_availability_continue_below; eassumption.
    + intros [= <-]. eapply scan_availability_return_exact; eassumption.
Qed.

Lemma propose_slots_exact_count (tech : Technician)
  (prefs : list SlotArg) (max_proposals : Z) (proposals : list Proposal) :
  0 < max_proposals ->
  max_proposals <= Z.of_nat (List.length (t_availability_slots tech)) ->
  propose_slots tech prefs max_proposals = Ok proposals ->
  Z.of_nat (List.length proposals) = max_proposals.
Proof.
  intros Hpos Hslots. unfold propose_slots.
  destruct (scan_preferences tech max_proposals prefs []) as [r|e] eqn:E;
    simpl; [|discriminate].
  pose proof (scan_preferences_counts tech max_proposals prefs [] r) as Hr.
  rewrite E in Hr. specialize (Hr ltac:(simpl; lia) eq_refl).
  destruct r as [l|l]; intros [= <-]; [|exact Hr].
  rewrite (append_available_firstn _ _ _ _ Hr).
  rewrite length_app, length_map, length_firstn. lia.
Qed.

(** X6. With a technician who has at least [max_proposals] availability
    intervals and a positive target, every list [propose_slots] returns
    has exactly [max_proposals] entries, whatever the preferences: what
    the overlaps leave open is filled from the availability. *)
Theorem propose_slots_fills_target (tech : Technician)
  (prefs : list SlotArg) (max_proposals : Z) (proposals : list Proposal) :
  0 < max_proposals ->
  max_proposals <= Z.of_nat (List.length (t_availability_slots tech)) ->
  propose_slots tech prefs max_proposals = Ok proposals ->
  Z.of_nat (List.length proposals) = max_proposals.
Proof. apply propose_slots_exact_count. Qed.

(** X7. When no preference can be read (none given, a key missing, a
    timestamp that does not parse), [propose_slots] returns the first
    [max_proposals] availability intervals of the technician, verbatim and
    in declared order. *)
Theorem propose_slots_without_preferences (tech : Technician)
  (prefs : list SlotArg) (max_proposals : Z) :
  0 < max_proposals ->
  Forall (fun pref => parse_pref pref = None) prefs ->
  propose_slots tech prefs max_proposals =
  Ok (List.map (fun ts => mk_proposal (start ts) (end_ ts) (t_id tech))
        (firstn (Z.to_nat max_proposals) (t_availability_slots tech))).
Proof.
  intros Hpos Hall. unfold propose_slots.
  assert (Hscan : scan_preferences tech max_proposals prefs [] = Ok (Continue [])).
  { induction Hall as [|pref rest Hp _ IH]; simpl; [reflexivity|].
    now rewrite Hp. }
  rewrite Hscan. simpl.
  rewrite append_available_firstn by (simpl; lia).
  simpl. now rewrite Nat.sub_0_r.
Qed.

Lemma scan_availability_one (tech_id : string) (max_proposals : Z)
  (ps pe : datetime) (slots : list Slot) (r : Flow (list Proposal)) :
  max_proposals <= 0 ->
  scan_availability tech_id max_proposals ps pe slots [] = Ok r ->
  r = Continue [] \/ exists p, r = Return [p].
Proof.
  intros Hmax. induction slots as [|ts rest IH]; simpl.
  - intros [= <-]. now left.
  - destruct (parse_tech_slot ts) as [[tstart tend]|]; [|exact IH].
    destruct (overlap_slot ps pe tstart tend) as [[[ov0 ov1]|]|e]; simpl;
      [| exact IH | discriminate].
    replace (reached _ max_proposals) with true.
    + intros [= <-]. right. eauto.
    + symmetry. apply reached_spec. simpl. lia.
Qed.

(** X8. The cap is tested only after an entry has been appended: with
    [max_proposals <= 0] and a technician who has an availability
    interval, every list [propose_slots] returns has exactly one entry. *)
Theorem propose_slots_nonpositive_target (tech : Technician)
  (prefs : list SlotArg) (max_proposals : Z) (proposals : list Proposal) :
  max_proposals <= 0 ->
  t_availability_slots tech <> [] ->
  propose_slots tech prefs max_proposals = Ok proposals ->
  List.length proposals = 1%nat.
Proof.
  intros Hmax Hslots. unfold propose_slots.
  assert (Hscan : forall r,
             scan_preferences tech max_proposals prefs [] = Ok r ->
             r = Continue [] \/ exists p, r = Return [p]).
  { induction prefs as [|pref rest IH]; simpl; intros r.
    - intros [= <-]. now left.
    - destruct (parse_pref pref) as [[ps pe]|]; [|apply IH].
      destruct (scan_availability _ _ ps pe _ []) as [r0|e] eqn:E; simpl;
        [|discriminate].
      destruct (scan_availability_one _ _ _ _ _ _ Hmax E) as [->|[p ->]].
      + apply IH.
      + intros [= <-]. right. eauto. }
  destruct (scan_preferences tech max_proposals prefs []) as [r|e]; simpl;
    [|discriminate].
  destruct (Hscan r eq_refl) as [->|[p ->]]; intros [= <-]; [|reflexivity].
  destruct (t_availability_slots tech) as [|ts rest]; [congruence|].
  simpl. replace (reached _ max_proposals) with true; [reflexivity|].
  symmetry. apply reached_spec. simpl. lia.
Qed.

(** X9. [overlap_slot] is called outside the [try] blocks. When the first
    preference that parses is naive and the technician's first interval is
    aware, or the other way round, [propose_slots] raises [TypeError]. *)
Theorem propose_slots_mixed_kinds_raise (tech : Technician)
  (skipped : list SlotArg) (pref : SlotArg) (rest : list SlotArg)
  (ts : Slot) (others : list Slot) (max_proposals : Z)
  (pref_start pref_end tech_start tech_end : datetime) :
  Forall (fun p => parse_pref p = None) skipped ->
  parse_pref pref = Some (pref_start, pref_end) ->
  t_availability_slots tech = ts :: others ->
  parse_tech_slot ts = Some (tech_start, tech_end) ->
  is_aware pref_start <> is_aware tech_start ->
  propose_slots tech (skipped ++ pref :: rest)%list max_proposals
  = Raised TypeError.
Proof.
  intros Hskip Hpref Hslots Hts Hkind. unfold propose_slots.
  assert (Hscan : scan_preferences tech max_proposals
                    (skipped ++ pref :: rest)%list [] = Raised TypeError).
  { induction Hskip as [|p l Hp _ IH]; simpl.
    - rewrite Hpref, Hslots. simpl. rewrite Hts.
      unfold overlap_slot, dt_max, dt_lt. unfold is_aware in Hkind.
      destruct (tzinfo pref_start), (tzinfo tech_start);
        try congruence; reflexivity.
    - now rewrite Hp. }
  now rewrite Hscan.
Qed.

End ProposalCounts.

Lemma propose_slots_fills_target_witness :
  @propose_slots std_codec tech_03 [pref_1000_1100] 2 =
    Ok [mk_proposal "2025-09-22T10:30:00+05:30" "2025-09-22T12:30:00+05:30"
          "tech_03";
        mk_proposal "2025-09-22T15:30:00+05:30" "2025-09-22T17:00:00+05:30"
          "tech_03"]
  /\ Z.of_nat 2 = 2.
Proof.
  assert (E : @propose_slots std_codec tech_03 [pref_1000_1100] 2 =
    Ok [mk_proposal "2025-09-22T10:30:00+05:30" "2025-09-22T12:30:00+05:30"
          "tech_03";
        mk_proposal "2025-09-22T15:30:00+05:30" "2025-09-22T17:00:00+05:30"
          "tech_03"]) by (vm_compute; reflexivity).
  split; [exact E|].
  exact (@propose_slots_fills_target std_codec tech_03 [pref_1000_1100] 2 _
           ltac:(lia) ltac:(simpl; lia) E).
Defined.

Lemma propose_slots_without_preferences_witness :
  @propose_slots std_codec tech_01
    [mk_slot_arg None (Some "2025-09-20T11:00:00+05:30");
     mk_slot_arg (Some "next week") (Some "2025-09-20T11:00:00+05:30")] 1
  = Ok [mk_proposal "2025-09-20T10:00:00+05:30" "2025-09-20T12:00:00+05:30"
          "tech_01"].
Proof.
  rewrite (@propose_slots_without_preferences std_codec).
  - reflexivity.
  - lia.
  - repeat constructor.
Defined.

Lemma propose_slots_nonpositive_target_witness :
  @propose_slots std_codec tech_01 [pref_1000_1100] 0 =
    Ok [mk_proposal "2025-09-20T10:00:00+05:30" "2025-09-20T11:00:00+05:30"
          "tech_01"]
  /\ List.length
       [mk_proposal "2025-09-20T10:00:00+05:30" "2025-09-20T11:00:00+05:30"
          "tech_01"] = 1%nat.
Proof.
  assert (E : @propose_slots std_codec tech_01 [pref_1000_1100] 0 =
    Ok [mk_proposal "2025-09-20T10:00:00+05:30" "2025-09-20T11:00:00+05:30"
          "tech_01"]) by (vm_compute; reflexivity).
  split; [exact E|].
  exact (@propose_slots_nonpositive_target std_codec tech_01 [pref_1000_1100]
           0 _ ltac:(lia) ltac:(discriminate) E).
Defined.

Lemma propose_slots_mixed_kinds_witness :
  @propose_slots std_codec tech_01
    [mk_slot_arg (Some "soon") None;
     mk_slot_arg (Some "2025-09-20T10:00:00") (Some "2025-09-20T11:00:00")] 2
  = Raised TypeError.
Proof.
  apply (@propose_slots_mixed_kinds_raise std_codec tech_01
           [mk_slot_arg (Some "soon") None]
           (mk_slot_arg (Some "2025-09-20T10:00:00") (Some "2025-09-20T11:00:00"))
           []
           (mk_slot "2025-09-20T10:00:00+05:30" "2025-09-20T12:00:00+05:30")
           [mk_slot "2025-09-20T15:00:00+05:30" "2025-09-20T16:00:00+05:30"] 2
           (mk_datetime 2025 9 20 10 0 0 0 None)
           (mk_datetime 2025 9 20 11 0 0 0 None)
           at_1000 at_1200).
  - repeat constructor.
  - vm_compute. reflexivity.
  - reflexivity.
  - vm_compute. reflexivity.
  - discriminate.
Defined.

(** ** Region resolver: further results *)

Lemma lookup_loop_agree (net1 net2 : Z -> HttpResult) (fuel : nat)
  (a r : Z) :
  (forall k, a <= k <= r -> net1 k = net2 k) ->
  lookup_loop net1 fuel a r = lookup_loop net2 fuel a r.
Proof.
  revert a. induction fuel as [|f IH]; intros a Hagree; simpl; [reflexivity|].
  destruct (Z.leb_spec a r) as [Hle|Hgt]; [|reflexivity].
  rewrite Hagree by lia.
  destruct (try_lookup (net2 a)); [reflexivity|].
  apply IH. intros k Hk. apply Hagree. lia.
Qed.

(** X10. [lookup_region] makes the attempts numbered [0] to [retries] and
    no other: two services that agree on those give the same label, and
    with a negative retry budget no attempt is made and the label comes
    from the cached prefixes. *)
Theorem lookup_region_attempt_budget
  (net1 net2 : Z -> HttpResult) (pincode : string) (retries : Z) :
  (forall k, 0 <= k <= retries -> net1 k = net2 k) ->
  lookup_region net1 pincode retries = lookup_region net2 pincode retries
  /\ (retries < 0 ->
      lookup_region net1 pincode retries
      = cached_by_prefix pincode REGIONS_CACHE).
Proof.
  intros Hagree. unfold lookup_region. split.
  - now rewrite (lookup_loop_agree net1 net2 _ 0 retries Hagree).
  - intros Hneg. rewrite lookup_loop_all_fail; [reflexivity|]. intros k Hk. lia.
Qed.

Lemma lookup_region_attempt_budget_witness :
  let down := fun _ : Z => RequestException in
  let late := fun k : Z =>
    if k <? 3 then RequestException
    else HttpResponse 200 [mk_place (Some "Delhi") None] in
  lookup_region down "400001" 2 = lookup_region late "400001" 2
  /\ lookup_region late "400001" 2 = "Mumbai Suburban"
  /\ lookup_region late "400001" 3 = "Delhi".
Proof.
  intros down late.
  destruct (lookup_region_attempt_budget down late "400001" 2) as [Heq _].
  - intros k Hk. unfold down, late.
    destruct (Z.ltb_spec k 3); [reflexivity | lia].
  - split; [exact Heq | split; vm_compute; reflexivity].
Defined.

Lemma cached_by_prefix_space (c : ascii) (r : string) :
  PyStr.isspace c = true ->
  cached_by_prefix (String c r) REGIONS_CACHE = "Unknown".
Proof.
  intros Hc. rewrite cached_by_prefix_find. cbn [REGIONS_CACHE List.find
    pincode_prefix region_label PyStr.take String.prefix].
  destruct (ascii_dec "5"%char c) as [<-|_]; [discriminate Hc|].
  destruct (ascii_dec "4"%char c) as [<-|_]; [discriminate Hc|].
  destruct (ascii_dec "1"%char c) as [<-|_]; [discriminate Hc|].
  reflexivity.
Qed.

(** ** Technician matcher: further results *)

Lemma filter_filter_and {A : Type} (f g : A -> bool) (l : list A) :
  List.filter f (List.filter g l) = List.filter (fun x => g x && f x) l.
Proof.
  induction l as [|a l IH]; simpl; [reflexivity|].
  destruct (g a); simpl; [destruct (f a); now rewrite IH | exact IH].
Qed.

(** X11. Asking for a skill only narrows the match: the technicians found
    for a skill are those found without one that have the skill, in the
    same order. *)
Theorem find_technicians_for_skill_narrows
  (appliance skill region_label : string) :
  skill <> "" ->
  find_technicians_for appliance (Some skill) region_label =
  List.filter (fun tech => str_in skill (t_skills tech))
    (find_technicians_for appliance None region_label).
Proof.
  intros Hskill. unfold find_technicians_for.
  rewrite !collect_matches_filter, !app_nil_l, filter_filter_and.
  apply filter_ext. intros tech. unfold qualifies.
  destruct (String.eqb_spec skill "") as [->|_]; [congruence|].
  now rewrite andb_true_r.
Qed.

Lemma find_technicians_for_skill_narrows_witness :
  find_technicians_for "AC" (Some "ac_airflow") "Bengaluru Urban" = [tech_03].
Proof.
  rewrite find_technicians_for_skill_narrows by discriminate.
  vm_compute. reflexivity.
Defined.

(** ** Availability query: results *)

Lemma collect_availability_map (appliance region_label : string)
  (techs : list Technician) (results : list AvailabilityEntry) :
  collect_availability appliance region_label techs results =
  (results
   ++ List.map (fun tech => mk_availability_entry (t_id tech) (t_name tech)
                              (firstn 2 (t_availability_slots tech)))
        (List.filter (qualifies appliance None region_label) techs))%list.
Proof.
  revert results. induction techs as [|t rest IH]; intros results; simpl.
  - now rewrite app_nil_r.
  - rewrite IH. unfold qualifies at 2. rewrite andb_true_r.
    destruct (_ && _); simpl; [now rewrite <- app_assoc | reflexivity].
Qed.

(** X12. [ask_availability] answers 200 exactly when the stripped pincode
    is valid and the stripped appliance is not empty. It then lists, in
    the same order, the technicians that [find_technicians_for] returns
    for the resolved region without a skill, each with at most its first
    two availability intervals. *)
Theorem ask_availability_lists_matches
  (requests_get : Z -> HttpResult) (pincode appliance : option string) :
  let pin := PyStr.strip (default "" pincode) in
  let app := PyStr.strip (default "" appliance) in
  let region := lookup_region requests_get pin 2 in
  ask_availability requests_get pincode appliance =
  if validate_pincode pin && PyStr.truthy app then
    (AvailabilityOk region
       (List.map (fun tech => mk_availability_entry (t_id tech) (t_name tech)
                                (firstn 2 (t_availability_slots tech)))
          (find_technicians_for app None region)),
     200)
  else (AvailabilityError "pincode and appliance required", 400).
Proof.
  intros pin app region. unfold ask_availability. fold pin app region.
  destruct (validate_pincode pin); cbn [negb orb andb]; [|reflexivity].
  destruct (PyStr.truthy app); cbn [negb orb andb]; [|reflexivity].
  rewrite collect_availability_map, app_nil_l. unfold find_technicians_for.
  now rewrite collect_matches_filter, app_nil_l.
Qed.

(** ** Appointment lifecycle: further results *)

Lemma store_eta (st : Store) :
  mk_store (CUSTOMERS st) (JOBS st) (APPOINTMENTS st) = st.
Proof. now destruct st. Qed.

Lemma confirm_booking_ok (st : Store) (customer_id job_id technician_id : string)
  (chosen_slot : SlotArg) (uuid8 now : string) (customer : Customer)
  (job : Job) :
  PyStr.truthy customer_id = true ->
  PyStr.truthy job_id = true ->
  PyStr.truthy technician_id = true ->
  CUSTOMERS st !! customer_id = Some customer ->
  JOBS st !! job_id = Some job ->
  let ticket_id := "TK-" ++ uuid8 in
  let a := booked_appointment customer job customer_id job_id technician_id
             chosen_slot ticket_id now in
  confirm_booking st
    (mk_confirm_payload (Some customer_id) (Some job_id) (Some chosen_slot)
       (Some technician_id)) uuid8 now
  = (put_appointment st ticket_id a, (ConfirmOk ticket_id a, 200)).
Proof.
  intros Hc Hj Ht Hcust Hjob ticket_id a.
  unfold confirm_booking. simpl. rewrite Hc, Hj, Ht. simpl.
  rewrite Hcust, Hjob. unfold persist_appointment, put_appointment. simpl.
  rewrite insert_insert_eq. reflexivity.
Qed.

(** X13. With all four fields present and the customer and the job known,
    [confirm_booking] answers 200 with ticket ["TK-" ++ uuid8] and stores
    under it the appointment it returns: status [confirmed], the chosen
    slot and technician as given, name, phone and region copied from the
    customer, appliance from the job. The technician is not looked up in
    the catalogue and the job need not belong to the customer. Customers,
    jobs and every other ticket stay as they were. *)
Theorem confirm_booking_creates_appointment
  (st : Store) (customer_id job_id technician_id : string)
  (chosen_slot : SlotArg) (uuid8 now : string) (customer : Customer)
  (job : Job) :
  PyStr.truthy customer_id = true ->
  PyStr.truthy job_id = true ->
  PyStr.truthy technician_id = true ->
  CUSTOMERS st !! customer_id = Some customer ->
  JOBS st !! job_id = Some job ->
  exists st' a,
    confirm_booking st
      (mk_confirm_payload (Some customer_id) (Some job_id) (Some chosen_slot)
         (Some technician_id)) uuid8 now
    = (st', (ConfirmOk ("TK-" ++ uuid8) a, 200))
    /\ APPOINTMENTS st' !! ("TK-" ++ uuid8) = Some a
    /\ a_status a = confirmed
    /\ a_ticket_id a = Some ("TK-" ++ uuid8)
    /\ a_technician_id a = technician_id
    /\ a_slot_start a = arg_start chosen_slot
    /\ a_slot_end a = arg_end chosen_slot
    /\ a_customer_name a = c_full_name customer
    /\ a_phone a = c_phone customer
    /\ a_region_label a = c_region_label customer
    /\ a_appliance_type a = j_appliance_type job
    /\ CUSTOMERS st' = CUSTOMERS st
    /\ JOBS st' = JOBS st
    /\ (forall t, t <> "TK-" ++ uuid8 ->
                  APPOINTMENTS st' !! t = APPOINTMENTS st !! t).
Proof.
  intros Hc Hj Ht Hcust Hjob.
  eexists _, _. split.
  - apply confirm_booking_ok; eassumption.
  - simpl. rewrite lookup_insert_eq. repeat split; try reflexivity.
    intros t Hne. now rewrite lookup_insert_ne.
Qed.

Lemma confirm_booking_creates_appointment_witness :
  exists st' a,
    confirm_booking demo_store demo_confirm "9f8e7d6c"
      "2025-09-19T08:00:00+00:00"
    = (st', (ConfirmOk "TK-9f8e7d6c" a, 200))
    /\ APPOINTMENTS st' !! "TK-9f8e7d6c" = Some a
    /\ a_status a = confirmed
    /\ a_customer_name a = "Meera N".
Proof.
  destruct (confirm_booking_creates_appointment demo_store "CUST-1a2b3c4d"
              "JOB-5e6f7a8b" "tech_01" demo_slot "9f8e7d6c"
              "2025-09-19T08:00:00+00:00" demo_customer demo_job)
    as (st' & a & Hr & Hl & Hs & _ & _ & _ & _ & Hn & _);
    try reflexivity.
  exists st', a. repeat split; assumption.
Defined.

(** X14. [confirm_booking] does not remember what it confirmed: two
    confirmations of the same customer and job with different generated
    identifiers leave two appointments, both [confirmed]. *)
Theorem confirm_booking_twice_two_appointments
  (st : Store) (customer_id job_id technician_id : string)
  (slot1 slot2 : SlotArg) (uuid1 uuid2 now1 now2 : string)
  (customer : Customer) (job : Job) :
  PyStr.truthy customer_id = true ->
  PyStr.truthy job_id = true ->
  PyStr.truthy technician_id = true ->
  CUSTOMERS st !! customer_id = Some customer ->
  JOBS st !! job_id = Some job ->
  uuid1 <> uuid2 ->
  let payload1 := mk_confirm_payload (Some customer_id) (Some job_id)
                    (Some slot1) (Some technician_id) in
  let payload2 := mk_confirm_payload (Some customer_id) (Some job_id)
                    (Some slot2) (Some technician_id) in
  let st1 := fst (confirm_booking st payload1 uuid1 now1) in
  let r2 := confirm_booking st1 payload2 uuid2 now2 in
  snd (snd r2) = 200
  /\ exists a1 a2,
       APPOINTMENTS (fst r2) !! ("TK-" ++ uuid1) = Some a1
       /\ APPOINTMENTS (fst r2) !! ("TK-" ++ uuid2) = Some a2
       /\ a_status a1 = confirmed /\ a_status a2 = confirmed
       /\ a_job_id a1 = job_id /\ a_job_id a2 = job_id.
Proof.
  intros Hc Hj Ht Hcust Hjob Hne payload1 payload2 st1 r2.
  assert (Ht12 : "TK-" ++ uuid2 <> "TK-" ++ uuid1).
  { intros Heq. apply (String.app_inj "TK-") in Heq. congruence. }
  unfold r2, st1, payload1, payload2.
  rewrite (confirm_booking_ok st customer_id job_id technician_id slot1 uuid1
             now1 customer job Hc Hj Ht Hcust Hjob).
  cbn [fst].
  rewrite (confirm_booking_ok (put_appointment st ("TK-" ++ uuid1) _)
             customer_id job_id technician_id slot2 uuid2
             now2 customer job Hc Hj Ht Hcust Hjob).
  cbn [fst snd]. split; [reflexivity|].
  eexists _, _. cbn [put_appointment APPOINTMENTS].
  rewrite lookup_insert_ne by exact Ht12.
  rewrite !lookup_insert_eq. repeat split; reflexivity.
Qed.

Lemma confirm_booking_twice_witness :
  let st1 := fst (confirm_booking demo_store demo_confirm "9f8e7d6c"
                    "2025-09-19T08:00:00+00:00") in
  let r2 := confirm_booking st1 demo_confirm "0badcafe"
              "2025-09-19T08:05:00+00:00" in
  snd (snd r2) = 200
  /\ exists a1 a2,
       APPOINTMENTS (fst r2) !! "TK-9f8e7d6c" = Some a1
       /\ APPOINTMENTS (fst r2) !! "TK-0badcafe" = Some a2.
Proof.
  destruct (confirm_booking_twice_two_appointments demo_store "CUST-1a2b3c4d"
              "JOB-5e6f7a8b" "tech_01" demo_slot demo_slot "9f8e7d6c"
              "0badcafe" "2025-09-19T08:00:00+00:00"
              "2025-09-19T08:05:00+00:00" demo_customer demo_job)
    as (Hs & a1 & a2 & H1 & H2 & _);
    try reflexivity; try discriminate.
  split; [exact Hs | exists a1, a2; split; assumption].
Defined.

(** X15. An appointment confirmed for a technician id that is not in the
    catalogue cannot be rescheduled: whatever slot is asked, [reschedule]
    answers 404 "technician not found" and leaves the store as it is. *)
Theorem reschedule_after_confirm_unknown_technician
  (st : Store) (customer_id job_id technician_id : string)
  (chosen_slot new_slot : SlotArg) (uuid8 now now' : string)
  (customer : Customer) (job : Job) :
  PyStr.truthy customer_id = true ->
  PyStr.truthy job_id = true ->
  PyStr.truthy technician_id = true ->
  CUSTOMERS st !! customer_id = Some customer ->
  JOBS st !! job_id = Some job ->
  find_technician technician_id = None ->
  let st1 :=
    fst (confirm_booking st
           (mk_confirm_payload (Some customer_id) (Some job_id)
              (Some chosen_slot) (Some technician_id)) uuid8 now) in
  reschedule st1
    (mk_reschedule_payload (Some ("TK-" ++ uuid8)) (Some new_slot)) now'
  = Ok (st1, (ErrorBody "technician not found", 404)).
Proof.
  intros Hc Hj Ht Hcust Hjob Hfind st1. unfold st1.
  rewrite (confirm_booking_ok st customer_id job_id technician_id chosen_slot
             uuid8 now customer job Hc Hj Ht Hcust Hjob).
  cbn [fst]. unfold reschedule.
  cbn [rp_ticket_id rp_new_slot PyStr.given slot_given default negb orb].
  change (PyStr.truthy ("TK-" ++ uuid8)) with true. cbn [negb orb].
  cbn [put_appointment APPOINTMENTS]. rewrite lookup_insert_eq.
  cbn [booked_appointment a_technician_id]. now rewrite Hfind.
Qed.

Lemma reschedule_after_confirm_unknown_technician_witness :
  let st1 :=
    fst (confirm_booking demo_store
           (mk_confirm_payload (Some "CUST-1a2b3c4d") (Some "JOB-5e6f7a8b")
              (Some demo_slot) (Some "tech_99")) "9f8e7d6c"
           "2025-09-19T08:00:00+00:00") in
  reschedule st1 (mk_reschedule_payload (Some "TK-9f8e7d6c") (Some demo_slot))
    "2025-09-19T09:00:00+00:00"
  = Ok (st1, (ErrorBody "technician not found", 404)).
Proof.
  apply (reschedule_after_confirm_unknown_technician demo_store
           "CUST-1a2b3c4d" "JOB-5e6f7a8b" "tech_99" demo_slot demo_slot
           "9f8e7d6c" "2025-09-19T08:00:00+00:00" "2025-09-19T09:00:00+00:00"
           demo_customer demo_job); reflexivity.
Defined.

(** X16. A reschedule to a slot that equals, start and end, one of the
    assigned technician's availability intervals is accepted: the answer
    is 200 with the appointment as stored afterwards, which has the new
    slot, status [rescheduled] and the time of the call, and keeps its
    technician, ticket and any earlier cancellation reason. Other tickets
    are untouched. *)
Theorem reschedule_accepted_updates_slot
  (st : Store) (ticket_id : string) (appointment : Appointment)
  (tech : Technician) (ts : Slot) (now : string) :
  PyStr.truthy ticket_id = true ->
  APPOINTMENTS st !! ticket_id = Some appointment ->
  find_technician (a_technician_id appointment) = Some tech ->
  In ts (t_availability_slots tech) ->
  exists st' a,
    reschedule st
      (mk_reschedule_payload (Some ticket_id)
         (Some (mk_slot_arg (Some (start ts)) (Some (end_ ts))))) now
    = Ok (st', (RescheduleOk ticket_id a, 200))
    /\ APPOINTMENTS st' !! ticket_id = Some a
    /\ a_status a = rescheduled
    /\ a_slot_start a = Some (start ts)
    /\ a_slot_end a = Some (end_ ts)
    /\ a_rescheduled_at a = Some now
    /\ a_technician_id a = a_technician_id appointment
    /\ a_ticket_id a = a_ticket_id appointment
    /\ a_cancel_reason a = a_cancel_reason appointment
    /\ (forall t, t <> ticket_id ->
                  APPOINTMENTS st' !! t = APPOINTMENTS st !! t).
Proof.
  intros Ht Ha Hf Hin.
  assert (Hs : slot_available (t_availability_slots tech)
                 (mk_slot_arg (Some (start ts)) (Some (end_ ts))) = true).
  { apply slot_available_exists. exists ts. auto. }
  unfold reschedule. simpl. rewrite Ht. simpl. rewrite Ha, Hf, Hs. simpl.
  eexists _, _. split; [reflexivity|].
  simpl. rewrite lookup_insert_eq.
  repeat split; try reflexivity.
  intros t Hne. now rewrite lookup_insert_ne.
Qed.

Lemma reschedule_accepted_witness :
  exists st' a,
    reschedule booked_store
      (mk_reschedule_payload (Some "TK-9f8e7d6c")
         (Some (mk_slot_arg (Some "2025-09-20T15:00:00+05:30")
                  (Some "2025-09-20T16:00:00+05:30"))))
      "2025-09-19T10:00:00+00:00"
    = Ok (st', (RescheduleOk "TK-9f8e7d6c" a, 200))
    /\ a_status a = rescheduled
    /\ a_slot_start a = Some "2025-09-20T15:00:00+05:30".
Proof.
  destruct (APPOINTMENTS booked_store !! "TK-9f8e7d6c") as [a0|] eqn:Ea;
    [|vm_compute in Ea; discriminate].
  assert (Hf : find_technician (a_technician_id a0) = Some tech_01).
  { vm_compute in Ea. injection Ea as <-. reflexivity. }
  destruct (reschedule_accepted_updates_slot booked_store "TK-9f8e7d6c" a0
              tech_01
              (mk_slot "2025-09-20T15:00:00+05:30" "2025-09-20T16:00:00+05:30")
              "2025-09-19T10:00:00+00:00" eq_refl Ea Hf)
    as (st' & a & Hr & _ & Hs & Hstart & _).
  - right. now left.
  - exists st', a. repeat split; assumption.
Defined.

Lemma dom_put_known (m : gmap string Appointment) (k : string)
  (a a' : Appointment) :
  m !! k = Some a -> dom (<[k := a']> m) = dom m.
Proof. intros Hk. apply dom_insert_lookup_L. now rewrite Hk. Qed.

(** On a request with fields of the expected types both handlers answer,
    and what they leave is the old store up to the one appointment. *)
Lemma lifecycle_frame (st : Store) (now : string) :
  (forall payload, exists st' resp,
      reschedule st payload now = Ok (st', resp)
      /\ CUSTOMERS st' = CUSTOMERS st
      /\ JOBS st' = JOBS st
      /\ dom (APPOINTMENTS st') = dom (APPOINTMENTS st)
      /\ (snd resp <> 200 -> st' = st))
  /\ (forall payload,
        let r := cancel st payload now in
        CUSTOMERS (fst r) = CUSTOMERS st
        /\ JOBS (fst r) = JOBS st
        /\ dom (APPOINTMENTS (fst r)) = dom (APPOINTMENTS st)
        /\ (snd (snd r) <> 200 -> fst r = st)).
Proof.
  split; intros payload.
  - unfold reschedule.
    destruct (negb (PyStr.given (rp_ticket_id payload))
              || negb (slot_given (rp_new_slot payload))).
    { eexists _, _. split; [reflexivity|]. auto. }
    destruct (APPOINTMENTS st !! default "" (rp_ticket_id payload))
      as [a|] eqn:Ea.
    2:{ eexists _, _. split; [reflexivity|]. auto. }
    destruct (find_technician (a_technician_id a)) as [tech|] eqn:Ef.
    2:{ eexists _, _. split; [reflexivity|]. auto. }
    destruct (slot_available (t_availability_slots tech) _); cbn [negb].
    + eexists _, _. split; [reflexivity|].
      cbn [put_appointment CUSTOMERS JOBS APPOINTMENTS snd].
      rewrite (dom_put_known _ _ _ _ Ea). repeat split; try reflexivity.
      intros Hne. congruence.
    + destruct (find_technician_has_slot _ _ Ef) as (alt & rest & ->).
      eexists _, _. split; [reflexivity|]. auto.
  - unfold cancel.
    destruct (negb (PyStr.given (xp_ticket_id payload))); [simpl; auto|].
    destruct (APPOINTMENTS st !! default "" (xp_ticket_id payload))
      as [a|] eqn:Ea; [|simpl; auto].
    cbn [fst snd put_appointment CUSTOMERS JOBS APPOINTMENTS].
    rewrite (dom_put_known _ _ _ _ Ea). repeat split; try reflexivity.
    intros Hne. congruence.
Qed.

(** X17. [reschedule] never raises [IndexError]: every technician of the
    catalogue has an availability interval, so the alternative
    [availability_slots[0]] exists. Whenever [reschedule] answers, and for
    every [cancel], no ticket has been created or deleted, customers and
    jobs are untouched, and an answer other than 200 leaves the whole
    store as it was. *)
Theorem lifecycle_handlers_keep_ticket_set (st : Store) (now : string) :
  (forall payload,
      reschedule st payload now <> Raised IndexError
      /\ forall st' resp,
           reschedule st payload now = Ok (st', resp) ->
           CUSTOMERS st' = CUSTOMERS st
           /\ JOBS st' = JOBS st
           /\ dom (APPOINTMENTS st') = dom (APPOINTMENTS st)
           /\ (snd resp <> 200 -> st' = st))
  /\ (forall payload,
        let r := cancel st payload now in
        CUSTOMERS (fst r) = CUSTOMERS st
        /\ JOBS (fst r) = JOBS st
        /\ dom (APPOINTMENTS (fst r)) = dom (APPOINTMENTS st)
        /\ (snd (snd r) <> 200 -> fst r = st)).
Proof.
  destruct (lifecycle_frame st now) as [Hres Hcan]. split; [|exact Hcan].
  intros payload. destruct (Hres payload) as (st1 & resp1 & Hr & Hframe).
  rewrite Hr. split; [discriminate|].
  intros st' resp [= <- <-]. exact Hframe.
Qed.

Lemma lifecycle_handlers_keep_ticket_set_witness :
  let payload :=
    mk_reschedule_payload (Some "TK-9f8e7d6c")
      (Some (mk_slot_arg (Some "2025-09-21T09:00:00+05:30") None)) in
  reschedule booked_store payload "2025-09-19T10:00:00+00:00"
  = Ok (booked_store,
        (RescheduleNo "requested slot not available"
           (mk_slot "2025-09-20T10:00:00+05:30" "2025-09-20T12:00:00+05:30"),
         200))
  /\ dom (APPOINTMENTS booked_store) = dom (APPOINTMENTS booked_store).
Proof.
  intros payload.
  assert (E : reschedule booked_store payload "2025-09-19T10:00:00+00:00"
              = Ok (booked_store,
                    (RescheduleNo "requested slot not available"
                       (mk_slot "2025-09-20T10:00:00+05:30"
                          "2025-09-20T12:00:00+05:30"), 200)))
    by (vm_compute; reflexivity).
  split; [exact E|].
  destruct (lifecycle_handlers_keep_ticket_set booked_store
              "2025-09-19T10:00:00+00:00") as [Hres _].
  destruct (Hres payload) as [_ Hframe].
  now destruct (Hframe _ _ E) as (_ & _ & Hdom & _).
Defined.

(** X18. [cancel] on a known ticket sets status [cancelled] with the given
    reason and time, keeps slot and technician, and can be repeated: a
    second cancel answers 200 again and overwrites reason and time, so the
    store is the one a single cancel with the second arguments gives. *)
Theorem cancel_last_writer_wins
  (st : Store) (ticket_id : string) (appointment : Appointment)
  (reason1 reason2 : option string) (now1 now2 : string) :
  PyStr.truthy ticket_id = true ->
  APPOINTMENTS st !! ticket_id = Some appointment ->
  let once := cancel st (mk_cancel_payload (Some ticket_id) reason1) now1 in
  let twice :=
    cancel (fst once) (mk_cancel_payload (Some ticket_id) reason2) now2 in
  snd once = (CancelOk ticket_id, 200)
  /\ snd twice = (CancelOk ticket_id, 200)
  /\ fst twice
     = fst (cancel st (mk_cancel_payload (Some ticket_id) reason2) now2)
  /\ exists a,
       APPOINTMENTS (fst twice) !! ticket_id = Some a
       /\ a_status a = cancelled
       /\ a_cancel_reason a = Some (default "" reason2)
       /\ a_cancelled_at a = Some now2
       /\ a_slot_start a = a_slot_start appointment
       /\ a_slot_end a = a_slot_end appointment
       /\ a_technician_id a = a_technician_id appointment.
Proof.
  intros Ht Ha once twice.
  assert (Honce : once =
            (put_appointment st ticket_id
               (set_cancelled appointment (default "" reason1) now1),
             (CancelOk ticket_id, 200))).
  { unfold once, cancel. simpl. rewrite Ht. simpl. now rewrite Ha. }
  assert (Htwice : twice =
            (put_appointment st ticket_id
               (set_cancelled appointment (default "" reason2) now2),
             (CancelOk ticket_id, 200))).
  { unfold twice. rewrite Honce. unfold cancel. simpl. rewrite Ht. simpl.
    rewrite lookup_insert_eq. unfold put_appointment. simpl.
    now rewrite insert_insert_eq. }
  rewrite Honce, Htwice. cbn [fst snd].
  split; [reflexivity | split; [reflexivity | split]].
  - unfold cancel. simpl. rewrite Ht. simpl. now rewrite Ha.
  - eexists. simpl. rewrite lookup_insert_eq.
    repeat split; reflexivity.
Qed.

Lemma cancel_last_writer_wins_witness :
  let once :=
    cancel booked_store
      (mk_cancel_payload (Some "TK-9f8e7d6c") (Some "customer away"))
      "2025-09-19T09:00:00+00:00" in
  let twice :=
    cancel (fst once) (mk_cancel_payload (Some "TK-9f8e7d6c") None)
      "2025-09-19T09:30:00+00:00" in
  snd twice = (CancelOk "TK-9f8e7d6c", 200)
  /\ a_cancel_reason <$> (APPOINTMENTS (fst twice) !! "TK-9f8e7d6c")
     = Some (Some "").
Proof.
  intros once twice.
  destruct (APPOINTMENTS booked_store !! "TK-9f8e7d6c") as [a0|] eqn:Ea;
    [|vm_compute in Ea; discriminate].
  destruct (cancel_last_writer_wins booked_store "TK-9f8e7d6c" a0
              (Some "customer away") None "2025-09-19T09:00:00+00:00"
              "2025-09-19T09:30:00+00:00" eq_refl Ea)
    as (_ & H2 & _ & a & Hl & _ & Hr & _).
  split; [exact H2|].
  fold once in Hl. fold twice in Hl. rewrite Hl. simpl. now rewrite Hr.
Defined.

(** ** Contact and address updates: results *)

Lemma put_customer_twice (st : Store) (customer_id : string)
  (c1 c2 : Customer) :
  put_customer (put_customer st customer_id c1) customer_id c2
  = put_customer st customer_id c2.
Proof. unfold put_customer. simpl. now rewrite insert_insert_eq. Qed.

Lemma put_customer_same (st : Store) (customer_id : string) (c : Customer) :
  CUSTOMERS st !! customer_id = Some c -> put_customer st customer_id c = st.
Proof.
  intros Hc. unfold put_customer. rewrite (insert_id _ _ _ Hc).
  apply store_eta.
Qed.

(** The store [update_contact] leaves: the old one, or the old one with
    the named customer replaced by a copy that differs in phone and email
    at most. *)
Lemma update_contact_store (st : Store) (payload : ContactPayload) :
  fst (update_contact st payload) = st
  \/ exists customer_id customer c',
       up_customer_id payload = Some customer_id
       /\ CUSTOMERS st !! customer_id = Some customer
       /\ fst (update_contact st payload) = put_customer st customer_id c'
       /\ c_full_name c' = c_full_name customer
       /\ c_address_text c' = c_address_text customer
       /\ c_pincode c' = c_pincode customer
       /\ c_region_label c' = c_region_label customer
       /\ c_preferred_time_slots c' = c_preferred_time_slots customer.
Proof.
  unfold update_contact.
  destruct (up_customer_id payload) as [cid|]; simpl; [|now left].
  destruct (PyStr.truthy cid); simpl; [|now left].
  destruct (CUSTOMERS st !! cid) as [customer|] eqn:Ec; [|now left].
  destruct (PyStr.given (up_phone payload)
            && negb (validate_phone (default "" (up_phone payload))));
    [now left|].
  right. exists cid, customer.
  destruct (PyStr.given (up_email payload)
            && negb (validate_email (default "" (up_email payload)))).
  - eexists. split; [reflexivity | split; [exact Ec|]].
    split; [reflexivity|].
    destruct (PyStr.given (up_phone payload)); repeat split; reflexivity.
  - eexists. split; [reflexivity | split; [exact Ec|]].
    cbn [fst]. rewrite put_customer_twice. split; [reflexivity|].
    destruct (PyStr.given (up_phone payload)),
             (PyStr.given (up_email payload)); repeat split; reflexivity.
Qed.

(** X19. Whatever the request, [update_contact] leaves jobs and
    appointments alone (an appointment keeps the phone it was confirmed
    with), creates and deletes no customer, changes no customer but the
    named one, and of that one nothing but phone and email. *)
Theorem update_contact_touches_contact_only
  (st : Store) (payload : ContactPayload) :
  let st' := fst (update_contact st payload) in
  JOBS st' = JOBS st
  /\ APPOINTMENTS st' = APPOINTMENTS st
  /\ dom (CUSTOMERS st') = dom (CUSTOMERS st)
  /\ (forall customer_id c,
        CUSTOMERS st !! customer_id = Some c ->
        exists c',
          CUSTOMERS st' !! customer_id = Some c'
          /\ c_full_name c' = c_full_name c
          /\ c_address_text c' = c_address_text c
          /\ c_pincode c' = c_pincode c
          /\ c_region_label c' = c_region_label c
          /\ c_preferred_time_slots c' = c_preferred_time_slots c
          /\ (up_customer_id payload <> Some customer_id -> c' = c)).
Proof.
  intros st'. unfold st'.
  destruct (update_contact_store st payload)
    as [->|(cid & customer & c' & Hid & Hc & -> & Hfields)].
  - repeat split; try reflexivity. intros cid c Hc. exists c. auto 10.
  - cbn [put_customer JOBS APPOINTMENTS CUSTOMERS].
    split; [reflexivity | split; [reflexivity | split]].
    + apply dom_insert_lookup_L. now rewrite Hc.
    + intros cid' c Hc'. destruct (decide (cid = cid')) as [<-|Hne].
      * rewrite lookup_insert_eq. exists c'.
        assert (c = customer) as -> by congruence.
        destruct Hfields as (? & ? & ? & ? & ?).
        repeat split; try assumption. intros Hn. congruence.
      * rewrite lookup_insert_ne by exact Hne. exists c. auto 10.
Qed.

(** X20. [change_address] is not atomic either: for a known customer, a
    request with an address text and an invalid pincode is answered 400
    "invalid pincode", and the stored customer already has the new address
    text; pincode and region are as before. *)
Theorem change_address_text_written_before_pincode_check
  (requests_get : Z -> HttpResult) (st : Store)
  (customer_id address_text pincode : string) (customer : Customer) :
  PyStr.truthy customer_id = true ->
  CUSTOMERS st !! customer_id = Some customer ->
  PyStr.truthy address_text = true ->
  PyStr.truthy pincode = true ->
  validate_pincode pincode = false ->
  let r := change_address requests_get st
             (mk_address_payload (Some customer_id) (Some address_text)
                (Some pincode)) in
  snd r = (ErrorBody "invalid pincode", 400)
  /\ CUSTOMERS (fst r) !! customer_id
     = Some (set_address_text customer address_text)
  /\ c_address_text <$> (CUSTOMERS (fst r) !! customer_id) = Some address_text
  /\ c_pincode <$> (CUSTOMERS (fst r) !! customer_id)
     = Some (c_pincode customer).
Proof.
  intros Hc Hl Ha Hp Hbad. unfold change_address. simpl.
  rewrite Hc. simpl. rewrite Hl, Ha, Hp, Hbad. simpl.
  rewrite lookup_insert_eq. repeat split; reflexivity.
Qed.

Lemma change_address_text_written_witness :
  let r := change_address (fun _ => RequestException) demo_store
             (mk_address_payload (Some "CUST-1a2b3c4d") (Some "7 Lake View")
                (Some "56001")) in
  snd r = (ErrorBody "invalid pincode", 400)
  /\ c_address_text <$> (CUSTOMERS (fst r) !! "CUST-1a2b3c4d")
     = Some "7 Lake View".
Proof.
  destruct (change_address_text_written_before_pincode_check
              (fun _ => RequestException) demo_store "CUST-1a2b3c4d"
              "7 Lake View" "56001" demo_customer)
    as (Hr & _ & Ha & _); try reflexivity.
  split; [exact Hr | exact Ha].
Defined.

Lemma lookup_region_nonempty (net : Z -> HttpResult) (pincode : string)
  (retries : Z) : lookup_region net pincode retries <> "".
Proof.
  unfold lookup_region. destruct (lookup_loop _ _ _ _) as [l|] eqn:E.
  - eapply lookup_loop_nonempty, E.
  - apply cached_by_prefix_nonempty.
Qed.

Lemma lookup_region_all_fail (net : Z -> HttpResult) (pincode : string)
  (retries : Z) :
  (forall k, 0 <= k <= retries -> attempt_fails (net k)) ->
  lookup_region net pincode retries = cached_by_prefix pincode REGIONS_CACHE.
Proof.
  intros Hall. unfold lookup_region. rewrite lookup_loop_all_fail; [reflexivity|].
  intros k Hk. apply try_lookup_fails, Hall, Hk.
Qed.

Lemma validate_pincode_given (pincode : string) :
  validate_pincode pincode = true -> PyStr.truthy pincode = true.
Proof. destruct pincode; [vm_compute; discriminate | reflexivity]. Qed.

(** X21. [change_address] validates the stripped pincode but stores and
    resolves the pincode as sent. With a valid pincode it answers 200 and
    the stored customer has that very string as pincode and
    [lookup_region] of it, with two retries, as region, which is never
    empty. If the string starts with whitespace and every lookup attempt
    fails, the region becomes ["Unknown"] whatever the digits are. *)
Theorem change_address_resolves_pincode_as_sent
  (requests_get : Z -> HttpResult) (st : Store)
  (customer_id pincode : string) (address_text : option string)
  (customer : Customer) :
  PyStr.truthy customer_id = true ->
  CUSTOMERS st !! customer_id = Some customer ->
  validate_pincode pincode = true ->
  let r := change_address requests_get st
             (mk_address_payload (Some customer_id) address_text
                (Some pincode)) in
  snd (snd r) = 200
  /\ exists c',
       CUSTOMERS (fst r) !! customer_id = Some c'
       /\ fst (snd r) = ContactOk c'
       /\ c_pincode c' = pincode
       /\ c_region_label c' = lookup_region requests_get pincode 2
       /\ c_region_label c' <> ""
       /\ (forall c rest,
             pincode = String c rest -> PyStr.isspace c = true ->
             (forall k, 0 <= k <= 2 -> attempt_fails (requests_get k)) ->
             c_region_label c' = "Unknown").
Proof.
  intros Hc Hl Hv. unfold change_address. simpl.
  rewrite Hc. simpl. rewrite Hl, (validate_pincode_given _ Hv), Hv. simpl.
  split; [reflexivity|]. eexists. rewrite lookup_insert_eq.
  split; [reflexivity | split; [reflexivity | split; [reflexivity|]]].
  simpl. split; [reflexivity | split; [apply lookup_region_nonempty|]].
  intros c rest -> Hsp Hfail.
  rewrite (lookup_region_all_fail _ _ _ Hfail).
  now apply cached_by_prefix_space.
Qed.

Lemma change_address_resolves_pincode_witness :
  let r := change_address (fun _ => RequestException) demo_store
             (mk_address_payload (Some "CUST-1a2b3c4d") None
                (Some " 400001")) in
  snd (snd r) = 200
  /\ c_pincode <$> (CUSTOMERS (fst r) !! "CUST-1a2b3c4d") = Some " 400001"
  /\ c_region_label <$> (CUSTOMERS (fst r) !! "CUST-1a2b3c4d")
     = Some "Unknown".
Proof.
  destruct (change_address_resolves_pincode_as_sent
              (fun _ => RequestException) demo_store "CUST-1a2b3c4d"
              " 400001" None demo_customer)
    as (Hs & c' & Hl & _ & Hp & _ & _ & Hunk); try reflexivity.
  split; [exact Hs|]. rewrite Hl. simpl. rewrite Hp.
  rewrite (Hunk " "%char "400001" eq_refl eq_refl (fun _ _ => I)).
  split; reflexivity.
Defined.

(** ** Warm transfer: results *)

(** X22. For a known ticket [escalate_to_human] answers 200 with a summary
    built from the stored appointment alone: customer name, appliance and
    symptoms as stored, no attempted slots, the reason of the request, and
    of the phone only the first two and last two characters around three
    stars. The [context] of the request is not read. *)
Theorem escalate_to_human_known_ticket
  (st : Store) (ticket_id : string) (appointment : Appointment)
  (reason : option string) (context : option TransferSource) :
  PyStr.truthy ticket_id = true ->
  APPOINTMENTS st !! ticket_id = Some appointment ->
  escalate_to_human st (mk_escalate_payload (Some ticket_id) reason context)
  = Ok (mk_transfer_summary (Some (a_customer_name appointment))
          (PyStr.take 2 (a_phone appointment) ++ "***"
           ++ last_two (a_phone appointment))
          (Some (a_appliance_type appointment))
          (Some (a_fault_symptoms appointment)) []
          (Some (default "" reason)),
        200).
Proof.
  intros Ht Ha. unfold escalate_to_human. simpl. rewrite Ht, Ha. reflexivity.
Qed.

Lemma escalate_to_human_known_ticket_witness :
  exists summary,
    escalate_to_human booked_store
      (mk_escalate_payload (Some "TK-9f8e7d6c") (Some "no show") None)
    = Ok (summary, 200)
    /\ s_phone summary = "98***10"
    /\ s_reason summary = Some "no show".
Proof.
  destruct (APPOINTMENTS booked_store !! "TK-9f8e7d6c") as [a0|] eqn:Ea;
    [|vm_compute in Ea; discriminate].
  eexists. split.
  - exact (escalate_to_human_known_ticket booked_store "TK-9f8e7d6c" a0
             (Some "no show") None eq_refl Ea).
  - vm_compute in Ea. injection Ea as <-. split; reflexivity.
Defined.

(** X23. Without a known ticket the summary is built from the [context]
    of the request, and [warm_transfer_payload] slices its phone without
    looking: when the context is missing or has no phone, the handler
    raises [TypeError] instead of answering. *)
Theorem escalate_to_human_without_phone_raises
  (st : Store) (payload : EscalatePayload) :
  (forall t, ep_ticket_id payload = Some t -> PyStr.truthy t = true ->
             APPOINTMENTS st !! t = None) ->
  (forall ctx, ep_context payload = Some ctx -> x_phone ctx = None) ->
  escalate_to_human st payload = Raised TypeError.
Proof.
  intros Hticket Hctx. unfold escalate_to_human.
  assert (Hnone : (if PyStr.given (ep_ticket_id payload)
                   then APPOINTMENTS st !! default "" (ep_ticket_id payload)
                   else None) = None).
  { destruct (ep_ticket_id payload) as [t|]; simpl; [|reflexivity].
    destruct (PyStr.truthy t) eqn:Et; [|reflexivity]. now apply Hticket. }
  rewrite Hnone.
  destruct (ep_context payload) as [ctx|]; simpl.
  - unfold warm_transfer_payload. now rewrite (Hctx ctx eq_refl).
  - reflexivity.
Qed.

Lemma escalate_to_human_without_phone_witness :
  escalate_to_human demo_store
    (mk_escalate_payload None (Some "customer angry") None)
  = Raised TypeError
  /\ escalate_to_human demo_store
       (mk_escalate_payload (Some "TK-00000000") None
          (Some (mk_transfer_source (Some "Meera N") None (Some "AC") None [])))
     = Raised TypeError.
Proof.
  split; apply escalate_to_human_without_phone_raises; simpl.
  - intros t [=].
  - intros ctx [=].
  - intros t [= <-] _. reflexivity.
  - intros ctx [= <-]. reflexivity.
Defined.

(** ** Intake handlers: results *)

Lemma catalogue_two_slots (tech : Technician) :
  In tech TECHNICIANS_DATA -> List.length (t_availability_slots tech) = 2%nat.
Proof.
  simpl. intros [<-|[<-|[<-|[<-|[<-|[<-|[]]]]]]]; reflexivity.
Qed.

Lemma find_technicians_for_in_catalogue
  (appliance : string) (skill : option string) (region_label : string)
  (tech : Technician) :
  In tech (find_technicians_for appliance skill region_label) ->
  In tech TECHNICIANS_DATA.
Proof.
  unfold find_technicians_for. rewrite collect_matches_filter, app_nil_l.
  intros Hin. now apply filter_In in Hin as [Hin _].
Qed.

Section IntakeResults.

Context `{IsoCodec}.

Lemma gather_proposals_first (first : Technician) (others : list Technician)
  (prefs : list SlotArg) :
  List.length (t_availability_slots first) = 2%nat ->
  gather_proposals (first :: others) prefs = propose_slots first prefs 2.
Proof.
  intros Hslots. unfold gather_proposals.
  destruct (propose_slots first prefs 2) as [l|e] eqn:E; simpl; [|reflexivity].
  assert (Hl : Z.of_nat (List.length l) = 2).
  { apply (propose_slots_exact_count first prefs 2 l); [lia | lia | exact E]. }
  destruct others as [|t rest]; simpl; [reflexivity|].
  now rewrite Hl.
Qed.

(** X24. Every technician of the catalogue has two availability
    intervals, so the first matched technician always yields two
    proposals and the intake loop that would ask further technicians is
    never entered: the proposals gathered for a request are exactly those
    of [propose_slots] for the first match, and none when nobody
    matches. *)
Theorem gather_proposals_asks_first_match_only
  (appliance : string) (skill : option string) (region_label : string)
  (prefs : list SlotArg) :
  gather_proposals (find_technicians_for appliance skill region_label) prefs
  = match find_technicians_for appliance skill region_label with
    | [] => Ok []
    | first :: _ => propose_slots first prefs 2
    end.
Proof.
  destruct (find_technicians_for appliance skill region_label)
    as [|first others] eqn:E; [reflexivity|].
  apply gather_proposals_first, catalogue_two_slots.
  apply (find_technicians_for_in_catalogue appliance skill region_label).
  rewrite E. now left.
Qed.

(** X25. When one of the five checks fails, [register_service_issue]
    answers 400 and leaves the store as it was. Its error list names every
    check that failed, not only the first, and no other; an empty email is
    not an error. *)
Theorem register_service_issue_reports_every_failed_check
  (requests_get : Z -> HttpResult) (st : Store) (payload : IntakePayload)
  (uuid_c uuid_j : string) :
  intake_valid payload = false ->
  exists errors,
    register_service_issue requests_get st payload uuid_c uuid_j
    = Ok (st, (IntakeError errors, 400))
    /\ errors <> []
    /\ (In "full_name required" errors
        <-> PyStr.truthy (stripped (ip_full_name payload)) = false)
    /\ (In "invalid phone (expected 10-digit Indian mobile)" errors
        <-> validate_phone (stripped (ip_phone payload)) = false)
    /\ (In "invalid email" errors
        <-> PyStr.truthy (stripped (ip_email payload)) = true
            /\ validate_email (stripped (ip_email payload)) = false)
    /\ (In "invalid pincode (6 digits)" errors
        <-> validate_pincode (stripped (ip_pincode payload)) = false)
    /\ (In "appliance_type required" errors
        <-> PyStr.truthy (stripped (ip_appliance_type payload)) = false).
Proof.
  unfold intake_valid, register_service_issue. fold (stripped (ip_full_name payload))
    (stripped (ip_phone payload)) (stripped (ip_email payload))
    (stripped (ip_pincode payload)) (stripped (ip_appliance_type payload))
    (stripped (ip_address_text payload)).
  destruct (PyStr.truthy (stripped (ip_full_name payload))) eqn:E1,
           (validate_phone (stripped (ip_phone payload))) eqn:E2,
           (PyStr.truthy (stripped (ip_email payload))) eqn:E3,
           (validate_email (stripped (ip_email payload))) eqn:E4,
           (validate_pincode (stripped (ip_pincode payload))) eqn:E5,
           (PyStr.truthy (stripped (ip_appliance_type payload))) eqn:E6;
    cbn [negb andb orb error_if app list_truthy]; intros Hbad;
    try discriminate Hbad;
    (eexists; split; [reflexivity|]);
    (split; [discriminate|]);
    cbn [In];
    repeat split; intros; try reflexivity; try tauto;
    repeat match goal with
           | Hor : _ \/ _ |- _ => destruct Hor
           | Hand : _ /\ _ |- _ => destruct Hand
           | Hf : False |- _ => destruct Hf
           end;
    try discriminate; try congruence; auto 6.
Qed.

Lemma intake_valid_checks (payload : IntakePayload) :
  intake_valid payload = true ->
  PyStr.truthy (stripped (ip_full_name payload)) = true
  /\ validate_phone (stripped (ip_phone payload)) = true
  /\ (PyStr.truthy (stripped (ip_email payload))
      && negb (validate_email (stripped (ip_email payload)))) = false
  /\ validate_pincode (stripped (ip_pincode payload)) = true
  /\ PyStr.truthy (stripped (ip_appliance_type payload)) = true.
Proof.
  unfold intake_valid. rewrite !andb_true_iff.
  intros [[[[H1 H2] H3] H4] H5]. repeat split; try assumption.
  destruct (PyStr.truthy (stripped (ip_email payload))); simpl in *;
    [now rewrite H3 | reflexivity].
Qed.

Lemma register_service_issue_ok (requests_get : Z -> HttpResult)
  (st : Store) (payload : IntakePayload) (uuid_c uuid_j : string) :
  intake_valid payload = true ->
  let pin := stripped (ip_pincode payload) in
  let app := stripped (ip_appliance_type payload) in
  let region := lookup_region requests_get pin 2 in
  let techs :=
    find_technicians_for app (head (ip_fault_symptoms payload)) region in
  let customer :=
    mk_customer (stripped (ip_full_name payload)) (stripped (ip_phone payload))
      (stripped (ip_email payload)) (stripped (ip_address_text payload)) pin
      region (ip_preferred_time_slots payload) in
  let job :=
    mk_job "service" app (default "" (ip_model_if_known payload))
      (ip_fault_symptoms payload) [] (default "normal" (ip_urgency payload))
      ("CUST-" ++ uuid_c) in
  register_service_issue requests_get st payload uuid_c uuid_j
  = (proposals ← gather_proposals techs (ip_preferred_time_slots payload);
     Ok (put_job (put_customer st ("CUST-" ++ uuid_c) customer)
           ("JOB-" ++ uuid_j) job,
         (ServiceOk ("CUST-" ++ uuid_c) ("JOB-" ++ uuid_j) region
            (Z.of_nat (List.length techs)) proposals (knowledge_questions app),
          200))).
Proof.
  intros Hv. destruct (intake_valid_checks payload Hv) as (H1 & H2 & H3 & H4 & H5).
  unfold register_service_issue.
  fold (stripped (ip_full_name payload)) (stripped (ip_phone payload))
    (stripped (ip_email payload)) (stripped (ip_pincode payload))
    (stripped (ip_appliance_type payload))
    (stripped (ip_address_text payload)).
  rewrite H1, H2, H3, H4, H5. reflexivity.
Qed.

Lemma book_installation_ok (requests_get : Z -> HttpResult)
  (st : Store) (payload : IntakePayload) (uuid_c uuid_j : string) :
  intake_valid payload = true ->
  let pin := stripped (ip_pincode payload) in
  let app := stripped (ip_appliance_type payload) in
  let region := lookup_region requests_get pin 2 in
  let techs := find_technicians_for app None region in
  let customer :=
    mk_customer (stripped (ip_full_name payload)) (stripped (ip_phone payload))
      (stripped (ip_email payload)) (default "" (ip_address_text payload)) pin
      region (ip_preferred_time_slots payload) in
  let job :=
    mk_job "installation" app (default "" (ip_model_if_known payload)) []
      (ip_installation_details payload) (default "normal" (ip_urgency payload))
      ("CUST-" ++ uuid_c) in
  book_installation requests_get st payload uuid_c uuid_j
  = (proposals ← gather_proposals techs (ip_preferred_time_slots payload);
     Ok (put_job (put_customer st ("CUST-" ++ uuid_c) customer)
           ("JOB-" ++ uuid_j) job,
         (InstallationOk ("CUST-" ++ uuid_c) ("JOB-" ++ uuid_j) region
            proposals, 200))).
Proof.
  intros Hv. destruct (intake_valid_checks payload Hv) as (H1 & H2 & H3 & H4 & H5).
  unfold book_installation.
  fold (stripped (ip_full_name payload)) (stripped (ip_phone payload))
    (stripped (ip_email payload)) (stripped (ip_pincode payload))
    (stripped (ip_appliance_type payload)).
  rewrite H1, H2, H3, H4, H5. reflexivity.
Qed.

(** X26. When the five checks pass, [register_service_issue] resolves the
    stripped pincode, matches technicians with the first fault symptom as
    required skill, and, unless gathering proposals raises (then the
    handler raises too and nothing is stored), answers 200 and stores one
    customer under ["CUST-" ++ uuid_c] and one job under
    ["JOB-" ++ uuid_j]: the customer with the stripped fields and the
    resolved, non-empty region, the job of kind "service" pointing to that
    customer. [matched_tech_count] is the number of matches and no
    appointment is created. *)
Theorem register_service_issue_stores_customer_and_job
  (requests_get : Z -> HttpResult) (st : Store) (payload : IntakePayload)
  (uuid_c uuid_j : string) :
  intake_valid payload = true ->
  let pin := stripped (ip_pincode payload) in
  let app := stripped (ip_appliance_type payload) in
  let region := lookup_region requests_get pin 2 in
  let techs :=
    find_technicians_for app (head (ip_fault_symptoms payload)) region in
  let gathered := gather_proposals techs (ip_preferred_time_slots payload) in
  (forall e, gathered = Raised e ->
             register_service_issue requests_get st payload uuid_c uuid_j
             = Raised e)
  /\ (forall proposals, gathered = Ok proposals ->
      exists st' job,
        register_service_issue requests_get st payload uuid_c uuid_j
        = Ok (st',
              (ServiceOk ("CUST-" ++ uuid_c) ("JOB-" ++ uuid_j) region
                 (Z.of_nat (List.length techs)) proposals
                 (knowledge_questions app), 200))
        /\ CUSTOMERS st' !! ("CUST-" ++ uuid_c)
           = Some (mk_customer (stripped (ip_full_name payload))
                     (stripped (ip_phone payload))
                     (stripped (ip_email payload))
                     (stripped (ip_address_text payload)) pin region
                     (ip_preferred_time_slots payload))
        /\ JOBS st' !! ("JOB-" ++ uuid_j) = Some job
        /\ j_customer_id job = "CUST-" ++ uuid_c
        /\ j_request_type job = "service"
        /\ j_appliance_type job = app
        /\ j_fault_symptoms job = ip_fault_symptoms payload
        /\ APPOINTMENTS st' = APPOINTMENTS st
        /\ region <> "").
Proof.
  intros Hv pin app region techs gathered.
  rewrite (register_service_issue_ok requests_get st payload uuid_c uuid_j Hv).
  fold pin app region techs gathered. split.
  - intros e ->. reflexivity.
  - intros proposals ->. eexists _, _. split; [reflexivity|].
    cbn [put_job put_customer CUSTOMERS JOBS APPOINTMENTS].
    rewrite !lookup_insert_eq.
    repeat split; try reflexivity. apply lookup_region_nonempty.
Qed.

(** X27. Intake and confirmation compose: the identifiers that
    [register_service_issue] hands out are accepted by [confirm_booking],
    for any slot and any non-empty technician id, and the appointment it
    creates is [confirmed] and carries the name, phone, region, appliance
    and symptoms recorded at intake. *)
Theorem confirm_booking_after_register_service_issue
  (requests_get : Z -> HttpResult) (st : Store) (payload : IntakePayload)
  (uuid_c uuid_j uuid8 now technician_id : string) (chosen_slot : SlotArg)
  (proposals : list Proposal) :
  intake_valid payload = true ->
  gather_proposals
    (find_technicians_for (stripped (ip_appliance_type payload))
       (head (ip_fault_symptoms payload))
       (lookup_region requests_get (stripped (ip_pincode payload)) 2))
    (ip_preferred_time_slots payload) = Ok proposals ->
  PyStr.truthy technician_id = true ->
  exists st1 body st2 a,
    register_service_issue requests_get st payload uuid_c uuid_j
    = Ok (st1, (body, 200))
    /\ confirm_booking st1
         (mk_confirm_payload (Some ("CUST-" ++ uuid_c))
            (Some ("JOB-" ++ uuid_j)) (Some chosen_slot) (Some technician_id))
         uuid8 now
       = (st2, (ConfirmOk ("TK-" ++ uuid8) a, 200))
    /\ APPOINTMENTS st2 !! ("TK-" ++ uuid8) = Some a
    /\ a_status a = confirmed
    /\ a_customer_name a = stripped (ip_full_name payload)
    /\ a_phone a = stripped (ip_phone payload)
    /\ a_region_label a
       = lookup_region requests_get (stripped (ip_pincode payload)) 2
    /\ a_appliance_type a = stripped (ip_appliance_type payload)
    /\ a_fault_symptoms a = ip_fault_symptoms payload.
Proof.
  intros Hv Hg Ht.
  rewrite (register_service_issue_ok requests_get st payload uuid_c uuid_j Hv).
  cbv zeta. rewrite Hg. cbn [mbind Res_bind].
  eexists _, _, _, _. split; [reflexivity|]. split.
  - apply confirm_booking_ok; try reflexivity; try exact Ht.
    + cbn [put_job put_customer CUSTOMERS]. apply lookup_insert_eq.
    + cbn [put_job put_customer JOBS]. apply lookup_insert_eq.
  - cbn [put_appointment APPOINTMENTS]. rewrite lookup_insert_eq.
    repeat split; reflexivity.
Qed.

(** X28. [book_installation] passes the same five checks and differs
    after them: it matches technicians without any skill, stores the
    address text as sent (not stripped), and records a job of kind
    "installation" with no fault symptoms and the installation details of
    the request. Its answer carries the two new identifiers, the region
    and the proposals. *)
Theorem book_installation_stores_installation_job
  (requests_get : Z -> HttpResult) (st : Store) (payload : IntakePayload)
  (uuid_c uuid_j : string) (proposals : list Proposal) :
  intake_valid payload = true ->
  let pin := stripped (ip_pincode payload) in
  let app := stripped (ip_appliance_type payload) in
  let region := lookup_region requests_get pin 2 in
  gather_proposals (find_technicians_for app None region)
    (ip_preferred_time_slots payload) = Ok proposals ->
  exists st' customer job,
    book_installation requests_get st payload uuid_c uuid_j
    = Ok (st',
          (InstallationOk ("CUST-" ++ uuid_c) ("JOB-" ++ uuid_j) region
             proposals, 200))
    /\ CUSTOMERS st' !! ("CUST-" ++ uuid_c) = Some customer
    /\ c_address_text customer = default "" (ip_address_text payload)
    /\ c_pincode customer = pin
    /\ c_region_label customer = region
    /\ JOBS st' !! ("JOB-" ++ uuid_j) = Some job
    /\ j_request_type job = "installation"
    /\ j_customer_id job = "CUST-" ++ uuid_c
    /\ j_fault_symptoms job = []
    /\ j_installation_details job = ip_installation_details payload
    /\ APPOINTMENTS st' = APPOINTMENTS st.
Proof.
  intros Hv pin app region Hg.
  rewrite (book_installation_ok requests_get st payload uuid_c uuid_j Hv).
  fold pin app region. rewrite Hg. cbn [mbind Res_bind].
  eexists _, _, _. split; [reflexivity|].
  cbn [put_job put_customer CUSTOMERS JOBS APPOINTMENTS].
  rewrite !lookup_insert_eq. repeat split; reflexivity.
Qed.

End IntakeResults.

Lemma register_service_issue_reports_witness :
  exists errors,
    @register_service_issue std_codec service_down demo_store
      (mk_intake_payload None (Some "12345") (Some "meera") None None []
         (Some "AC") [] [] None None) "1a2b3c4d" "5e6f7a8b"
    = Ok (demo_store, (IntakeError errors, 400))
    /\ In "full_name required" errors
    /\ In "invalid email" errors
    /\ ~ In "appliance_type required" errors.
Proof.
  destruct (@register_service_issue_reports_every_failed_check std_codec
              service_down demo_store
              (mk_intake_payload None (Some "12345") (Some "meera") None None
                 [] (Some "AC") [] [] None None) "1a2b3c4d" "5e6f7a8b")
    as (errors & Hr & _ & Hname & _ & Hemail & _ & Happ).
  - vm_compute. reflexivity.
  - exists errors. split; [exact Hr | split; [|split]].
    + apply Hname. vm_compute. reflexivity.
    + apply Hemail. split; vm_compute; reflexivity.
    + intros Hin. apply Happ in Hin. vm_compute in Hin. discriminate.
Defined.

Lemma register_service_issue_stores_witness :
  exists st',
    @register_service_issue std_codec service_down demo_store demo_intake
      "0a0b0c0d" "0e0f0a0b"
    = Ok (st',
          (ServiceOk "CUST-0a0b0c0d" "JOB-0e0f0a0b" "Bengaluru Urban" 1
             demo_proposals (knowledge_questions "WashingMachine"), 200))
    /\ c_full_name <$> (CUSTOMERS st' !! "CUST-0a0b0c0d") = Some "Meera N"
    /\ c_pincode <$> (CUSTOMERS st' !! "CUST-0a0b0c0d") = Some "560001".
Proof.
  destruct (@register_service_issue_stores_customer_and_job std_codec
              service_down demo_store demo_intake "0a0b0c0d" "0e0f0a0b")
    as [_ Hok]; [vm_compute; reflexivity|].
  destruct (Hok demo_proposals) as (st' & job & Hr & Hc & _);
    [vm_compute; reflexivity|].
  change ("CUST-" ++ "0a0b0c0d") with "CUST-0a0b0c0d" in Hc.
  exists st'. split; [exact Hr|]. rewrite Hc. split; vm_compute; reflexivity.
Defined.

Lemma confirm_booking_after_register_witness :
  exists st1 body st2 a,
    @register_service_issue std_codec service_down demo_store demo_intake
      "0a0b0c0d" "0e0f0a0b" = Ok (st1, (body, 200))
    /\ confirm_booking st1
         (mk_confirm_payload (Some "CUST-0a0b0c0d") (Some "JOB-0e0f0a0b")
            (Some demo_slot) (Some "tech_01")) "9f8e7d6c"
         "2025-09-19T08:00:00+00:00"
       = (st2, (ConfirmOk "TK-9f8e7d6c" a, 200))
    /\ a_status a = confirmed
    /\ a_customer_name a = "Meera N"
    /\ a_region_label a = "Bengaluru Urban".
Proof.
  destruct (@confirm_booking_after_register_service_issue std_codec
              service_down demo_store demo_intake "0a0b0c0d" "0e0f0a0b"
              "9f8e7d6c" "2025-09-19T08:00:00+00:00" "tech_01" demo_slot
              demo_proposals)
    as (st1 & body & st2 & a & Hr & Hc & _ & Hs & Hn & _ & Hreg & _);
    try (vm_compute; reflexivity).
  exists st1, body, st2, a.
  split; [exact Hr | split; [exact Hc | split; [exact Hs | split]]].
  - rewrite Hn. vm_compute. reflexivity.
  - rewrite Hreg. vm_compute. reflexivity.
Defined.

Lemma book_installation_stores_witness :
  exists st' customer,
    @book_installation std_codec service_down demo_store demo_intake
      "0a0b0c0d" "0e0f0a0b"
    = Ok (st',
          (InstallationOk "CUST-0a0b0c0d" "JOB-0e0f0a0b" "Bengaluru Urban"
             demo_proposals, 200))
    /\ CUSTOMERS st' !! "CUST-0a0b0c0d" = Some customer
    /\ c_address_text customer = " 12 MG Road ".
Proof.
  destruct (@book_installation_stores_installation_job std_codec
              service_down demo_store demo_intake "0a0b0c0d" "0e0f0a0b"
              demo_proposals)
    as (st' & customer & job & Hr & Hc & Ha & _);
    try (vm_compute; reflexivity).
  exists st', customer. split; [exact Hr | split; [exact Hc | exact Ha]].
Defined.

(** ** Observability endpoint: results *)

(** X29. [debug_state] lists exactly the stored customers, each with phone
    and email passed through [mask_pii] and everything else, full name and
    address included, as stored; a phone of ten digits is shown as seven
    characters. It reports the number of stored tickets and of catalogue
    technicians. *)
Theorem debug_state_masks_phone_and_email (st : Store) :
  let view := fst (debug_state st) in
  dom (d_customers view) = dom (CUSTOMERS st)
  /\ d_appointments_count view = Z.of_nat (size (APPOINTMENTS st))
  /\ d_technicians_count view = 6
  /\ (forall customer_id c,
        CUSTOMERS st !! customer_id = Some c ->
        exists c',
          d_customers view !! customer_id = Some c'
          /\ c_phone c' = mask_pii (c_phone c)
          /\ c_email c' = mask_pii (c_email c)
          /\ c_full_name c' = c_full_name c
          /\ c_address_text c' = c_address_text c
          /\ c_pincode c' = c_pincode c
          /\ (String.length (c_phone c) = 10%nat ->
              all_chars PyStr.isdigit (c_phone c) = true ->
              String.length (c_phone c') = 7%nat)).
Proof.
  intros view. unfold view, debug_state. cbn [fst d_customers
    d_appointments_count d_technicians_count].
  split; [apply dom_fmap_L | split; [reflexivity | split; [reflexivity|]]].
  intros cid c Hc. exists (masked_copy c).
  rewrite lookup_fmap, Hc. repeat split; try reflexivity.
  intros Hlen Hdig. cbn [masked_copy set_email set_phone c_phone].
  assert (Hne : c_phone c <> "") by (destruct (c_phone c); [discriminate Hlen | discriminate]).
  assert (Hat : all_chars not_at (c_phone c) = true).
  { clear Hlen Hne. induction (c_phone c) as [|ch s IH]; [reflexivity|].
    cbn [all_chars] in Hdig |- *. apply andb_true_iff in Hdig as [Hch Hs].
    rewrite (IH Hs), andb_true_r. unfold not_at.
    destruct (Ascii.eqb_spec ch "@"%char) as [->|_]; [discriminate Hch | reflexivity]. }
  unfold mask_pii. rewrite contains_at, Hat.
  destruct (c_phone c) as [|ch s] eqn:Ep; [congruence|].
  cbn [PyStr.truthy negb]. rewrite !length_append, length_take.
  unfold last_two. rewrite length_drop, Hlen. reflexivity.
Qed.

(** ** The resolver on the wire: results *)

Lemma wire_label_of_place_read (place : list (string * json))
  (st pn : option string) :
  read_text place "state" = Some st ->
  read_text place "place name" = Some pn ->
  Wire.label_of_place (JObject place) = Ok (label_of_place (mk_place st pn)).
Proof.
  unfold read_text, Wire.label_of_place, label_of_place, py_get.
  cbn [state place_name].
  destruct (obj_get "state" place) as [[| | |s| |]|]; try discriminate;
    intros [= <-];
    destruct (obj_get "place name" place) as [[| | |n| |]|]; try discriminate;
    intros [= <-]; reflexivity.
Qed.

Lemma wire_label_of_place_unread (place : list (string * json)) :
  read_text place "state" = None \/ read_text place "place name" = None ->
  exists e, Wire.label_of_place (JObject place) = Raised e.
Proof.
  unfold read_text, Wire.label_of_place, py_get.
  destruct (obj_get "state" place) as [[| | |s| |]|];
    destruct (obj_get "place name" place) as [[| | |n| |]|];
    intros [H|H]; try discriminate H; simpl; eauto.
Qed.

(** A readable answer is handled as its reading is. *)
Lemma wire_try_lookup_read (r : Wire.HttpReply) (hr : HttpResult) :
  read_reply r = Some hr -> Wire.try_lookup r = Ok (try_lookup hr).
Proof.
  destruct r as [|code body]; simpl.
  - now intros [= <-].
  - destruct (Z.eqb_spec code 200) as [->|Hne]; simpl.
    2:{ intros [= <-]. simpl.
        destruct (Z.eqb_spec code 200); [congruence | reflexivity]. }
    destruct body as [js|]; [|now intros [= <-]].
    destruct js as [| | | | |fields]; try discriminate.
    simpl. destruct (obj_get "places" fields) as [places|];
      [|now intros [= <-]].
    simpl. destruct (json_truthy places) eqn:Et; simpl;
      [|now intros [= <-]].
    destruct places as [| | | |[|[| | | | |place] rest]|]; try discriminate.
    simpl.
    destruct (read_text place "state") as [st|] eqn:Es; [|discriminate].
    destruct (read_text place "place name") as [pn|] eqn:En; [|discriminate].
    intros [= <-]. rewrite (wire_label_of_place_read place st pn Es En).
    reflexivity.
Qed.

(** An answer that cannot be read makes the [try] block raise. *)
Lemma wire_try_lookup_unread (r : Wire.HttpReply) :
  read_reply r = None -> exists e, Wire.try_lookup r = Raised e.
Proof.
  destruct r as [|code body]; simpl; [discriminate|].
  destruct (Z.eqb_spec code 200) as [->|Hne]; simpl; [|discriminate].
  destruct body as [js|]; [|discriminate].
  destruct js as [| | | | |fields]; simpl; eauto.
  destruct (obj_get "places" fields) as [places|]; [|discriminate].
  simpl. destruct (json_truthy places) eqn:Et; simpl; [|discriminate].
  destruct places as [|b|n|s|items|pf]; simpl in Et |- *; eauto;
    try discriminate Et.
  - destruct s; [discriminate Et | simpl; eauto].
  - destruct items as [|x rest]; [discriminate Et|]. simpl.
    destruct x as [| | | | |place]; simpl; eauto.
    intros Hread.
    destruct (wire_label_of_place_unread place) as [e He].
    + destruct (read_text place "state");
        [destruct (read_text place "place name"); [discriminate | now right]
        | now left].
    + rewrite He. simpl. eauto.
Qed.

Lemma wire_lookup_loop_read (net : Z -> Wire.HttpReply)
  (read : Z -> HttpResult) (fuel : nat) (a r : Z) :
  (forall k, a <= k <= r -> read_reply (net k) = Some (read k)) ->
  Wire.lookup_loop net fuel a r = Ok (lookup_loop read fuel a r).
Proof.
  revert a. induction fuel as [|f IH]; intros a Hread; simpl; [reflexivity|].
  destruct (Z.leb_spec a r) as [Hle|Hgt]; [|reflexivity].
  rewrite (wire_try_lookup_read _ _ (Hread a ltac:(lia))). simpl.
  destruct (try_lookup (read a)); [reflexivity|].
  apply IH. intros k Hk. apply Hread. lia.
Qed.

Lemma wire_lookup_region_read (net : Z -> Wire.HttpReply)
  (read : Z -> HttpResult) (pincode : string) (retries : Z) :
  (forall k, 0 <= k <= retries -> read_reply (net k) = Some (read k)) ->
  Wire.lookup_region net pincode retries
  = Ok (lookup_region read pincode retries).
Proof.
  intros Hread. unfold Wire.lookup_region, lookup_region.
  now rewrite (wire_lookup_loop_read net read _ 0 retries Hread).
Qed.

Lemma wire_lookup_loop_raises (net : Z -> Wire.HttpReply) (fuel : nat)
  (a r k : Z) :
  a <= k <= r ->
  (Z.to_nat (r + 1 - a) <= fuel)%nat ->
  (forall j, a <= j < k ->
             exists rj, read_reply (net j) = Some rj /\ attempt_fails rj) ->
  read_reply (net k) = None ->
  exists e, Wire.lookup_loop net fuel a r = Raised e.
Proof.
  revert a. induction fuel as [|f IH]; intros a Hk Hfuel Hbefore Hat.
  - lia.
  - simpl. destruct (Z.leb_spec a r) as [Hle|Hgt]; [|lia].
    destruct (Z.eq_dec a k) as [->|Hne].
    + destruct (wire_try_lookup_unread _ Hat) as [e ->]. simpl. eauto.
    + destruct (Hbefore a ltac:(lia)) as (rj & Hrj & Hfail).
      rewrite (wire_try_lookup_read _ _ Hrj). simpl.
      apply try_lookup_fails in Hfail. rewrite Hfail.
      apply IH; try lia; [|exact Hat].
      intros j Hj. apply Hbefore. lia.
Qed.

(** C1, as stated, fails: a 200 answer whose first place has [null] for
    its state makes [lookup_region] raise [AttributeError], which the
    handler for [requests.RequestException] does not catch. *)
Lemma lookup_region_null_state_raises :
  Wire.lookup_region (fun _ => null_state_reply) "110001" 2
  = Raised AttributeError
  /\ forall label,
       Wire.lookup_region (fun _ => null_state_reply) "110001" 2 <> Ok label.
Proof. split; [vm_compute; reflexivity | intros label; vm_compute; discriminate]. Qed.

(** C1, amended. Whenever every attempt raises [RequestException], answers
    with a status other than 200, or answers 200 with a body of the shape
    the interface describes, [lookup_region] returns a label, and the
    label is not empty. It degrades through three tiers. The first attempt
    that answers 200 with a place record decides: the label is that of the
    first cached entry whose lower-case label occurs in the lower-case
    state or place name, else the state, else the place name, else
    ["Unknown"]. When every attempt fails, the label is that of the first
    cached entry whose 4-character pincode prefix is a prefix of the
    input, and ["Unknown"] when there is none. A 200 answer of another
    shape, met before any success, makes the function raise. *)
Theorem lookup_region_degrades_on_readable_answers
  (requests_get : Z -> Wire.HttpReply) (read : Z -> HttpResult)
  (pincode : string) (retries : Z) :
  ((forall k, 0 <= k <= retries ->
              read_reply (requests_get k) = Some (read k)) ->
   exists label,
     Wire.lookup_region requests_get pincode retries = Ok label
     /\ label <> ""
     /\ (forall k p ps,
           0 <= k <= retries ->
           (forall j, 0 <= j < k -> attempt_fails (read j)) ->
           read k = HttpResponse 200 (p :: ps) ->
           let st := PyStr.strip (default "" (state p)) in
           let pn := PyStr.strip (default "" (place_name p)) in
           label =
           match List.find (label_occurs st pn) REGIONS_CACHE with
           | Some r => region_label r
           | None => if PyStr.truthy st then st
                     else if PyStr.truthy pn then pn else "Unknown"
           end)
     /\ ((forall k, 0 <= k <= retries -> attempt_fails (read k)) ->
         label = match prefix_entry pincode with
                 | Some r => region_label r
                 | None => "Unknown"
                 end))
  /\ (forall k,
        0 <= k <= retries ->
        (forall j, 0 <= j < k ->
                   exists rj, read_reply (requests_get j) = Some rj
                              /\ attempt_fails rj) ->
        read_reply (requests_get k) = None ->
        exists e, Wire.lookup_region requests_get pincode retries = Raised e).
Proof.
  split.
  - intros Hread. exists (lookup_region read pincode retries).
    split; [now apply wire_lookup_region_read|].
    split; [apply lookup_region_nonempty|]. split.
    + intros k p ps Hk Hbefore Hat st pn.
      rewrite (lookup_region_on_success _ _ _ _ _ _ Hk Hbefore Hat).
      unfold label_of_place. fold st pn. rewrite map_to_cached_find.
      destruct (List.find _ REGIONS_CACHE); reflexivity.
    + intros Hall. rewrite (lookup_region_all_fail _ _ _ Hall).
      apply cached_by_prefix_find.
  - intros k Hk Hbefore Hat. unfold Wire.lookup_region.
    destruct (wire_lookup_loop_raises requests_get
                (Z.to_nat (retries + 1)) 0 retries k Hk ltac:(lia)
                Hbefore Hat) as [e ->].
    simpl. eauto.
Qed.

Lemma lookup_region_degrades_witness :
  let net := fun k : Z =>
    if k =? 0 then Wire.RequestException else delhi_reply in
  Wire.lookup_region net "560001" 2 = Ok "Delhi"
  /\ Wire.lookup_region (fun _ => Wire.Reply 503 None) "560001" 2
     = Ok "Bengaluru Urban"
  /\ exists e,
       Wire.lookup_region
         (fun k : Z => if k =? 0 then Wire.Reply 200 (Some (JArray []))
                       else delhi_reply) "560001" 2 = Raised e.
Proof.
  intros net.
  pose (read := fun k : Z =>
    if k =? 0 then RequestException
    else HttpResponse 200
           [mk_place (Some "Delhi") (Some "Connaught Place")]).
  destruct (lookup_region_degrades_on_readable_answers net read "560001" 2)
    as [Hok _].
  destruct Hok as (label & Hr & _ & Hlive & _).
  { intros k Hk. unfold net, read. destruct (k =? 0); reflexivity. }
  destruct (lookup_region_degrades_on_readable_answers
              (fun _ => Wire.Reply 503 None) (fun _ => HttpResponse 503 [])
              "560001" 2) as [Hok2 _].
  destruct Hok2 as (label2 & Hr2 & _ & _ & Hfall); [reflexivity|].
  destruct (lookup_region_degrades_on_readable_answers
              (fun k : Z => if k =? 0 then Wire.Reply 200 (Some (JArray []))
                            else delhi_reply) read "560001" 2) as [_ Hraise].
  split; [|split].
  - rewrite Hr. f_equal.
    apply (Hlive 1 (mk_place (Some "Delhi") (Some "Connaught Place")) []);
      [lia | | reflexivity].
    intros j Hj. assert (j = 0) as -> by lia. exact I.
  - rewrite Hr2. f_equal. rewrite Hfall; [reflexivity|].
    intros k Hk. left. discriminate.
  - apply (Hraise 0); [lia | intros j Hj; lia | reflexivity].
Defined.

(** ** Slot engine: the identical interval *)

(** C6. [overlap_slot] computes the overlap as the claim says: an interval
    met with itself gives that interval, once. The list [propose_slots]
    returns for it has two entries all the same, because the last loop,
    announced with "if no overlaps found", runs after an overlap was found
    and appends the availability interval itself. *)
Theorem propose_slots_identical_interval_listed_twice :
  overlap_slot at_1000 at_1200 at_1000 at_1200 = Ok (Some (at_1000, at_1200))
  /\ @scan_preferences std_codec tech_01 2 [demo_slot] [] =
     Ok (Continue
           [mk_proposal "2025-09-20T10:00:00+05:30"
              "2025-09-20T12:00:00+05:30" "tech_01"])
  /\ @propose_slots std_codec tech_01 [demo_slot] 2 =
     Ok [mk_proposal "2025-09-20T10:00:00+05:30" "2025-09-20T12:00:00+05:30"
           "tech_01";
         mk_proposal "2025-09-20T10:00:00+05:30" "2025-09-20T12:00:00+05:30"
           "tech_01"].
Proof. repeat split; vm_compute; reflexivity. Qed.
